(** * Donation tracker API: the QR-donation lifecycle

    A shallow embedding of the request / tracking / redemption / rating
    handlers of [api/views.py], the validation hooks of
    [api/serializers.py] and the relational schema of [api/models.py],
    followed by the properties of the lifecycle that are established on it.

    Conventions.
    - Instants are integers counting microseconds (the resolution of a
      [DateTimeField]); a [timedelta] is a difference of instants.
    - A [DecimalField(max_digits=9, decimal_places=6)] coordinate is an
      integer number of micro-degrees; the [decimal_places=8] coordinates of
      [LocationUpdate] are integers in units of 1e-8 degree.
    - Tables are lists of rows in insertion order; primary keys come from a
      per-table counter.
    - Every [timezone.now()] is a separate reading of a monotone clock.
    - Storage failures, which the handlers guard against with
      [try/except] and [transaction.atomic()], are driven by an oracle. *)

From Stdlib Require Import ZArith QArith Lia Ascii String.
From stdpp Require Import gmap strings list fin_maps.

#[local] Set Warnings "-register-all".
#[local] Open Scope Z_scope.

(** ** Python values as they arrive in [request.data] *)

Inductive Json :=
  | JNull
  | JBool (b : bool)
  | JInt (z : Z)
  | JFloat (q : Q)
  | JStr (s : string)
  | JList (l : list Json)
  | JDict (d : gmap string Json).

(** A Python [dict] with string keys. *)
Abbreviation Dict := (gmap string Json).

Inductive Exc :=
  | ValidationError (field message : string)
  | Http404
  | DoesNotExist
  | MultipleObjectsReturned
  | IntegrityError
  | StorageError
  | ValueError
  | TypeError
  | AttributeError
  | InvalidOperation.

Definition Result (A : Type) : Type := Exc + A.

Definition and_then {A B} (r : Result A) (k : A -> Result B) : Result B :=
  match r with
  | inl e => inl e
  | inr a => k a
  end.

Notation "'let?' x ':=' r 'in' k" := (and_then r (fun x => k))
  (at level 10, x pattern, r at level 100, k at level 200).

Module Py.

(** [bool(v)]: what [if v:], [not v] and [all([...])] test. *)
Definition truthy (v : Json) : bool :=
  match v with
  | JNull => false
  | JBool b => b
  | JInt z => negb (z =? 0)
  | JFloat q => negb (Qeq_bool q 0)
  | JStr s => negb (String.eqb s "")
  | JList l => match l with [] => false | _ => true end
  | JDict d => negb (bool_decide (d = ∅))
  end.

Definition truthy_str (s : string) : bool := negb (String.eqb s "").

Definition is_space (a : ascii) : bool :=
  let n := nat_of_ascii a in
  ((9 <=? n) && (n <=? 13) || (28 <=? n) && (n <=? 32))%nat.

Definition is_digit (a : ascii) : bool :=
  let n := nat_of_ascii a in ((48 <=? n) && (n <=? 57))%nat.

Definition digit_value (a : ascii) : Z := Z.of_nat (nat_of_ascii a) - 48.

Fixpoint lstrip (s : string) : string :=
  match s with
  | String a rest => if is_space a then lstrip rest else s
  | EmptyString => EmptyString
  end.

Definition strip (s : string) : string :=
  String.rev (lstrip (String.rev (lstrip s))).

(** Decimal digits with single underscores between digits. *)
Fixpoint digits (seen : bool) (acc : Z) (s : string) : option Z :=
  match s with
  | EmptyString => if seen then Some acc else None
  | String a rest =>
      if is_digit a then digits true (acc * 10 + digit_value a) rest
      else if Ascii.eqb a "_" then
        if seen then
          match rest with
          | String b _ => if is_digit b then digits false acc rest else None
          | EmptyString => None
          end
        else None
      else None
  end.

(** [int(s)] for a [str] of ASCII characters (the limit on the number of
    digits of recent interpreters is not applied). *)
Definition int_of_string (s : string) : Result Z :=
  match strip s with
  | String "-" rest =>
      match digits false 0 rest with Some n => inr (- n) | None => inl ValueError end
  | String "+" rest =>
      match digits false 0 rest with Some n => inr n | None => inl ValueError end
  | body =>
      match digits false 0 body with Some n => inr n | None => inl ValueError end
  end.

(** [int(v)]: a float is truncated toward zero, a string is parsed, [None]
    and containers raise [TypeError]. *)
Definition int (v : Json) : Result Z :=
  match v with
  | JInt z => inr z
  | JBool b => inr (if b then 1 else 0)
  | JFloat q => inr (Z.quot (Qnum q) (Z.pos (Qden q)))
  | JStr s => int_of_string s
  | JNull | JList _ | JDict _ => inl TypeError
  end.

(** [v > 0]. *)
Definition gt_zero (v : Json) : Result bool :=
  match v with
  | JInt z => inr (0 <? z)
  | JBool b => inr b
  | JFloat q => inr (negb (Qle_bool q 0))
  | JNull | JStr _ | JList _ | JDict _ => inl TypeError
  end.

(** [d.get(k, default)]. *)
Definition get (d : Dict) (k : string) (default : Json) : Json :=
  match d !! k with Some v => v | None => default end.

End Py.

(** ** The relational schema ([api/models.py]) *)

Definition Instant := Z.

Definition hours (n : Z) : Z := n * 3600 * 1000000.

Module User.
(** [request.user] of an authenticated request; accounts themselves are
    issued elsewhere. *)
Record t := mk {
  id : Z;
  first_name : string;
  last_name : string;
  email : string;
  username : string;
  role : string
  }.
End User.

Module AnonymousLocation.
(** The columns the lifecycle reads or writes ([email], [accuracy],
    [created_at] and [updated_at] are carried by no decision). *)
Record t := mk {
  id : Z;
  first_name : string;
  last_name : string;
  phone : string;
  facebook : string;
  notes : string;
  photo : option string;
  supply_needs : Json;
  latitude : Z;
  longitude : Z;
  last_seen : Instant;
  is_active : bool;
  session_id : string;
  qr_code : option string;
  donation_received : bool;
  donated_by_user : option Z;
  donation_timestamp : option Instant;
  next_request_allowed_at : option Instant
  }.

Definition set_last_seen (v : Instant) (l : t) : t :=
  mk (id l) (first_name l) (last_name l) (phone l) (facebook l) (notes l)
     (photo l) (supply_needs l) (latitude l) (longitude l) v (is_active l)
     (session_id l) (qr_code l) (donation_received l) (donated_by_user l)
     (donation_timestamp l) (next_request_allowed_at l).

Definition set_qr_code (v : option string) (l : t) : t :=
  mk (id l) (first_name l) (last_name l) (phone l) (facebook l) (notes l)
     (photo l) (supply_needs l) (latitude l) (longitude l) (last_seen l)
     (is_active l) (session_id l) v (donation_received l) (donated_by_user l)
     (donation_timestamp l) (next_request_allowed_at l).

(** The five assignments of a redemption: [donation_received = True],
    [donated_by_user], [donation_timestamp], [next_request_allowed_at]
    and [is_active = False]. *)
Definition set_donated (user : Z) (donated allowed : Instant) (l : t) : t :=
  mk (id l) (first_name l) (last_name l) (phone l) (facebook l) (notes l)
     (photo l) (supply_needs l) (latitude l) (longitude l) (last_seen l)
     false (session_id l) (qr_code l) true (Some user) (Some donated)
     (Some allowed).
End AnonymousLocation.

Module DonatorOnTheWay.
Record t := mk {
  id : Z;
  location : Z;
  donator : Z;
  marked_at : Instant;
  arrived : bool;
  is_tracking : bool;
  last_location_update : option Instant
  }.

Definition set_arrived (b : bool) (d : t) : t :=
  mk (id d) (location d) (donator d) (marked_at d) b (is_tracking d)
     (last_location_update d).

Definition set_is_tracking (b : bool) (d : t) : t :=
  mk (id d) (location d) (donator d) (marked_at d) (arrived d) b
     (last_location_update d).

Definition set_last_location_update (v : Instant) (d : t) : t :=
  mk (id d) (location d) (donator d) (marked_at d) (arrived d)
     (is_tracking d) (Some v).

(** What [mark_on_the_way] assigns to a row that exists already. *)
Definition restart (marked : Instant) (d : t) : t :=
  mk (id d) (location d) (donator d) marked false true
     (last_location_update d).
End DonatorOnTheWay.

Module LocationUpdate.
Record t := mk {
  id : Z;
  donator_on_the_way : Z;
  latitude : Z;
  longitude : Z;
  accuracy : Q;
  timestamp : Instant
  }.
End LocationUpdate.

Module DonationHistory.
Record t := mk {
  id : Z;
  donator : Z;
  affected_first_name : string;
  affected_last_name : string;
  affected_phone : string;
  latitude : Z;
  longitude : Z;
  supply_needs_fulfilled : Json;
  qr_code : string;
  donated_at : Instant;
  notes : string
  }.

Definition set_supply_needs_fulfilled (v : Json) (h : t) : t :=
  mk (id h) (donator h) (affected_first_name h) (affected_last_name h)
     (affected_phone h) (latitude h) (longitude h) v (qr_code h)
     (donated_at h) (notes h).
End DonationHistory.

Module DonationRating.
Record t := mk {
  id : Z;
  donation_history : Z;
  rating : option Z;
  comment : string;
  supplies_confirmed : Json;
  rated_at : Instant;
  session_id : string
  }.
End DonationRating.

(** The database: one list of rows and one primary-key counter per table. *)
Record Store := mkStore {
    locations : list AnonymousLocation.t;
    donators_on_the_way : list DonatorOnTheWay.t;
    location_updates : list LocationUpdate.t;
    donation_history : list DonationHistory.t;
    donation_ratings : list DonationRating.t;
    next_location_id : Z;
    next_donator_on_the_way_id : Z;
    next_location_update_id : Z;
    next_donation_history_id : Z;
    next_donation_rating_id : Z
  }.

(** ** Messages sent to the channel layer *)

Inductive EventData :=
  | QrScanData (session_id : string) (donation_history_id : Z)
      (donator_name donator_email : string) (supply_needs_fulfilled : Json)
      (qr_code : string) (donated_at : Instant)
  | TrackingStartedData (locationId donatorId : Z)
      (donatorUsername donatorFirstName donatorLastName message : string)
      (timestamp : Instant)
  | TrackingPositionData (locationId : Json) (donatorId : Z)
      (donatorUsername donatorFirstName donatorLastName : string)
      (latitude longitude : Q) (accuracy : Json) (timestamp : Instant)
      (message : string)
  | TrackingStoppedData (locationId : Json) (donatorId : Z)
      (donatorUsername message : string).

Record Message := mkMessage {
    group : string;
    msg_type : string;
    data : EventData
  }.

(** ** The world a request runs in *)

Record World := mkWorld {
    store : Store;
    (** the last reading of the clock, and how far it advances before each of
        the next readings *)
    clock : Instant;
    delays : list N;
    (** the values the next calls of [uuid.uuid4().hex[:12].upper()] return *)
    uuids : list string;
    (** whether each of the next storage or channel operations fails *)
    faults : list bool;
    (** what [group_send] has delivered so far *)
    sent : list Message
  }.

Definition with_store (s : Store) (w : World) : World :=
  mkWorld s (clock w) (delays w) (uuids w) (faults w) (sent w).

(** ** Handlers as state-and-exception computations *)

Definition M (A : Type) : Type := World -> Result A * World.

Definition ret {A} (a : A) : M A := fun w => (inr a, w).

Definition raise {A} (e : Exc) : M A := fun w => (inl e, w).

Definition bind {A B} (m : M A) (k : A -> M B) : M B :=
  fun w => match m w with
           | (inr a, w') => k a w'
           | (inl e, w') => (inl e, w')
           end.

Notation "'let!' x ':=' m 'in' k" := (bind m (fun x => k))
  (at level 10, x pattern, m at level 100, k at level 200).
Notation "'do!' m 'in' k" := (bind m (fun _ => k))
  (at level 10, m at level 100, k at level 200).

(** [try: m except Exception as e: h e] *)
Definition try_except {A} (m : M A) (h : Exc -> M A) : M A :=
  fun w => match m w with
           | (inr a, w') => (inr a, w')
           | (inl e, w') => h e w'
           end.

(** [with transaction.atomic(): m]: an exception leaving the block undoes
    every write to the database made inside it, and is raised again. *)
Definition atomic {A} (m : M A) : M A :=
  fun w => match m w with
           | (inr a, w') => (inr a, w')
           | (inl e, w') => (inl e, with_store (store w) w')
           end.

Definition lift {A} (r : Result A) : M A := fun w => (r, w).

(** The clock advances by the next delay. *)
Definition tick (w : World) : World :=
  mkWorld (store w) (clock w + Z.of_N (hd 0%N (delays w))) (tail (delays w))
          (uuids w) (faults w) (sent w).

Definition pop_uuid (w : World) : World :=
  mkWorld (store w) (clock w) (delays w) (tail (uuids w)) (faults w) (sent w).

Definition pop_fault (w : World) : World :=
  mkWorld (store w) (clock w) (delays w) (uuids w) (tail (faults w)) (sent w).

Definition post (m : Message) (w : World) : World :=
  mkWorld (store w) (clock w) (delays w) (uuids w) (faults w) (sent w ++ [m]).

(** [timezone.now()] *)
Definition timezone_now : M Instant := fun w => (inr (clock (tick w)), tick w).

(** [uuid.uuid4().hex[:12].upper()] *)
Definition uuid4_hex12 : M string :=
  fun w => (inr (hd "000000000000"%string (uuids w)), pop_uuid w).

(** The oracle is consulted once by every write and every send. *)
Definition fault : M unit :=
  fun w => if hd false (faults w) then (inl StorageError, pop_fault w)
           else (inr tt, pop_fault w).

Definition query {A} (f : Store -> A) : M A := fun w => (inr (f (store w)), w).

Definition write {A} (f : Store -> Result (A * Store)) : M A :=
  do! fault in
  fun w => match f (store w) with
           | inr (a, s) => (inr a, with_store s w)
           | inl e => (inl e, w)
           end.

(** [async_to_sync(channel_layer.group_send)(group, {'type': ty, 'data': d})] *)
Definition group_send (g ty : string) (d : EventData) : M unit :=
  do! fault in
  fun w => (inr tt, post (mkMessage g ty d) w).

(** [CHANNEL_LAYERS] of [settings.py] configures the in-memory layer, so
    [get_channel_layer()] is not [None]. *)
Definition channel_layer_configured : bool := true.

(** ** Library functions the handlers call

    Their code is not part of the repository; the development is
    parametric in them. *)
Class Runtime := {
    (** [bleach.clean(s, strip=True)] *)
    bleach_clean : string -> string;
    (** [str(v)] *)
    py_str : Json -> string;
    (** [json.loads(s)], [None] standing for [JSONDecodeError] *)
    json_loads : string -> option Json;
    (** what a [DecimalField(max_digits, decimal_places)] column stores for a
        value that is not an integer (a [float], a [str], a container), in
        units of [10^-decimal_places]; [None] when the conversion raises *)
    decimal_of_value : nat -> nat -> Json -> option Z;
    (** [float(s)], [None] standing for [ValueError] *)
    float_of_str : string -> option Q
  }.

(** ** The object manager: queries and writes *)

Definition set_locations (l : list AnonymousLocation.t) (s : Store) : Store :=
  mkStore l (donators_on_the_way s) (location_updates s) (donation_history s)
    (donation_ratings s) (next_location_id s) (next_donator_on_the_way_id s)
    (next_location_update_id s) (next_donation_history_id s)
    (next_donation_rating_id s).

Definition set_donators_on_the_way (l : list DonatorOnTheWay.t) (s : Store) : Store :=
  mkStore (locations s) l (location_updates s) (donation_history s)
    (donation_ratings s) (next_location_id s) (next_donator_on_the_way_id s)
    (next_location_update_id s) (next_donation_history_id s)
    (next_donation_rating_id s).

Definition set_donation_history (l : list DonationHistory.t) (s : Store) : Store :=
  mkStore (locations s) (donators_on_the_way s) (location_updates s) l
    (donation_ratings s) (next_location_id s) (next_donator_on_the_way_id s)
    (next_location_update_id s) (next_donation_history_id s)
    (next_donation_rating_id s).

(** [.get(...)] on the rows a filter selected. *)
Definition get_unique {A} (rows : list A) : Result A :=
  match rows with
  | [] => inl DoesNotExist
  | [x] => inr x
  | _ => inl MultipleObjectsReturned
  end.

(** [.first()] under [ordering = ['-last_seen']]: the row seen last, the
    earliest inserted among equals. *)
Fixpoint first_by_last_seen (rows : list AnonymousLocation.t)
  : option AnonymousLocation.t :=
  match rows with
  | [] => None
  | x :: rest =>
      match first_by_last_seen rest with
      | Some y =>
          if AnonymousLocation.last_seen x <? AnonymousLocation.last_seen y
          then Some y else Some x
      | None => Some x
      end
  end.

Definition has_qr_code (q : string) (l : AnonymousLocation.t) : bool :=
  match AnonymousLocation.qr_code l with
  | Some q' => String.eqb q' q
  | None => false
  end.

(** [unique=True] on [qr_code]: no other row may carry the same code. *)
Definition qr_code_conflict (l : AnonymousLocation.t) (rows : list AnonymousLocation.t) : bool :=
  match AnonymousLocation.qr_code l with
  | Some q =>
      existsb (fun r => negb (AnonymousLocation.id r =? AnonymousLocation.id l)
                        && has_qr_code q r) rows
  | None => false
  end.

(** INSERT of a new [AnonymousLocation]; [row] receives the primary key. *)
Definition locations_insert (row : Z -> AnonymousLocation.t) (s : Store)
  : Result (AnonymousLocation.t * Store) :=
  let l := row (next_location_id s) in
  if qr_code_conflict l (locations s) then inl IntegrityError
  else inr (l, mkStore (locations s ++ [l]) (donators_on_the_way s)
                 (location_updates s) (donation_history s) (donation_ratings s)
                 (next_location_id s + 1) (next_donator_on_the_way_id s)
                 (next_location_update_id s) (next_donation_history_id s)
                 (next_donation_rating_id s)).

(** UPDATE of the row with the primary key of [l]. *)
Definition locations_update (l : AnonymousLocation.t) (s : Store)
  : Result (unit * Store) :=
  if qr_code_conflict l (locations s) then inl IntegrityError
  else inr (tt, set_locations
                  (map (fun r => if AnonymousLocation.id r =? AnonymousLocation.id l
                                 then l else r) (locations s)) s).

(** DELETE of a location; [on_delete=CASCADE] removes its tracking rows and
    their position samples. *)
Definition locations_delete (pk : Z) (s : Store) : Result (unit * Store) :=
  let gone := List.filter (fun d => DonatorOnTheWay.location d =? pk)
                          (donators_on_the_way s) in
  inr (tt, mkStore
    (List.filter (fun r => negb (AnonymousLocation.id r =? pk)) (locations s))
    (List.filter (fun d => negb (DonatorOnTheWay.location d =? pk))
                 (donators_on_the_way s))
    (List.filter (fun u => negb (existsb (fun d => DonatorOnTheWay.id d =?
                                   LocationUpdate.donator_on_the_way u) gone))
                 (location_updates s))
    (donation_history s) (donation_ratings s) (next_location_id s)
    (next_donator_on_the_way_id s) (next_location_update_id s)
    (next_donation_history_id s) (next_donation_rating_id s)).

Definition is_pair (location donator : Z) (d : DonatorOnTheWay.t) : bool :=
  (DonatorOnTheWay.location d =? location) && (DonatorOnTheWay.donator d =? donator).

(** INSERT of a tracking row under [unique_together = ['location', 'donator']]. *)
Definition donators_insert (row : Z -> DonatorOnTheWay.t) (s : Store)
  : Result (DonatorOnTheWay.t * Store) :=
  let d := row (next_donator_on_the_way_id s) in
  if existsb (is_pair (DonatorOnTheWay.location d) (DonatorOnTheWay.donator d))
             (donators_on_the_way s)
  then inl IntegrityError
  else inr (d, mkStore (locations s) (donators_on_the_way s ++ [d])
                 (location_updates s) (donation_history s) (donation_ratings s)
                 (next_location_id s) (next_donator_on_the_way_id s + 1)
                 (next_location_update_id s) (next_donation_history_id s)
                 (next_donation_rating_id s)).

Definition donators_update (d : DonatorOnTheWay.t) (s : Store) : Result (unit * Store) :=
  if existsb (fun r => negb (DonatorOnTheWay.id r =? DonatorOnTheWay.id d)
                       && is_pair (DonatorOnTheWay.location d)
                                  (DonatorOnTheWay.donator d) r)
             (donators_on_the_way s)
  then inl IntegrityError
  else inr (tt, set_donators_on_the_way
                  (map (fun r => if DonatorOnTheWay.id r =? DonatorOnTheWay.id d
                                 then d else r) (donators_on_the_way s)) s).

(** [DonatorOnTheWay.objects.filter(location=..., donator=...).update(arrived=True)] *)
Definition donators_mark_arrived (location donator : Z) (s : Store)
  : Result (unit * Store) :=
  inr (tt, set_donators_on_the_way
             (map (fun d => if is_pair location donator d
                         then DonatorOnTheWay.set_arrived true d else d)
                  (donators_on_the_way s)) s).

Definition location_updates_insert (row : Z -> LocationUpdate.t) (s : Store)
  : Result (LocationUpdate.t * Store) :=
  let u := row (next_location_update_id s) in
  inr (u, mkStore (locations s) (donators_on_the_way s) (location_updates s ++ [u])
            (donation_history s) (donation_ratings s) (next_location_id s)
            (next_donator_on_the_way_id s) (next_location_update_id s + 1)
            (next_donation_history_id s) (next_donation_rating_id s)).

Definition history_insert (row : Z -> DonationHistory.t) (s : Store)
  : Result (DonationHistory.t * Store) :=
  let h := row (next_donation_history_id s) in
  inr (h, mkStore (locations s) (donators_on_the_way s) (location_updates s)
            (donation_history s ++ [h]) (donation_ratings s) (next_location_id s)
            (next_donator_on_the_way_id s) (next_location_update_id s)
            (next_donation_history_id s + 1) (next_donation_rating_id s)).

Definition history_update (h : DonationHistory.t) (s : Store) : Result (unit * Store) :=
  inr (tt, set_donation_history
             (map (fun r => if DonationHistory.id r =? DonationHistory.id h
                            then h else r) (donation_history s)) s).

(** INSERT of a rating; [OneToOneField] makes [donation_history] unique. *)
Definition ratings_insert (row : Z -> DonationRating.t) (s : Store)
  : Result (DonationRating.t * Store) :=
  let r := row (next_donation_rating_id s) in
  if existsb (fun x => DonationRating.donation_history x =?
                       DonationRating.donation_history r) (donation_ratings s)
  then inl IntegrityError
  else inr (r, mkStore (locations s) (donators_on_the_way s) (location_updates s)
                 (donation_history s) (donation_ratings s ++ [r])
                 (next_location_id s) (next_donator_on_the_way_id s)
                 (next_location_update_id s) (next_donation_history_id s)
                 (next_donation_rating_id s + 1)).

(** ** Requests and responses *)

Inductive Upload :=
  | ImageFile (name : string)
  | NotAFile.

Module LocationPayload.
(** [request.data] of a submission, [request.FILES] merged in.  Absent
    keys are [None].  Text is as [CharField] hands it on (trimmed),
    coordinates are decimals with at most six places, in micro-degrees.
    The keys [email], [accuracy] and [donated_by_user], which the
    serializer accepts as well, reach no decision followed here and are
    left out with their columns. *)
Record t := mk {
  first_name : option string;
  last_name : option string;
  phone : option string;
  facebook : option string;
  notes : option string;
  photo : option Upload;
  supply_needs : option Json;
  latitude : option Z;
  longitude : option Z;
  session_id : option string;
  is_active : option bool;
  donation_received : option bool;
  donation_timestamp : option (option Instant);
  next_request_allowed_at : option (option Instant)
  }.

Definition set_notes (v : option string) (a : t) : t :=
  mk (first_name a) (last_name a) (phone a) (facebook a) v (photo a)
     (supply_needs a) (latitude a) (longitude a) (session_id a) (is_active a)
     (donation_received a) (donation_timestamp a) (next_request_allowed_at a).

Definition set_facebook (v : option string) (a : t) : t :=
  mk (first_name a) (last_name a) (phone a) v (notes a) (photo a)
     (supply_needs a) (latitude a) (longitude a) (session_id a) (is_active a)
     (donation_received a) (donation_timestamp a) (next_request_allowed_at a).

Definition set_supply_needs (v : option Json) (a : t) : t :=
  mk (first_name a) (last_name a) (phone a) (facebook a) (notes a) (photo a)
     v (latitude a) (longitude a) (session_id a) (is_active a)
     (donation_received a) (donation_timestamp a) (next_request_allowed_at a).
End LocationPayload.

Module RatingPayload.
Record t := mk {
  donation_history_id : option Z;
  session_id : option string;
  rating : option Z;
  comment : option string;
  supplies_confirmed : option Json
  }.
End RatingPayload.

Module PositionPayload.
Record t := mk {
  locationId : option Json;
  latitude : option Json;
  longitude : option Json;
  (** [None] when the key is absent, [Some JNull] for an explicit null *)
  accuracy : option Json
  }.
End PositionPayload.

Inductive Body :=
  | ErrorBody (error : string)
  | FieldErrors (field message : string)
  | RestrictionBody (error : string) (next_allowed_at : Instant)
      (time_remaining_seconds hours_remaining minutes_remaining : Z)
  | LocationBody (location : AnonymousLocation.t)
      (on_the_way : list DonatorOnTheWay.t)
  | StatusBody (status message : string)
  | MarkedBody (status : string) (location : AnonymousLocation.t)
      (on_the_way : list DonatorOnTheWay.t) (message : string)
  | DonationBody (status : string) (location : AnonymousLocation.t)
      (on_the_way : list DonatorOnTheWay.t) (message : string)
      (next_request_allowed_at : option Instant)
  | RatingBody (rating : DonationRating.t)
  | PositionBody (status message : string) (timestamp : Instant).

Record Response := mkResponse {
    status_code : Z;
    body : Body
  }.

(** What the framework answers when an exception leaves a view. *)
Definition exception_handler (e : Exc) : Response :=
  match e with
  | ValidationError f m => mkResponse 400 (FieldErrors f m)
  | Http404 => mkResponse 404 (ErrorBody "Not found.")
  | _ => mkResponse 500 (ErrorBody "Server Error (500)")
  end.

Definition dispatch (view : M Response) (w : World) : Response * World :=
  match view w with
  | (inr r, w') => (r, w')
  | (inl e, w') => (exception_handler e, w')
  end.

(** ** [AnonymousLocationSerializer] *)

Module AnonymousLocationSerializer.

Definition nine_digits (s : string) : bool :=
  (String.length s =? 9)%nat && forallb Py.is_digit (list_ascii_of_string s).

(** [RegexValidator(regex=r'^(09|\+639)\d{9}$')] of [phone] *)
Definition valid_phone (s : string) : bool :=
  match s with
  | String "0" (String "9" rest) => nine_digits rest
  | String "+" (String "6" (String "3" (String "9" rest))) => nine_digits rest
  | _ => false
  end.

Definition check_text (name : string) (required : bool) (allow_blank : bool)
    (max_length : nat) (v : option string) : Result unit :=
  match v with
  | None => if required then inl (ValidationError name "This field is required.")
            else inr tt
  | Some s =>
      if negb allow_blank && String.eqb s ""
      then inl (ValidationError name "This field may not be blank.")
      else if (max_length <? String.length s)%nat
      then inl (ValidationError name "Ensure this field has no more than max_length characters.")
      else inr tt
  end.

(** [DecimalField(max_digits=9, decimal_places=6)]: three digits before
    the point. *)
Definition check_coordinate (name : string) (required : bool) (v : option Z)
  : Result unit :=
  match v with
  | None => if required then inl (ValidationError name "This field is required.")
            else inr tt
  | Some z =>
      if 1000000000 <=? Z.abs z
      then inl (ValidationError name "Ensure that there are no more than 3 digits before the decimal point.")
      else inr tt
  end.

Definition seq_checks (checks : list (Result unit)) : Result unit :=
  fold_right (fun c rest => match c with inl e => inl e | inr _ => rest end)
             (inr tt) checks.

(** The field declarations of the model, checked before [validate]; the
    first failure is the one reported here. *)
Definition to_internal_value (partial : bool) (d : LocationPayload.t)
  : Result LocationPayload.t :=
  match seq_checks
    [ check_text "first_name" (negb partial) false 100 (LocationPayload.first_name d);
      check_text "last_name" (negb partial) false 100 (LocationPayload.last_name d);
      check_text "phone" (negb partial) false 15 (LocationPayload.phone d);
      match LocationPayload.phone d with
      | Some s => if valid_phone s then inr tt
                  else inl (ValidationError "phone" "Phone number must be a valid PH mobile number (e.g., 09171234567 or +639171234567)")
      | None => inr tt
      end;
      check_text "facebook" false true 200 (LocationPayload.facebook d);
      match LocationPayload.photo d with
      | Some NotAFile => inl (ValidationError "photo" "The submitted data was not a file. Check the encoding type on the form.")
      | Some (ImageFile "") => inl (ValidationError "photo" "No filename could be determined.")
      | _ => inr tt
      end;
      match LocationPayload.supply_needs d with
      | Some JNull => inl (ValidationError "supply_needs" "This field may not be null.")
      | _ => inr tt
      end;
      check_coordinate "latitude" (negb partial) (LocationPayload.latitude d);
      check_coordinate "longitude" (negb partial) (LocationPayload.longitude d);
      check_text "session_id" false true 100 (LocationPayload.session_id d) ]
  with
  | inl e => inl e
  | inr _ => inr d
  end.

Definition allowed_fields : list string :=
  ["water"; "food"; "people_count"; "medical_supplies"; "clothing";
   "shelter_materials"; "other"]%string.

Definition numeric_fields : list string :=
  ["water"; "food"; "people_count"; "medical_supplies"; "clothing";
   "shelter_materials"]%string.

Definition is_allowed (k : string) : bool := existsb (String.eqb k) allowed_fields.

(** [set(supply_needs.keys()) - allowed_fields] *)
Definition invalid_fields (d : Dict) : list string :=
  List.filter (fun k => negb (is_allowed k)) (map fst (map_to_list d)).

Fixpoint join (sep : string) (l : list string) : string :=
  match l with
  | [] => ""
  | [x] => x
  | x :: rest => x ++ sep ++ join sep rest
  end.

(** The loop over [numeric_fields]; the set is walked in the order it is
    written. *)
Fixpoint coerce_numeric (fields : list string) (d : Dict) : Result Dict :=
  match fields with
  | [] => inr d
  | field :: rest =>
      match d !! field with
      | None => coerce_numeric rest d
      | Some v =>
          match Py.int v with
          | inr value =>
              if value <? 0
              then inl (ValidationError "supply_needs"
                          (field ++ " must be a non-negative integer"))
              else coerce_numeric rest (<[field := JInt value]> d)
          | inl ValueError | inl TypeError =>
              inl (ValidationError "supply_needs"
                     (field ++ " must be a non-negative integer"))
          | inl e => inl e
          end
      end
  end.

Section WithRuntime.
Context {rt : Runtime}.

Definition sanitize_other (d : Dict) : Dict :=
  match d !! "other"%string with
  | Some v => <["other"%string := JStr (bleach_clean (py_str v))]> d
  | None => d
  end.

(** The [supply_needs] part of [validate]. *)
Definition validate_supply_needs (supply_needs : Json) : Result Json :=
  match
    match supply_needs with
    | JStr text =>
        match json_loads text with
        | Some v => inr v
        | None => inl (ValidationError "supply_needs"
                         "Invalid JSON format for supply needs")
        end
    | v => inr v
    end
  with
  | inl e => inl e
  | inr (JDict d) =>
      match invalid_fields d with
      | _ :: _ as bad =>
          inl (ValidationError "supply_needs"
                 ("Invalid fields: " ++ join ", " bad))
      | [] =>
          match coerce_numeric numeric_fields d with
          | inl e => inl e
          | inr d' => inr (JDict (sanitize_other d'))
          end
      end
  | inr _ => inl AttributeError
  end.

Definition text_given (v : option string) : bool :=
  match v with Some s => Py.truthy_str s | None => false end.

Definition validate (instance : option AnonymousLocation.t)
    (attrs : LocationPayload.t) : Result LocationPayload.t :=
  let new := negb (bool_decide (is_Some instance)) in
  if new && negb (text_given (LocationPayload.first_name attrs))
  then inl (ValidationError "first_name" "First name is required")
  else if new && negb (text_given (LocationPayload.last_name attrs))
  then inl (ValidationError "last_name" "Last name is required")
  else
  let latitude := LocationPayload.latitude attrs in
  let longitude := LocationPayload.longitude attrs in
  if negb (bool_decide (is_Some (LocationPayload.photo attrs))) && new
  then inl (ValidationError "photo" "Photo is required to verify your location")
  else if match latitude with
          | Some lat => negb (lat =? 0) && ((lat <? -90000000) || (90000000 <? lat))
          | None => false
          end
  then inl (ValidationError "latitude" "Latitude must be between -90 and 90")
  else if match longitude with
          | Some lon => negb (lon =? 0) && ((lon <? -180000000) || (180000000 <? lon))
          | None => false
          end
  then inl (ValidationError "longitude" "Longitude must be between -180 and 180")
  else
  let attrs :=
    if text_given (LocationPayload.notes attrs)
    then LocationPayload.set_notes
           (bleach_clean <$> LocationPayload.notes attrs) attrs
    else attrs in
  let attrs :=
    if text_given (LocationPayload.facebook attrs)
    then LocationPayload.set_facebook
           (bleach_clean <$> LocationPayload.facebook attrs) attrs
    else attrs in
  match LocationPayload.supply_needs attrs with
  | Some supply_needs =>
      match validate_supply_needs supply_needs with
      | inl e => inl e
      | inr v => inr (LocationPayload.set_supply_needs (Some v) attrs)
      end
  | None => inr attrs
  end.

(** [serializer.is_valid(raise_exception=True)] *)
Definition is_valid (instance : option AnonymousLocation.t) (partial : bool)
    (d : LocationPayload.t) : Result LocationPayload.t :=
  match to_internal_value partial d with
  | inl e => inl e
  | inr attrs => validate instance attrs
  end.

End WithRuntime.

Definition file_name (u : Upload) : option string :=
  match u with ImageFile n => Some n | NotAFile => None end.

(** The row [ModelSerializer.create] builds from the validated data and
    the [last_seen] keyword, with the defaults of the model for what the
    request did not carry. *)
Definition create_row (attrs : LocationPayload.t) (last_seen : Instant) (pk : Z)
  : AnonymousLocation.t :=
  AnonymousLocation.mk pk
    (default "" (LocationPayload.first_name attrs))
    (default "" (LocationPayload.last_name attrs))
    (default "" (LocationPayload.phone attrs))
    (default "" (LocationPayload.facebook attrs))
    (default "" (LocationPayload.notes attrs))
    (LocationPayload.photo attrs ≫= file_name)
    (default (JDict ∅) (LocationPayload.supply_needs attrs))
    (default 0 (LocationPayload.latitude attrs))
    (default 0 (LocationPayload.longitude attrs))
    last_seen
    (default true (LocationPayload.is_active attrs))
    (default "" (LocationPayload.session_id attrs))
    None
    (default false (LocationPayload.donation_received attrs))
    None
    (default None (LocationPayload.donation_timestamp attrs))
    (default None (LocationPayload.next_request_allowed_at attrs)).

(** [setattr(instance, key, value)] for every validated key. *)
Definition update_row (instance : AnonymousLocation.t) (attrs : LocationPayload.t)
    (last_seen : Instant) : AnonymousLocation.t :=
  AnonymousLocation.mk (AnonymousLocation.id instance)
    (default (AnonymousLocation.first_name instance) (LocationPayload.first_name attrs))
    (default (AnonymousLocation.last_name instance) (LocationPayload.last_name attrs))
    (default (AnonymousLocation.phone instance) (LocationPayload.phone attrs))
    (default (AnonymousLocation.facebook instance) (LocationPayload.facebook attrs))
    (default (AnonymousLocation.notes instance) (LocationPayload.notes attrs))
    (match LocationPayload.photo attrs with
     | Some u => file_name u
     | None => AnonymousLocation.photo instance
     end)
    (default (AnonymousLocation.supply_needs instance) (LocationPayload.supply_needs attrs))
    (default (AnonymousLocation.latitude instance) (LocationPayload.latitude attrs))
    (default (AnonymousLocation.longitude instance) (LocationPayload.longitude attrs))
    last_seen
    (default (AnonymousLocation.is_active instance) (LocationPayload.is_active attrs))
    (default (AnonymousLocation.session_id instance) (LocationPayload.session_id attrs))
    (AnonymousLocation.qr_code instance)
    (default (AnonymousLocation.donation_received instance)
             (LocationPayload.donation_received attrs))
    (AnonymousLocation.donated_by_user instance)
    (default (AnonymousLocation.donation_timestamp instance)
             (LocationPayload.donation_timestamp attrs))
    (default (AnonymousLocation.next_request_allowed_at instance)
             (LocationPayload.next_request_allowed_at attrs)).

(** [get_donators_on_the_way]: the tracking rows not yet arrived. *)
Definition get_donators_on_the_way (obj : AnonymousLocation.t) (s : Store)
  : list DonatorOnTheWay.t :=
  List.filter (fun d => (DonatorOnTheWay.location d =? AnonymousLocation.id obj)
                        && negb (DonatorOnTheWay.arrived d))
              (donators_on_the_way s).

End AnonymousLocationSerializer.

(** ** Display strings built from the account of the caller *)

Fixpoint before_at (s : string) : string :=
  match s with
  | EmptyString => EmptyString
  | String a rest => if Ascii.eqb a "@" then EmptyString else String a (before_at rest)
  end.

(** [user.username or user.email.split('@')[0]] *)
Definition username_or_email (u : User.t) : string :=
  if Py.truthy_str (User.username u) then User.username u
  else before_at (User.email u).

Definition full_name (u : User.t) : string :=
  (User.first_name u ++ " " ++ User.last_name u)%string.

Definition display_name (u : User.t) : string :=
  let n := Py.strip (full_name u) in
  if Py.truthy_str n then n else username_or_email u.

(** [str(e)] in the bodies of the 500 answers. *)
Definition exc_message (e : Exc) : string :=
  match e with
  | ValidationError _ m => m
  | Http404 => "Not found."
  | DoesNotExist => "matching query does not exist."
  | MultipleObjectsReturned => "get() returned more than one row"
  | IntegrityError => "UNIQUE constraint failed"
  | StorageError => "database error"
  | ValueError => "invalid literal"
  | TypeError => "unsupported operand type"
  | AttributeError => "object has no attribute"
  | InvalidOperation => "quantize result has too many digits for current context"
  end.

(** ** [AnonymousLocationViewSet] *)

Module AnonymousLocationViewSet.
Import AnonymousLocationSerializer.

(** [model.save()] of a stored row: [auto_now] stamps [last_seen]. *)
Definition save (l : AnonymousLocation.t) : M AnonymousLocation.t :=
  let! t := timezone_now in
  let l' := AnonymousLocation.set_last_seen t l in
  do! write (locations_update l') in
  ret l'.

(** [self.get_serializer(location).data] *)
Definition serializer_data (l : AnonymousLocation.t)
  : M (AnonymousLocation.t * list DonatorOnTheWay.t) :=
  let! on_the_way := query (get_donators_on_the_way l) in
  ret (l, on_the_way).

Definition get_queryset : M (list AnonymousLocation.t) :=
  let! now := timezone_now in
  let cutoff_time := now - hours 24 in
  query (fun s => List.filter
                    (fun l => AnonymousLocation.is_active l
                              && (cutoff_time <=? AnonymousLocation.last_seen l))
                    (locations s)).

(** [self.get_object()] for the primary key of the route. *)
Definition get_object (pk : Z) : M AnonymousLocation.t :=
  let! queryset := get_queryset in
  match get_unique (List.filter (fun l => AnonymousLocation.id l =? pk) queryset) with
  | inr l => ret l
  | inl DoesNotExist => raise Http404
  | inl e => raise e
  end.

Definition same_phone (phone : option string) (l : AnonymousLocation.t) : bool :=
  match phone with
  | Some p => String.eqb (AnonymousLocation.phone l) p
  | None => false
  end.

(** The filter of the cool-down query. *)
Definition restricted (phone : option string) (now : Instant)
    (l : AnonymousLocation.t) : bool :=
  same_phone phone l
  && AnonymousLocation.donation_received l
  && match AnonymousLocation.next_request_allowed_at l with
     | Some t => now <? t
     | None => false
     end.

Definition restriction_error : string :=
  "You recently received a donation. Please wait before requesting help again.".

Section WithRuntime.
Context {rt : Runtime}.

Definition create (data : LocationPayload.t) : M Response :=
  let phone := LocationPayload.phone data in
  let session_id := default ""%string (LocationPayload.session_id data) in
  let! now := timezone_now in
  let! recent_donation :=
    query (fun s => first_by_last_seen
                      (List.filter (restricted phone now) (locations s))) in
  match recent_donation with
  | Some recent =>
      let! now' := timezone_now in
      let allowed := default 0 (AnonymousLocation.next_request_allowed_at recent) in
      (* [total_seconds()] of the difference, kept in microseconds *)
      let time_remaining := allowed - now' in
      let hours_remaining := time_remaining `div` hours 1 in
      let minutes_remaining := (time_remaining `mod` hours 1) `div` 60000000 in
      ret (mkResponse 429
             (RestrictionBody restriction_error allowed
                (time_remaining `quot` 1000000)
                hours_remaining minutes_remaining))
  | None =>
      let! existing :=
        if Py.truthy_str session_id
        then query (fun s => first_by_last_seen
                     (List.filter
                        (fun l => String.eqb (AnonymousLocation.session_id l) session_id
                                  && AnonymousLocation.is_active l)
                        (locations s)))
        else ret None in
      match existing with
      | Some instance =>
          let! attrs := lift (is_valid (Some instance) true data) in
          let! seen := timezone_now in
          let! saved := save (update_row instance attrs seen) in
          let! (l, on_the_way) := serializer_data saved in
          ret (mkResponse 200 (LocationBody l on_the_way))
      | None =>
          let! attrs := lift (is_valid None false data) in
          let! seen := timezone_now in
          let! seen' := timezone_now in
          let! location := write (locations_insert (create_row attrs seen')) in
          let! hex := uuid4_hex12 in
          let! location :=
            save (AnonymousLocation.set_qr_code (Some ("LOC-" ++ hex)%string)
                    location) in
          let! (l, on_the_way) := serializer_data location in
          ret (mkResponse 201 (LocationBody l on_the_way))
      end
  end.

End WithRuntime.

Definition deactivate (pk : Z) : M Response :=
  do! atomic (
    let! location := get_object pk in
    write (locations_delete (AnonymousLocation.id location))) in
  ret (mkResponse 200
         (StatusBody "location sharing stopped and data deleted" "")).

Definition already_received : string :=
  "This location has already received a donation".

(** [DonatorOnTheWay.objects.get_or_create(location=..., donator=...,
    defaults={'arrived': False, 'is_tracking': True})] *)
Definition get_or_create (location donator : Z) : M (DonatorOnTheWay.t * bool) :=
  let! found := query (fun s => get_unique
                         (List.filter (is_pair location donator)
                                      (donators_on_the_way s))) in
  match found with
  | inr d => ret (d, false)
  | inl DoesNotExist =>
      let! marked := timezone_now in
      let! d := write (donators_insert
                         (fun pk => DonatorOnTheWay.mk pk location donator marked
                                      false true None)) in
      ret (d, true)
  | inl e => raise e
  end.

Definition mark_on_the_way (user : option User.t) (pk : Z) : M Response :=
  match user with
  | None => ret (mkResponse 401 (ErrorBody "Authentication required"))
  | Some user =>
      let! location := get_object pk in
      if AnonymousLocation.donation_received location
      then ret (mkResponse 400 (ErrorBody already_received))
      else
        try_except
          (atomic (
             let! (donator_entry, created) :=
               get_or_create (AnonymousLocation.id location) (User.id user) in
             let! donator_entry :=
               if created then ret donator_entry
               else
                 let! marked := timezone_now in
                 let d := DonatorOnTheWay.restart marked donator_entry in
                 do! write (donators_update d) in
                 ret d in
             do! (if channel_layer_configured
                  then group_send "locations" "donator_tracking_update"
                         (TrackingStartedData
                            (AnonymousLocation.id location) (User.id user)
                            (username_or_email user)
                            (User.first_name user) (User.last_name user)
                            (display_name user ++ " is on the way for supplies")
                            (DonatorOnTheWay.marked_at donator_entry))
                  else ret tt) in
             let! (l, on_the_way) := serializer_data location in
             ret (mkResponse 200
                    (MarkedBody "marked as on the way" l on_the_way
                       "Please contact the affected user first to verify the location"))))
          (fun e => ret (mkResponse 500 (ErrorBody (exc_message e))))
  end.

Definition scan_qr_code (user : option User.t) (qr_code : option string)
  : M Response :=
  match user with
  | None => ret (mkResponse 401 (ErrorBody "Authentication required"))
  | Some user =>
      if negb (AnonymousLocationSerializer.text_given qr_code)
      then ret (mkResponse 400 (ErrorBody "QR code is required"))
      else
        let qr_code := default ""%string qr_code in
        let! found :=
          query (fun s => get_unique
                   (List.filter (fun l => has_qr_code qr_code l
                                          && AnonymousLocation.is_active l)
                                (locations s))) in
        match found with
        | inl DoesNotExist =>
            ret (mkResponse 404 (ErrorBody "Invalid or expired QR code"))
        | inl e => raise e
        | inr location =>
            if AnonymousLocation.donation_received location
            then ret (mkResponse 400 (ErrorBody already_received))
            else
              try_except
                (atomic (
                   let! donated := timezone_now in
                   let! now := timezone_now in
                   let! location :=
                     save (AnonymousLocation.set_donated (User.id user) donated
                             (now + hours 3) location) in
                   do! write (donators_mark_arrived
                                (AnonymousLocation.id location) (User.id user)) in
                   let! donated_at := timezone_now in
                   let! donation_history :=
                     write (history_insert
                              (fun pk => DonationHistory.mk pk (User.id user)
                                 (AnonymousLocation.first_name location)
                                 (AnonymousLocation.last_name location)
                                 (AnonymousLocation.phone location)
                                 (AnonymousLocation.latitude location)
                                 (AnonymousLocation.longitude location)
                                 (AnonymousLocation.supply_needs location)
                                 qr_code donated_at "")) in
                   do! (if channel_layer_configured
                        then group_send "locations" "qr_scan_notification"
                               (QrScanData
                                  (AnonymousLocation.session_id location)
                                  (DonationHistory.id donation_history)
                                  (full_name user) (User.email user)
                                  (AnonymousLocation.supply_needs location)
                                  qr_code
                                  (DonationHistory.donated_at donation_history))
                        else ret tt) in
                   let! (l, on_the_way) := serializer_data location in
                   ret (mkResponse 200
                          (DonationBody "donation recorded successfully" l on_the_way
                             "Thank you for your donation!"
                             (AnonymousLocation.next_request_allowed_at location)))))
                (fun e => ret (mkResponse 500 (ErrorBody (exc_message e))))
        end
  end.

End AnonymousLocationViewSet.

(** ** [DonationRatingSerializer] and [DonationRatingViewSet] *)

Module DonationRatingSerializer.

Definition is_text (s : string) (v : Json) : bool :=
  match v with JStr s' => String.eqb s' s | _ => false end.

Definition contains (part s : string) : bool :=
  bool_decide (is_Some (String.index 0 part s)).

Definition validate_rating (value : option Z) : Result (option Z) :=
  match value with
  | Some v => if (v <? 1) || (5 <? v)
              then inl (ValidationError "rating" "Rating must be between 1 and 5 stars.")
              else inr value
  | None => inr value
  end.

Section WithRuntime.
Context {rt : Runtime}.

Definition validate_supplies_confirmed (value : Json) : Result Json :=
  if Py.truthy value then
    match value with
    | JDict d =>
        match d !! "other_items"%string with
        | Some v => inr (JDict (<["other_items"%string :=
                                   JStr (bleach_clean (py_str v))]> d))
        | None => inr value
        end
    | JList l => if existsb (is_text "other_items") l then inl TypeError
                 else inr value
    | JStr s => if contains "other_items" s then inl TypeError else inr value
    | _ => inl TypeError
    end
  else inr value.

(** The field [rating]: [choices] 1 to 5, then the hook. *)
Definition rating_field (v : option Z) : Result (option Z) :=
  let? _ :=
    match v with
    | Some v =>
        if (v <? 1) || (5 <? v)
        then inl (ValidationError "rating" "is not a valid choice.")
        else inr tt
    | None => inr tt
    end in
  validate_rating v.

(** The field [supplies_confirmed]: absent it is skipped, [null] is
    refused, anything else goes through the hook. *)
Definition supplies_confirmed_field (v : option Json) : Result (option Json) :=
  match v with
  | None => inr None
  | Some JNull =>
      inl (ValidationError "supplies_confirmed" "This field may not be null.")
  | Some v => let? v' := validate_supplies_confirmed v in inr (Some v')
  end.

(** The loop over the fields records a [ValidationError] and goes on;
    an exception of another class leaves it at once. *)
Definition escapes {A} (r : Result A) : option Exc :=
  match r with
  | inl (ValidationError _ _) => None
  | inl e => Some e
  | inr _ => None
  end.

(** [serializer.is_valid()]: the fields in the order of [Meta.fields];
    of the recorded errors the first is the one reported here. *)
Definition is_valid (d : RatingPayload.t) : Result RatingPayload.t :=
  let rating := rating_field (RatingPayload.rating d) in
  let supplies := supplies_confirmed_field (RatingPayload.supplies_confirmed d) in
  let session :=
    AnonymousLocationSerializer.check_text "session_id" false true 100
      (RatingPayload.session_id d) in
  match escapes supplies with
  | Some e => inl e
  | None =>
      let? rating := rating in
      let? supplies := supplies in
      let? _ := session in
      inr (RatingPayload.mk (RatingPayload.donation_history_id d)
             (RatingPayload.session_id d) rating (RatingPayload.comment d) supplies)
  end.

End WithRuntime.

(** The row [serializer.save()] inserts. *)
Definition create_row (history : Z) (attrs : RatingPayload.t) (rated_at : Instant)
    (pk : Z) : DonationRating.t :=
  DonationRating.mk pk history (RatingPayload.rating attrs)
    (default "" (RatingPayload.comment attrs))
    (default (JDict ∅) (RatingPayload.supplies_confirmed attrs))
    rated_at
    (default "" (RatingPayload.session_id attrs)).

End DonationRatingSerializer.

Module DonationRatingViewSet.

Definition received_keys : list (string * string) :=
  [("water", "water_received"); ("food", "food_received");
   ("medical_supplies", "medical_supplies_received");
   ("clothing", "clothing_received");
   ("shelter_materials", "shelter_materials_received")]%string.

(** The dictionary [actual_supplies] after the comprehension that keeps
    the values [v > 0]. *)
Fixpoint positive_supplies (keys : list (string * string)) (confirmed : Dict)
  : Result Dict :=
  match keys with
  | [] => inr ∅
  | (category, received) :: rest =>
      let v := Py.get confirmed received (JInt 0) in
      match Py.gt_zero v with
      | inl e => inl e
      | inr keep =>
          match positive_supplies rest confirmed with
          | inl e => inl e
          | inr d => inr (if keep then <[category := v]> d else d)
          end
      end
  end.

Definition actual_supplies (confirmed : Dict) : Result Dict :=
  match positive_supplies received_keys confirmed with
  | inl e => inl e
  | inr d =>
      let other := Py.get confirmed "other_items" JNull in
      inr (if Py.truthy other then <["other"%string := other]> d else d)
  end.

(** [hasattr(donation_history, 'rating')]: the reverse accessor of the
    one-to-one field looks the rating up; only its absence is an
    [AttributeError]. *)
Definition has_rating (h : DonationHistory.t) (s : Store) : Result bool :=
  match get_unique
          (List.filter (fun r => DonationRating.donation_history r =? DonationHistory.id h)
                       (donation_ratings s)) with
  | inr _ => inr true
  | inl DoesNotExist => inr false
  | inl e => inl e
  end.

Definition rating_exists : string := "Rating already exists for this donation".

Section WithRuntime.
Context {rt : Runtime}.

Definition create (data : RatingPayload.t) : M Response :=
  let donation_history_id := default 0 (RatingPayload.donation_history_id data) in
  if (donation_history_id =? 0)
     || negb (AnonymousLocationSerializer.text_given (RatingPayload.session_id data))
  then ret (mkResponse 400
              (ErrorBody "donation_history_id and session_id are required"))
  else
    let! found :=
      query (fun s => get_unique
               (List.filter (fun h => DonationHistory.id h =? donation_history_id)
                            (donation_history s))) in
    match found with
    | inl DoesNotExist =>
        ret (mkResponse 404 (ErrorBody "Donation history not found"))
    | inl e => raise e
    | inr donation_history =>
        let! rated := (let! r := query (has_rating donation_history) in lift r) in
        if rated then ret (mkResponse 400 (ErrorBody rating_exists))
        else
          match DonationRatingSerializer.is_valid data with
          | inl (ValidationError f m) => ret (mkResponse 400 (FieldErrors f m))
          | inl e => raise e
          | inr attrs =>
              let! rated_at := timezone_now in
              let! rating :=
                write (ratings_insert
                         (DonationRatingSerializer.create_row
                            donation_history_id attrs rated_at)) in
              let supplies_confirmed := DonationRating.supplies_confirmed rating in
              do! (if Py.truthy supplies_confirmed then
                     match supplies_confirmed with
                     | JDict confirmed =>
                         let! actual := lift (actual_supplies confirmed) in
                         write (history_update
                                  (DonationHistory.set_supply_needs_fulfilled (JDict actual)
                                     donation_history))
                     | _ => raise AttributeError
                     end
                   else ret tt) in
              ret (mkResponse 201 (RatingBody rating))
          end
    end.

End WithRuntime.

End DonationRatingViewSet.

(** ** The tracking endpoints [location_update] and [stop_tracking] *)

Section Tracking.
Context {rt : Runtime}.

(** The value a [DecimalField(max_digits, decimal_places)] column takes
    from what the request carried. *)
Definition decimal_db_value (max_digits decimal_places : nat) (v : Json) : Result Z :=
  let exact z :=
    let scaled := z * 10 ^ Z.of_nat decimal_places in
    if Z.abs scaled <? 10 ^ Z.of_nat max_digits then inr scaled
    else inl InvalidOperation in
  match v with
  | JInt z => exact z
  | JBool b => exact (if b then 1 else 0)
  | JNull => inl IntegrityError
  | _ => match decimal_of_value max_digits decimal_places v with
         | Some z => inr z
         | None => inl InvalidOperation
         end
  end.

(** [float(v)] *)
Definition py_float (v : Json) : Result Q :=
  match v with
  | JInt z => inr (inject_Z z)
  | JBool b => inr (if b then 1 else 0)%Q
  | JFloat q => inr q
  | JStr s => match float_of_str s with Some q => inr q | None => inl ValueError end
  | JNull | JList _ | JDict _ => inl TypeError
  end.

(** What a [FloatField] column without [null=True] takes. *)
Definition float_db_value (v : Json) : Result Q :=
  match v with
  | JNull => inl IntegrityError
  | _ => py_float v
  end.

Definition server_error (e : Exc) : M Response :=
  ret (mkResponse 500 (ErrorBody (exc_message e))).

Definition location_update (user : option User.t) (data : PositionPayload.t)
  : M Response :=
  match user with
  | None => ret (mkResponse 401
                   (ErrorBody "Authentication credentials were not provided."))
  | Some user =>
      try_except
        (let location_id := default JNull (PositionPayload.locationId data) in
         let latitude := default JNull (PositionPayload.latitude data) in
         let longitude := default JNull (PositionPayload.longitude data) in
         let accuracy := default (JInt 0) (PositionPayload.accuracy data) in
         if negb (forallb Py.truthy [location_id; latitude; longitude])
         then ret (mkResponse 400
                     (ErrorBody "locationId, latitude, and longitude are required"))
         else
           let! location_pk := lift (Py.int location_id) in
           let! found :=
             query (fun s => get_unique
                      (List.filter
                         (fun d => is_pair location_pk (User.id user) d
                                   && DonatorOnTheWay.is_tracking d)
                         (donators_on_the_way s))) in
           match found with
           | inl DoesNotExist =>
               ret (mkResponse 404
                      (ErrorBody "No active tracking found for this location"))
           | inl e => raise e
           | inr donator_entry =>
               let! lat := lift (decimal_db_value 10 8 latitude) in
               let! lon := lift (decimal_db_value 11 8 longitude) in
               let! acc := lift (float_db_value accuracy) in
               let! timestamp := timezone_now in
               let! sample :=
                 write (location_updates_insert
                          (fun pk => LocationUpdate.mk pk
                                       (DonatorOnTheWay.id donator_entry)
                                       lat lon acc timestamp)) in
               let! now := timezone_now in
               do! write (donators_update
                            (DonatorOnTheWay.set_last_location_update now donator_entry)) in
               do! (if channel_layer_configured then
                      let! flat := lift (py_float latitude) in
                      let! flon := lift (py_float longitude) in
                      group_send "locations" "donator_tracking_update"
                        (TrackingPositionData location_id (User.id user)
                           (username_or_email user)
                           (User.first_name user) (User.last_name user)
                           flat flon accuracy
                           (LocationUpdate.timestamp sample)
                           (display_name user ++ " is on the way for supplies"))
                    else ret tt) in
               ret (mkResponse 200
                      (PositionBody "success" "Location update received"
                         (LocationUpdate.timestamp sample)))
           end)
        server_error
  end.

Definition stop_tracking (user : option User.t) (locationId : option Json)
  : M Response :=
  match user with
  | None => ret (mkResponse 401
                   (ErrorBody "Authentication credentials were not provided."))
  | Some user =>
      try_except
        (let location_id := default JNull locationId in
         if negb (Py.truthy location_id)
         then ret (mkResponse 400 (ErrorBody "locationId is required"))
         else
           let! location_pk := lift (Py.int location_id) in
           let! found :=
             query (fun s => get_unique
                      (List.filter (is_pair location_pk (User.id user))
                                   (donators_on_the_way s))) in
           match found with
           | inl DoesNotExist =>
               ret (mkResponse 404
                      (ErrorBody "No tracking record found for this location"))
           | inl e => raise e
           | inr donator_entry =>
               do! write (donators_update (DonatorOnTheWay.set_is_tracking false donator_entry)) in
               do! (if channel_layer_configured
                    then group_send "locations" "donator_tracking_update"
                           (TrackingStoppedData location_id (User.id user)
                              (username_or_email user)
                              (display_name user ++ " has stopped location sharing"))
                    else ret tt) in
               ret (mkResponse 200
                      (StatusBody "success" "Location tracking stopped"))
           end)
        server_error
  end.

End Tracking.

(** ** The command surface

    The requests of the donation lifecycle.  The generic routes that
    [ModelViewSet] adds to the two view sets (list, retrieve, update,
    destroy) are not among them. *)

Inductive Op :=
  | SubmitRequest (data : LocationPayload.t)
  | Deactivate (pk : Z)
  | MarkOnTheWay (user : option User.t) (pk : Z)
  | ScanQrCode (user : option User.t) (qr_code : option string)
  | SubmitRating (data : RatingPayload.t)
  | RecordPosition (user : option User.t) (data : PositionPayload.t)
  | StopTracking (user : option User.t) (locationId : option Json).

Section Run.
Context {rt : Runtime}.

Definition view (op : Op) : M Response :=
  match op with
  | SubmitRequest data => AnonymousLocationViewSet.create data
  | Deactivate pk => AnonymousLocationViewSet.deactivate pk
  | MarkOnTheWay user pk => AnonymousLocationViewSet.mark_on_the_way user pk
  | ScanQrCode user qr_code => AnonymousLocationViewSet.scan_qr_code user qr_code
  | SubmitRating data => DonationRatingViewSet.create data
  | RecordPosition user data => location_update user data
  | StopTracking user locationId => stop_tracking user locationId
  end.

Definition run (op : Op) (w : World) : Response * World := dispatch (view op) w.

(** The world after a sequence of requests. *)
Fixpoint run_all (ops : list Op) (w : World) : World :=
  match ops with
  | [] => w
  | op :: rest => run_all rest (snd (run op w))
  end.

End Run.

(** ** Constraints of the schema and conditions on a run *)

(** No storage or channel operation of the run fails. *)
Definition fault_free (w : World) : Prop := forallb negb (faults w) = true.

(** [unique=True] on [AnonymousLocation.qr_code] *)
Definition qr_codes_unique (s : Store) : Prop :=
  forall q, (length (List.filter (has_qr_code q) (locations s)) <= 1)%nat.

(** [unique_together = ['location', 'donator']] on [DonatorOnTheWay] *)
Definition pairs_unique (s : Store) : Prop :=
  forall location donator,
    (length (List.filter (is_pair location donator) (donators_on_the_way s)) <= 1)%nat.

(** [OneToOneField] on [DonationRating.donation_history] *)
Definition ratings_unique (s : Store) : Prop :=
  forall h : Z,
    (length (List.filter (fun r => (DonationRating.donation_history r =? h)%Z)
                         (donation_ratings s)) <= 1)%nat.

(** Primary keys are distinct and below the counter of their table. *)
Definition keys_fresh (ids : list Z) (next : Z) : Prop :=
  List.NoDup ids /\ forall i, In i ids -> i < next.

(** The constraints the schema declares, together. *)
Definition consistent (s : Store) : Prop :=
  keys_fresh (map AnonymousLocation.id (locations s)) (next_location_id s)
  /\ keys_fresh (map DonatorOnTheWay.id (donators_on_the_way s))
                (next_donator_on_the_way_id s)
  /\ qr_codes_unique s
  /\ pairs_unique s
  /\ ratings_unique s.

(** A code that was redeemed: some row carries it and every row that
    carries it is inactive. *)
Definition retired (q : string) (s : Store) : Prop :=
  (exists l, In l (locations s) /\ has_qr_code q l = true)
  /\ forall l, In l (locations s) -> has_qr_code q l = true ->
               AnonymousLocation.is_active l = false.

(** One successful write of the object manager, with what its caller knows
    about the row it writes. *)
Inductive Write (s : Store) : Store -> Prop :=
  | W_location_insert row l s' :
      AnonymousLocation.id (row (next_location_id s)) = next_location_id s ->
      AnonymousLocation.qr_code (row (next_location_id s)) = None ->
      locations_insert row s = inr (l, s') ->
      Write s s'
  | W_location_update l0 l s' :
      In l0 (locations s) ->
      AnonymousLocation.id l = AnonymousLocation.id l0 ->
      (AnonymousLocation.is_active l0 = true
       /\ AnonymousLocation.qr_code l = AnonymousLocation.qr_code l0)
      \/ AnonymousLocation.qr_code l0 = None ->
      locations_update l s = inr (tt, s') ->
      Write s s'
  | W_location_delete l0 s' :
      In l0 (locations s) ->
      AnonymousLocation.is_active l0 = true ->
      locations_delete (AnonymousLocation.id l0) s = inr (tt, s') ->
      Write s s'
  | W_donator_insert row d s' :
      DonatorOnTheWay.id (row (next_donator_on_the_way_id s))
        = next_donator_on_the_way_id s ->
      donators_insert row s = inr (d, s') ->
      Write s s'
  | W_donator_update d0 d s' :
      In d0 (donators_on_the_way s) ->
      DonatorOnTheWay.id d = DonatorOnTheWay.id d0 ->
      DonatorOnTheWay.location d = DonatorOnTheWay.location d0 ->
      DonatorOnTheWay.donator d = DonatorOnTheWay.donator d0 ->
      donators_update d s = inr (tt, s') ->
      Write s s'
  | W_donators_arrived location donator s' :
      donators_mark_arrived location donator s = inr (tt, s') ->
      Write s s'
  | W_sample_insert row u s' :
      location_updates_insert row s = inr (u, s') ->
      Write s s'
  | W_history_insert row h s' :
      history_insert row s = inr (h, s') ->
      Write s s'
  | W_history_update h s' :
      history_update h s = inr (tt, s') ->
      Write s s'
  | W_rating_insert row r s' :
      ratings_insert row s = inr (r, s') ->
      Write s s'.

(** ** A runtime and a world to evaluate the handlers on *)

Definition plain_runtime : Runtime := {|
    bleach_clean := fun s => s;
    py_str := fun v => match v with JStr s => s | _ => ""%string end;
    json_loads := fun _ => None;
    decimal_of_value := fun _ _ _ => None;
    float_of_str := fun _ => None
  |}.

Definition donor : User.t :=
  User.mk 7 "Dana" "Cruz" "dana@example.org" "dana" "donator".

Definition request_row : AnonymousLocation.t :=
  AnonymousLocation.mk 1 "Ana" "Reyes" "09171234567" "" "" (Some "roof.jpg")
    (JDict {[ "water"%string := JInt 5; "food"%string := JInt 3 ]})
    14599500 120984200 1000000 true "session-a" (Some "LOC-0123456789AB"%string)
    false None None None.

Definition tracking_row : DonatorOnTheWay.t :=
  DonatorOnTheWay.mk 1 1 7 2000000 false true None.

Definition open_store : Store :=
  mkStore [request_row] [tracking_row] [] [] [] 2 2 1 1 1.

Definition open_world : World :=
  mkWorld open_store 3000000 [] [] [] [].

(** A request that was redeemed at instant 2500000 minus three hours, its
    phone half a second before the end of its cool-down on a clock that
    reads 3000000. *)
Definition fulfilled_row : AnonymousLocation.t :=
  AnonymousLocation.mk 1 "Ana" "Reyes" "09171234567" "" "" (Some "roof.jpg")
    (JDict {[ "water"%string := JInt 5 ]})
    14599500 120984200 1000000 false "session-a" (Some "LOC-0123456789AB"%string)
    true (Some 7) (Some (3500000 - hours 3)) (Some 3500000).

Definition cooling_world : World :=
  mkWorld (mkStore [fulfilled_row] [] [] [] [] 2 1 1 1 1) 3000000 [] [] [] [].

(** A well-formed submission. *)
Definition submission (session : string) (needs : Json) : LocationPayload.t :=
  LocationPayload.mk (Some "Ben"%string) (Some "Lim"%string)
    (Some "09171234567"%string) None None (Some (ImageFile "yard.jpg"))
    (Some needs) (Some 14600000) (Some 120980000) (Some session)
    None None None None.

(** The ledger after the request of [open_world] was redeemed. *)
Definition history_row : DonationHistory.t :=
  DonationHistory.mk 1 7 "Ana" "Reyes" "09171234567" 14599500 120984200
    (JDict {[ "water"%string := JInt 5; "food"%string := JInt 3 ]})
    "LOC-0123456789AB" 3000000 "".

Definition redeemed_world : World :=
  mkWorld (mkStore [] [] [] [history_row] [] 2 2 1 2 1) 4000000 [] [] [] [].

Definition confirmation : RatingPayload.t :=
  RatingPayload.mk (Some 1) (Some "session-a"%string) (Some 4) (Some "salamat"%string)
    (Some (JDict {[ "water_received"%string := JInt 5;
                    "food_received"%string := JInt 2 ]})).

Definition rating_row : DonationRating.t :=
  DonationRating.mk 1 1 (Some 4) "salamat"
    (JDict {[ "water_received"%string := JInt 5; "food_received"%string := JInt 2 ]})
    4000000 "session-a".

Definition rated_world : World :=
  mkWorld (mkStore [] [] [] [history_row] [rating_row] 2 2 1 2 2) 5000000 [] [] [] [].

(** A position report from latitude 95, longitude 200. *)
Definition far_position : PositionPayload.t :=
  PositionPayload.mk (Some (JInt 1)) (Some (JInt 95)) (Some (JInt 200)) None.

(** A position report from the equator. *)
Definition equator_position : PositionPayload.t :=
  PositionPayload.mk (Some (JInt 1)) (Some (JInt 0)) (Some (JInt 120)) None.

(** What a numeric category holds once validated: the integer its value
    coerces to. *)
Definition coerced (v : option Json) : option Json :=
  match v with
  | Some x => match Py.int x with inr n => Some (JInt n) | inl _ => None end
  | None => None
  end.

(** The open request and two identifiers waiting to be drawn. *)
Definition submitting_world : World :=
  mkWorld open_store 3000000 [] ["A1B2C3D4E5F6"; "0F1E2D3C4B5A"]%string [] [].

Definition no_needs : Json := JDict ∅.


(** * The rest of the API *)

(** ** Read-only routes of the lifecycle *)

(** [order_by('-key')]: descending, rows with equal keys in the order of
    insertion. *)
Fixpoint insert_desc {A} (key : A -> Z) (x : A) (l : list A) : list A :=
  match l with
  | [] => [x]
  | y :: rest => if key y <=? key x then x :: l else y :: insert_desc key x rest
  end.

Definition order_by_desc {A} (key : A -> Z) (l : list A) : list A :=
  fold_right (insert_desc key) [] l.

(** A list runs from the greatest key to the least. *)
Definition descending {A} (key : A -> Z) (l : list A) : Prop :=
  forall l1 x l2 y l3, l = l1 ++ x :: l2 ++ y :: l3 -> key y <= key x.

(** One entry of the answer of [donator_acknowledgments].  The two
    coordinates are [float(donation.latitude)] and
    [float(donation.longitude)], kept in micro-degrees. *)
Record Acknowledgment := mkAcknowledgment {
    donation_id : Z;
    affected_user : string;
    location_latitude : Z;
    location_longitude : Z;
    donated_at : Instant;
    supplies_donated : Json;
    supplies_received : Dict;
    feedback_rating : option Z;
    feedback_comment : string;
    feedback_rated_at : option Instant;
    has_confirmation : bool
  }.

Inductive Page :=
  | PageError (error : string)
  | LocationPage (rows : list (AnonymousLocation.t * list DonatorOnTheWay.t))
  | HistoryPage (rows : list DonationHistory.t)
  | AcknowledgmentPage (total_donations : Z) (acknowledgments : list Acknowledgment).

Record Answer := mkAnswer {
    answer_status : Z;
    page : Page
  }.

(** What a view can raise besides the exceptions of [Exc]: the read of a
    local variable that no assignment has reached. *)
Inductive Raised :=
  | Known (e : Exc)
  | UnboundLocalError (name : string).

(** What the framework answers when an exception leaves one of these
    views. *)
Definition server_error_page : Answer :=
  mkAnswer 500 (PageError "Server Error (500)").

(** [AnonymousLocationViewSet.active]: the rows of [get_queryset] under the
    ordering of the model, [-last_seen], each with its donators on the
    way. *)
Definition active : M Answer :=
  let! locations := AnonymousLocationViewSet.get_queryset in
  let! rows :=
    query (fun s =>
             map (fun l => (l, AnonymousLocationSerializer.get_donators_on_the_way l s))
                 (order_by_desc AnonymousLocation.last_seen locations)) in
  ret (mkAnswer 200 (LocationPage rows)).

Module DonationHistoryViewSet.

(** [DonationHistory.objects.filter(donator=request.user)
    .order_by('-donated_at')] *)
Definition donations_of (user : User.t) (s : Store) : list DonationHistory.t :=
  order_by_desc DonationHistory.donated_at
    (List.filter (fun h => DonationHistory.donator h =? User.id user)
                 (donation_history s)).

(** [my_donations], behind [IsAuthenticated]. *)
Definition my_donations (user : option User.t) : M Answer :=
  match user with
  | None => ret (mkAnswer 401
                   (PageError "Authentication credentials were not provided."))
  | Some user =>
      if negb (String.eqb (User.role user) "donator")
      then ret (mkAnswer 403
                  (PageError "Only donators can view their donation history"))
      else
        let! donations := query (donations_of user) in
        ret (mkAnswer 200 (HistoryPage donations))
  end.

(** The dictionary under [supplies_received]; [.get] needs a [dict]. *)
Definition received (supplies_confirmed : Json) : Result Dict :=
  match supplies_confirmed with
  | JDict d =>
      inr (<["water"%string := Py.get d "water_received" (JInt 0)]>
          (<["food"%string := Py.get d "food_received" (JInt 0)]>
          (<["medical_supplies"%string :=
               Py.get d "medical_supplies_received" (JInt 0)]>
          (<["clothing"%string := Py.get d "clothing_received" (JInt 0)]>
          (<["shelter_materials"%string :=
               Py.get d "shelter_materials_received" (JInt 0)]>
          (<["other_items"%string := Py.get d "other_items" (JStr "")]>
          (<["all_supplies_received"%string :=
               Py.get d "all_supplies_received" (JBool false)]> ∅)))))))
  | _ => inl AttributeError
  end.

(** The loop of [donator_acknowledgments].  [rating] is the local variable
    of that name: [None] while no assignment has reached it, and after an
    iteration whose [donation.rating] raised, what an earlier iteration
    left in it.  [rating is not None] reads it after the [try]: it raises
    while the variable is unbound and is true of any rating bound to
    it. *)
Fixpoint acknowledge (ratings : list DonationRating.t)
    (rating : option DonationRating.t) (donations : list DonationHistory.t)
  : Raised + list Acknowledgment :=
  match donations with
  | [] => inr []
  | donation :: rest =>
      let found :=
        get_unique
          (List.filter (fun r => DonationRating.donation_history r
                                 =? DonationHistory.id donation) ratings) in
      let rating :=
        match found with inr r => Some r | inl _ => rating end in
      let supplies_confirmed :=
        match found with
        | inr r => DonationRating.supplies_confirmed r
        | inl _ => JDict ∅
        end in
      let user_rating :=
        match found with inr r => DonationRating.rating r | inl _ => None end in
      let user_comment :=
        match found with inr r => DonationRating.comment r | inl _ => ""%string end in
      let rated_at :=
        match found with
        | inr r => Some (DonationRating.rated_at r)
        | inl _ => None
        end in
      match received supplies_confirmed with
      | inl e => inl (Known e)
      | inr supplies =>
          match rating with
          | None => inl (UnboundLocalError "rating")
          | Some _ =>
              let entry :=
                mkAcknowledgment (DonationHistory.id donation)
                  (DonationHistory.affected_first_name donation ++ " "
                   ++ DonationHistory.affected_last_name donation)
                  (DonationHistory.latitude donation)
                  (DonationHistory.longitude donation)
                  (DonationHistory.donated_at donation)
                  (DonationHistory.supply_needs_fulfilled donation)
                  supplies user_rating user_comment rated_at true in
              match acknowledge ratings rating rest with
              | inl e => inl e
              | inr entries => inr (entry :: entries)
              end
          end
      end
  end.

Definition donator_acknowledgments (user : option User.t) : M Answer :=
  match user with
  | None => ret (mkAnswer 401 (PageError "Authentication required"))
  | Some user =>
      let! donations := query (donations_of user) in
      let! ratings := query donation_ratings in
      match acknowledge ratings None donations with
      | inl _ => ret server_error_page
      | inr acknowledgments =>
          let! total := query (fun s => Z.of_nat (length (donations_of user s))) in
          ret (mkAnswer 200 (AcknowledgmentPage total acknowledgments))
      end
  end.

End DonationHistoryViewSet.

(** ** The [validate] hooks of the relief serializers

    [attrs] holds what the field declarations let through: text as [str],
    a coordinate of a [DecimalField(max_digits=9, decimal_places=6)] in
    micro-degrees, a [PositiveIntegerField] as an integer.  [None] is a
    key that is absent; for the coordinates that may be null, also a null.
    The keys no hook reads ([category], [status], [image], ...) are left
    out. *)

(** [lat and (lat < -90 or lat > 90)] *)
Definition latitude_refused (lat : option Z) : bool :=
  match lat with
  | Some lat => negb (lat =? 0) && ((lat <? -90000000) || (90000000 <? lat))
  | None => false
  end.

(** [lon and (lon < -180 or lon > 180)] *)
Definition longitude_refused (lon : option Z) : bool :=
  match lon with
  | Some lon => negb (lon =? 0) && ((lon <? -180000000) || (180000000 <? lon))
  | None => false
  end.

(** What [float(data)] of a [FloatField] hands on: a finite number or an
    infinity, as ["inf"] or the JSON number [1e999] give.  A NaN, which the
    two databases store differently, is not followed. *)
Inductive Float :=
  | Finite (q : Q)
  | Infinite (negative : bool).

(** Whether the JSON renderer, which is strict, can write the number. *)
Definition renders (x : option Float) : bool :=
  match x with
  | Some (Infinite _) => false
  | _ => true
  end.

Module LocationSerializer.

Record Attrs := mk {
    latitude : option Z;
    longitude : option Z;
    is_current : option bool;
    accuracy : option Float
  }.

Definition validate (attrs : Attrs) : Result Attrs :=
  if latitude_refused (latitude attrs)
  then inl (ValidationError "latitude" "Latitude must be between -90 and 90")
  else if longitude_refused (longitude attrs)
  then inl (ValidationError "longitude" "Longitude must be between -180 and 180")
  else inr attrs.

End LocationSerializer.

Module DonationSerializer.

Record Attrs := mk {
    title : option string;
    description : option string;
    pickup_location : option string;
    delivery_location : option string;
    unit : option string;
    notes : option string;
    pickup_latitude : option Z;
    pickup_longitude : option Z;
    delivery_latitude : option Z;
    delivery_longitude : option Z;
    quantity : option Z
  }.

Section WithRuntime.
Context {rt : Runtime}.

(** The loop [for field in [...]: if field in attrs: attrs[field] =
    bleach.clean(attrs[field], strip=True)] *)
Definition sanitize (attrs : Attrs) : Attrs :=
  mk (bleach_clean <$> title attrs) (bleach_clean <$> description attrs)
     (bleach_clean <$> pickup_location attrs)
     (bleach_clean <$> delivery_location attrs)
     (bleach_clean <$> unit attrs) (bleach_clean <$> notes attrs)
     (pickup_latitude attrs) (pickup_longitude attrs)
     (delivery_latitude attrs) (delivery_longitude attrs) (quantity attrs).

Definition validate (attrs : Attrs) : Result Attrs :=
  let attrs := sanitize attrs in
  if latitude_refused (pickup_latitude attrs)
  then inl (ValidationError "pickup_latitude" "Latitude must be between -90 and 90")
  else if longitude_refused (pickup_longitude attrs)
  then inl (ValidationError "pickup_longitude"
              "Longitude must be between -180 and 180")
  else if latitude_refused (delivery_latitude attrs)
  then inl (ValidationError "delivery_latitude" "Latitude must be between -90 and 90")
  else if longitude_refused (delivery_longitude attrs)
  then inl (ValidationError "delivery_longitude"
              "Longitude must be between -180 and 180")
  else if default 0 (quantity attrs) <=? 0
  then inl (ValidationError "quantity" "Quantity must be greater than 0")
  else inr attrs.

End WithRuntime.

End DonationSerializer.

Module EmergencyRequestSerializer.

Record Attrs := mk {
    title : option string;
    description : option string;
    location : option string;
    unit : option string;
    latitude : option Z;
    longitude : option Z;
    quantity_needed : option Z;
    people_affected : option Z
  }.

Section WithRuntime.
Context {rt : Runtime}.

Definition sanitize (attrs : Attrs) : Attrs :=
  mk (bleach_clean <$> title attrs) (bleach_clean <$> description attrs)
     (bleach_clean <$> location attrs) (bleach_clean <$> unit attrs)
     (latitude attrs) (longitude attrs) (quantity_needed attrs)
     (people_affected attrs).

Definition validate (attrs : Attrs) : Result Attrs :=
  let attrs := sanitize attrs in
  if latitude_refused (latitude attrs)
  then inl (ValidationError "latitude" "Latitude must be between -90 and 90")
  else if longitude_refused (longitude attrs)
  then inl (ValidationError "longitude" "Longitude must be between -180 and 180")
  else if default 0 (quantity_needed attrs) <=? 0
  then inl (ValidationError "quantity_needed" "Quantity must be greater than 0")
  else if default 0 (people_affected attrs) <=? 0
  then inl (ValidationError "people_affected"
              "People affected must be greater than 0")
  else inr attrs.

End WithRuntime.

End EmergencyRequestSerializer.

(** ** Accounts, shared locations and relief donations

    The handlers of [UserViewSet], [LocationViewSet] and [DonationViewSet]
    and the two phone-number routes, for requests without query
    parameters.  Text in [request.data] is a [str].  A handler that
    issues one write is followed on a database that carries it out; the
    two that issue a second write outside a transaction, [perform_create]
    of the locations and [update_status] of the donations, take the
    outcome of each write as an argument. *)

Module Account.
(** The columns of [User] the handlers read or write.  [username] is
    removed by the model. *)
Record t := mk {
    id : Z;
    email : string;
    first_name : string;
    last_name : string;
    role : string;
    phone_number : string;
    address : string;
    is_location_shared : bool;
    is_staff : bool;
    has_usable_password : bool
  }.

Definition set_is_location_shared (b : bool) (u : t) : t :=
  mk (id u) (email u) (first_name u) (last_name u) (role u) (phone_number u)
     (address u) b (is_staff u) (has_usable_password u).

Definition set_unusable_password (u : t) : t :=
  mk (id u) (email u) (first_name u) (last_name u) (role u) (phone_number u)
     (address u) (is_location_shared u) (is_staff u) false.
End Account.

Module Location.
Record t := mk {
    id : Z;
    user : Z;
    latitude : Z;
    longitude : Z;
    timestamp : Instant;
    is_current : bool;
    accuracy : option Float
  }.

Definition set_is_current (b : bool) (l : t) : t :=
  mk (id l) (user l) (latitude l) (longitude l) (timestamp l) b (accuracy l).
End Location.

Module Donation.
(** [title], [donator], [recipient], [status] and [delivered_at] of a
    donation; the handlers touch no other column. *)
Record t := mk {
    id : Z;
    donator : Z;
    recipient : option Z;
    title : string;
    status : string;
    delivered_at : option Instant
  }.
End Donation.

Module DonationTracking.
Record t := mk {
    id : Z;
    donation : Z;
    status : string;
    notes : string;
    updated_by : option Z;
    timestamp : Instant
  }.
End DonationTracking.

Module EmergencyRequest.
(** [requester], [title], [status] and [fulfilled_at] of an emergency
    request. *)
Record t := mk {
    id : Z;
    requester : Z;
    title : string;
    status : string;
    fulfilled_at : option Instant
  }.
End EmergencyRequest.

(** The tables, the clock, and the token pairs the next calls of
    [RefreshToken.for_user] return. *)
Record Desk := mkDesk {
    accounts : list Account.t;
    user_locations : list Location.t;
    donations : list Donation.t;
    donation_tracking : list DonationTracking.t;
    emergency_requests : list EmergencyRequest.t;
    next_account_id : Z;
    next_user_location_id : Z;
    next_donation_tracking_id : Z;
    desk_clock : Instant;
    desk_delays : list N;
    tokens : list (string * string)
  }.

Definition set_accounts (l : list Account.t) (next : Z) (d : Desk) : Desk :=
  mkDesk l (user_locations d) (donations d) (donation_tracking d)
    (emergency_requests d) next (next_user_location_id d) (next_donation_tracking_id d) (desk_clock d)
    (desk_delays d) (tokens d).

Definition set_user_locations (l : list Location.t) (next : Z) (d : Desk) : Desk :=
  mkDesk (accounts d) l (donations d) (donation_tracking d)
    (emergency_requests d) (next_account_id d) next (next_donation_tracking_id d) (desk_clock d) (desk_delays d) (tokens d).

Definition set_donations (l : list Donation.t) (d : Desk) : Desk :=
  mkDesk (accounts d) (user_locations d) l (donation_tracking d)
    (emergency_requests d) (next_account_id d) (next_user_location_id d) (next_donation_tracking_id d)
    (desk_clock d) (desk_delays d) (tokens d).

Definition set_donation_tracking (l : list DonationTracking.t) (next : Z) (d : Desk)
  : Desk :=
  mkDesk (accounts d) (user_locations d) (donations d) l
    (emergency_requests d) (next_account_id d) (next_user_location_id d) next (desk_clock d) (desk_delays d) (tokens d).

Definition set_emergency_requests (l : list EmergencyRequest.t) (d : Desk) : Desk :=
  mkDesk (accounts d) (user_locations d) (donations d) (donation_tracking d) l
    (next_account_id d) (next_user_location_id d) (next_donation_tracking_id d)
    (desk_clock d) (desk_delays d) (tokens d).

(** [timezone.now()]: the clock advances by the next delay. *)
Definition desk_now (d : Desk) : Instant * Desk :=
  let t := desk_clock d + Z.of_N (hd 0%N (desk_delays d)) in
  (t, mkDesk (accounts d) (user_locations d) (donations d) (donation_tracking d)
        (emergency_requests d) (next_account_id d) (next_user_location_id d)
        (next_donation_tracking_id d) t (tail (desk_delays d)) (tokens d)).

(** [RefreshToken.for_user(user)]: the refresh token and its access
    token. *)
Definition for_user (d : Desk) : (string * string) * Desk :=
  (hd (""%string, ""%string) (tokens d),
   mkDesk (accounts d) (user_locations d) (donations d) (donation_tracking d)
     (emergency_requests d) (next_account_id d) (next_user_location_id d) (next_donation_tracking_id d)
     (desk_clock d) (desk_delays d) (tail (tokens d))).

(** Whether the database refuses a text longer than the [max_length] of
    its column (PostgreSQL, behind [DATABASE_URL]) or stores it (SQLite). *)
Class Backend := {
    checks_length : bool
  }.

Inductive ReplyBody :=
  | ReplyError (error : string)
  | ReplyFieldErrors (field message : string)
  | SharingBody (is_location_shared : bool)
  | UserLocationBody (location : Location.t)
  | UserLocationsBody (locations : list Location.t)
  | DonationData (donation : Donation.t)
  | EmergencyData (request : EmergencyRequest.t)
  | SessionBody (user : Account.t) (refresh access : string).

Record Reply := mkReply {
    reply_status : Z;
    reply_body : ReplyBody
  }.

(** An exception that leaves a view. *)
Definition reply_500 : Reply := mkReply 500 (ReplyError "Server Error (500)").

(** [IsAuthenticated] turning an anonymous caller away. *)
Definition reply_401 : Reply :=
  mkReply 401 (ReplyError "Authentication credentials were not provided.").

Definition reply_404 : Reply := mkReply 404 (ReplyError "Not found.").

Section Relief.
Context {be : Backend} {rt : Runtime}.

(** Whether the database takes [s] for a column of [max_length]. *)
Definition fits (max_length : nat) (s : string) : bool :=
  negb (checks_length && (max_length <? String.length s)%nat).

(** [register_affected] *)
Definition register_affected (phone_number first_name last_name address : option string)
    (d : Desk) : Reply * Desk :=
  let address := default ""%string address in
  if negb (AnonymousLocationSerializer.text_given phone_number)
     || negb (AnonymousLocationSerializer.text_given first_name)
     || negb (AnonymousLocationSerializer.text_given last_name)
  then (mkReply 400
          (ReplyError "Phone number, first name, and last name are required"), d)
  else
    let phone_number := default ""%string phone_number in
    let first_name := default ""%string first_name in
    let last_name := default ""%string last_name in
    if existsb (fun u => String.eqb (Account.phone_number u) phone_number) (accounts d)
    then (mkReply 400 (ReplyError "User with this phone number already exists"), d)
    else
      let email := (phone_number ++ "@affected.local")%string in
      (* [User.objects.create]: [email] is unique *)
      if existsb (fun u => String.eqb (Account.email u) email) (accounts d)
         || negb (fits 254 email && fits 150 first_name && fits 150 last_name
                  && fits 15 phone_number)
      then (reply_500, d)
      else
        let user := Account.mk (next_account_id d) email first_name last_name
                      "affected" phone_number address false false true in
        let d := set_accounts (accounts d ++ [user]) (next_account_id d + 1) d in
        (* [user.set_unusable_password(); user.save()] *)
        let user := Account.set_unusable_password user in
        let d := set_accounts
                   (map (fun u => if Account.id u =? Account.id user then user else u)
                        (accounts d)) (next_account_id d) d in
        let (pair, d) := for_user d in
        (mkReply 201 (SessionBody user (fst pair) (snd pair)), d).

(** [login_affected] *)
Definition login_affected (phone_number : option string) (d : Desk) : Reply * Desk :=
  if negb (AnonymousLocationSerializer.text_given phone_number)
  then (mkReply 400 (ReplyError "Please provide phone number"), d)
  else
    let phone_number := default ""%string phone_number in
    match get_unique
            (List.filter (fun u => String.eqb (Account.phone_number u) phone_number
                                   && String.eqb (Account.role u) "affected")
                         (accounts d)) with
    | inr user =>
        let (pair, d) := for_user d in
        (mkReply 200 (SessionBody user (fst pair) (snd pair)), d)
    | inl DoesNotExist =>
        (mkReply 404 (ReplyError "No affected user found with this phone number"), d)
    | inl _ => (reply_500, d)
    end.

(** [UserViewSet.toggle_location_sharing] *)
Definition toggle_location_sharing (request_user : option Account.t) (pk : Z)
    (d : Desk) : Reply * Desk :=
  match request_user with
  | None => (reply_401, d)
  | Some request_user =>
      match get_unique (List.filter (fun u => Account.id u =? pk) (accounts d)) with
      | inr user =>
          if negb (Account.id user =? Account.id request_user)
          then (mkReply 403
                  (ReplyError "You can only toggle your own location sharing"), d)
          else
            let user :=
              Account.set_is_location_shared (negb (Account.is_location_shared user))
                user in
            (mkReply 200 (SharingBody (Account.is_location_shared user)),
             set_accounts
               (map (fun u => if Account.id u =? Account.id user then user else u)
                    (accounts d)) (next_account_id d) d)
      | inl DoesNotExist => (reply_404, d)
      | inl _ => (reply_500, d)
      end
  end.

(** [LocationViewSet.create]: the field declarations, [validate],
    [perform_create], which issues two writes outside any transaction, and
    the rendering of the answer.  [faults] tells which of the writes the
    database fails, in the order they are issued. *)
Definition location_create (faults : list bool) (request_user : option Account.t)
    (data : LocationSerializer.Attrs) (d : Desk) : Reply * Desk :=
  match request_user with
  | None => (reply_401, d)
  | Some request_user =>
      match
        let? _ := AnonymousLocationSerializer.check_coordinate "latitude" true
                    (LocationSerializer.latitude data) in
        let? _ := AnonymousLocationSerializer.check_coordinate "longitude" true
                    (LocationSerializer.longitude data) in
        LocationSerializer.validate data
      with
      | inl (ValidationError field message) =>
          (mkReply 400 (ReplyFieldErrors field message), d)
      | inl _ => (reply_500, d)
      | inr attrs =>
          (* [filter(user=..., is_current=True).update(is_current=False)] *)
          if hd false faults then (reply_500, d)
          else
            let d :=
              set_user_locations
                (map (fun l => if (Location.user l =? Account.id request_user)
                                  && Location.is_current l
                               then Location.set_is_current false l else l)
                     (user_locations d)) (next_user_location_id d) d in
            (* [serializer.save(user=..., is_current=True)] *)
            let (timestamp, d) := desk_now d in
            if hd false (tail faults) then (reply_500, d)
            else
              let location :=
                Location.mk (next_user_location_id d) (Account.id request_user)
                  (default 0 (LocationSerializer.latitude attrs))
                  (default 0 (LocationSerializer.longitude attrs))
                  timestamp true (LocationSerializer.accuracy attrs) in
              let d := set_user_locations (user_locations d ++ [location])
                         (next_user_location_id d + 1) d in
              (* [Response(serializer.data, status=201)], rendered *)
              if renders (Location.accuracy location)
              then (mkReply 201 (UserLocationBody location), d)
              else (reply_500, d)
      end
  end.

(** [user__role='affected', user__is_location_shared=True] through the
    foreign key of a location. *)
Definition shared_by_affected (accounts : list Account.t) (l : Location.t) : bool :=
  existsb (fun u => (Account.id u =? Location.user l)
                    && String.eqb (Account.role u) "affected"
                    && Account.is_location_shared u) accounts.

(** [LocationViewSet.affected_users], under the ordering of the model,
    [-timestamp]. *)
Definition affected_users (request_user : option Account.t) (d : Desk)
  : Reply * Desk :=
  match request_user with
  | None => (reply_401, d)
  | Some _ =>
      (mkReply 200
         (UserLocationsBody
            (order_by_desc Location.timestamp
               (List.filter (fun l => shared_by_affected (accounts d) l
                                      && Location.is_current l)
                            (user_locations d)))), d)
  end.

(** [self.get_object()] of [DonationViewSet] *)
Definition get_donation (pk : Z) (d : Desk) : Result Donation.t :=
  match get_unique (List.filter (fun x => Donation.id x =? pk) (donations d)) with
  | inl DoesNotExist => inl Http404
  | r => r
  end.

Definition save_donation (donation : Donation.t) (d : Desk) : Desk :=
  set_donations
    (map (fun x => if Donation.id x =? Donation.id donation then donation else x)
         (donations d)) d.

(** [get_prep_value] of a [TextField]: a [str] as it is, [str(value)] of
    another value; [None] stays [None], which the column, [NOT NULL],
    refuses. *)
Definition text_db_value (value : Json) : option string :=
  match value with
  | JNull => None
  | JStr s => Some s
  | v => Some (py_str v)
  end.

(** [DonationViewSet.update_status].  [notes] is what [request.data]
    holds under that key, if anything.  The handler saves the donation and
    then inserts the tracking entry, outside any transaction; [faults]
    tells which of the two writes the database fails. *)
Definition update_status (faults : list bool) (request_user : option Account.t)
    (pk : Z) (status : option string) (notes : option Json) (d : Desk)
  : Reply * Desk :=
  match request_user with
  | None => (reply_401, d)
  | Some request_user =>
      match get_donation pk d with
      | inl Http404 => (reply_404, d)
      | inl _ => (reply_500, d)
      | inr donation =>
          (* [request.data.get('notes', '')] *)
          let notes := default (JStr "") notes in
          if negb (AnonymousLocationSerializer.text_given status)
          then (mkReply 400 (ReplyError "Status is required"), d)
          else
            let new_status := default ""%string status in
            if negb (Donation.donator donation =? Account.id request_user)
               && negb (bool_decide (Donation.recipient donation
                                     = Some (Account.id request_user)))
            then (mkReply 403
                    (ReplyError "You do not have permission to update this donation"),
                  d)
            else
              let (delivered_at, d) :=
                if String.eqb new_status "delivered"
                then let (t, d) := desk_now d in (Some t, d)
                else (Donation.delivered_at donation, d) in
              let donation :=
                Donation.mk (Donation.id donation) (Donation.donator donation)
                  (Donation.recipient donation) (Donation.title donation)
                  new_status delivered_at in
              (* [donation.save()] *)
              if hd false faults || negb (fits 20 new_status) then (reply_500, d)
              else
                let d := save_donation donation d in
                (* [DonationTracking.objects.create(...)] *)
                let (timestamp, d) := desk_now d in
                match text_db_value notes with
                | None => (reply_500, d)
                | Some notes =>
                    if hd false (tail faults) then (reply_500, d)
                    else
                      let entry :=
                        DonationTracking.mk (next_donation_tracking_id d)
                          (Donation.id donation) new_status notes
                          (Some (Account.id request_user)) timestamp in
                      (mkReply 200 (DonationData donation),
                       set_donation_tracking (donation_tracking d ++ [entry])
                         (next_donation_tracking_id d + 1) d)
                end
      end
  end.

(** [DonationViewSet.assign_recipient]; [recipient_id] is a number or is
    absent. *)
Definition assign_recipient (request_user : option Account.t) (pk : Z)
    (recipient_id : option Z) (d : Desk) : Reply * Desk :=
  match request_user with
  | None => (reply_401, d)
  | Some request_user =>
      match get_donation pk d with
      | inl Http404 => (reply_404, d)
      | inl _ => (reply_500, d)
      | inr donation =>
          if negb (Donation.donator donation =? Account.id request_user)
             && negb (Account.is_staff request_user)
          then (mkReply 403 (ReplyError "Only the donator can assign recipients"), d)
          else
            match
              match recipient_id with
              | Some recipient_id =>
                  get_unique
                    (List.filter (fun u => (Account.id u =? recipient_id)
                                           && String.eqb (Account.role u) "affected")
                                 (accounts d))
              | None => inl DoesNotExist
              end
            with
            | inr recipient =>
                let donation :=
                  Donation.mk (Donation.id donation) (Donation.donator donation)
                    (Some (Account.id recipient)) (Donation.title donation)
                    "approved" (Donation.delivered_at donation) in
                (mkReply 200 (DonationData donation), save_donation donation d)
            | inl DoesNotExist =>
                (mkReply 404
                   (ReplyError "Recipient not found or not an affected user"), d)
            | inl _ => (reply_500, d)
            end
      end
  end.

(** [EmergencyRequestViewSet.update_status] *)
Definition emergency_update_status (request_user : option Account.t) (pk : Z)
    (status : option string) (d : Desk) : Reply * Desk :=
  match request_user with
  | None => (reply_401, d)
  | Some _ =>
      match get_unique
              (List.filter (fun x => EmergencyRequest.id x =? pk)
                           (emergency_requests d)) with
      | inl DoesNotExist => (reply_404, d)
      | inl _ => (reply_500, d)
      | inr emergency_request =>
          if negb (AnonymousLocationSerializer.text_given status)
          then (mkReply 400 (ReplyError "Status is required"), d)
          else
            let new_status := default ""%string status in
            let (fulfilled_at, d) :=
              if String.eqb new_status "fulfilled"
              then let (t, d) := desk_now d in (Some t, d)
              else (EmergencyRequest.fulfilled_at emergency_request, d) in
            let emergency_request :=
              EmergencyRequest.mk (EmergencyRequest.id emergency_request)
                (EmergencyRequest.requester emergency_request)
                (EmergencyRequest.title emergency_request) new_status fulfilled_at in
            if negb (fits 20 new_status) then (reply_500, d)
            else
              (mkReply 200 (EmergencyData emergency_request),
               set_emergency_requests
                 (map (fun x => if EmergencyRequest.id x
                                   =? EmergencyRequest.id emergency_request
                                then emergency_request else x)
                      (emergency_requests d)) d)
      end
  end.

End Relief.

(** Running one of these views: an exception that leaves it is answered
    500. *)
Definition dispatch_page (view : M Answer) (w : World) : Answer * World :=
  match view w with
  | (inr a, w') => (a, w')
  | (inl _, w') => (server_error_page, w')
  end.

(** ** Worlds to evaluate the handlers on *)

(** The open request a day and an hour after it was last seen. *)
Definition stale_world : World :=
  mkWorld open_store (1000000 + hours 25) [] [] [] [].

(** The open request, on a storage whose next operation fails. *)
Definition failing_world : World :=
  mkWorld open_store 3000000 [] [] [true] [].

(** The open request, on a storage whose second operation fails. *)
Definition half_failing_world : World :=
  mkWorld open_store 3000000 [] [] [false; true] [].

(** A position report from latitude 100. *)
Definition wide_position : PositionPayload.t :=
  PositionPayload.mk (Some (JInt 1)) (Some (JInt 100)) (Some (JInt 120)) None.

(** A rating of six stars for the redeemed request. *)
Definition six_stars : RatingPayload.t :=
  RatingPayload.mk (Some 1) (Some "session-a"%string) (Some 6) None None.

(** A confirmation whose [supplies_confirmed] is a list. *)
Definition listed_confirmation : RatingPayload.t :=
  RatingPayload.mk (Some 1) (Some "session-a"%string) (Some 4) None
    (Some (JList [JStr "water"])).

(** A rating that names history entry 9. *)
Definition stray_rating : RatingPayload.t :=
  RatingPayload.mk (Some 9) (Some "session-a"%string) (Some 4) None None.

(** A submission that carries no photo. *)
Definition bare_submission : LocationPayload.t :=
  LocationPayload.mk (Some "Ben"%string) (Some "Lim"%string)
    (Some "09171234567"%string) None None None
    None (Some 14600000) (Some 120980000) (Some "session-b"%string)
    None None None None.

(** The ledger of a donator with two donations, of which the newer one
    was rated. *)
Definition older_row : DonationHistory.t :=
  DonationHistory.mk 2 7 "Cora" "Diaz" "09181234567" 14700000 121000000
    (JDict {[ "food"%string := JInt 1 ]}) "LOC-BA9876543210" 2000000 "".

Definition acknowledged_world : World :=
  mkWorld (mkStore [] [] [] [history_row; older_row] [rating_row] 2 2 1 3 2)
    5000000 [] [] [] [].

(** A partial update of a donation that changes only its notes. *)
Definition notes_only : DonationSerializer.Attrs :=
  DonationSerializer.mk None None None None None (Some "fragile"%string)
    None None None None None.

(** An emergency request that leaves [people_affected] to its default. *)
Definition plain_request : EmergencyRequestSerializer.Attrs :=
  EmergencyRequestSerializer.mk (Some "Water"%string) (Some "Drinking water"%string)
    (Some "Barangay hall"%string) (Some "liters"%string)
    (Some 14600000) (Some 120980000) (Some 40) None.

(** A database that checks the length of text. *)
Definition strict_backend : Backend := {| checks_length := true |}.

Definition ana : Account.t :=
  Account.mk 1 "ana@example.org" "Ana" "Reyes" "affected" "09171234567" ""
    false false true.

Definition dana : Account.t :=
  Account.mk 7 "dana@example.org" "Dana" "Cruz" "donator" "" "" false false true.

Definition rice : Donation.t := Donation.mk 1 7 None "Rice" "pending" None.

(** An open emergency request of the first account. *)
Definition flood : EmergencyRequest.t :=
  EmergencyRequest.mk 1 1 "Flooded street" "open" None.

(** Two accounts and one pending donation of the second. *)
Definition desk : Desk :=
  mkDesk [ana; dana] [] [rice] [] [flood] 8 1 1 3000000 []
    [("refresh-1", "access-1")]%string.

Definition manila : LocationSerializer.Attrs :=
  LocationSerializer.mk (Some 14600000) (Some 120980000) None None.

(** The same position, of unbounded accuracy. *)
Definition manila_somewhere : LocationSerializer.Attrs :=
  LocationSerializer.mk (Some 14600000) (Some 120980000) None
    (Some (Infinite false)).

(** The two accounts, the first of which has a current location. *)
Definition ana_home : Location.t :=
  Location.mk 1 1 14600000 120980000 2000000 true None.

Definition shared_desk : Desk :=
  mkDesk [ana; dana] [ana_home] [rice] [] [flood] 8 2 1 3000000 [] [].


(** * Properties *)

(** ** Evaluating Python values *)

Example int_of_padded : Py.int (JStr " 42 ") = inr 42.
Proof. reflexivity. Qed.

Example int_of_grouped : Py.int (JStr "1_000") = inr 1000.
Proof. reflexivity. Qed.

Example int_of_negative : Py.int (JStr "-3") = inr (-3).
Proof. reflexivity. Qed.

Example int_of_decimal_text : Py.int (JStr "5.0") = inl ValueError.
Proof. reflexivity. Qed.

Example int_of_fraction : Py.int (JFloat (27 # 10)) = inr 2.
Proof. reflexivity. Qed.

Example zero_is_falsy : Py.truthy (JInt 0) = false /\ Py.truthy (JStr "0") = true.
Proof. split; reflexivity. Qed.

Lemma truthy_str_ne (s : string) : s <> ""%string -> Py.truthy_str s = true.
Proof.
  intros Hne. unfold Py.truthy_str.
  destruct (String.eqb_spec s ""); [contradiction | reflexivity].
Qed.

(** ** Lists of rows *)

Section Rows.
Context {A : Type}.

Lemma filter_and (P Q : A -> bool) (l : list A) :
  List.filter (fun x => P x && Q x) l = List.filter Q (List.filter P l).
Proof.
  induction l as [|x l IH]; simpl; [reflexivity|].
  destruct (P x); simpl; [destruct (Q x)|]; rewrite IH; reflexivity.
Qed.

Lemma filter_at_most_one (P : A -> bool) (l : list A) (x : A) :
  (length (List.filter P l) <= 1)%nat -> In x l -> P x = true ->
  List.filter P l = [x].
Proof.
  intros Hlen Hin HP.
  assert (Hx : In x (List.filter P l)) by (apply filter_In; auto).
  destruct (List.filter P l) as [|y [|z r]]; simpl in *.
  - contradiction.
  - destruct Hx as [->|[]]. reflexivity.
  - lia.
Qed.

Lemma filter_singleton_member (P : A -> bool) (l : list A) (x y : A) :
  List.filter P l = [x] -> In y l -> P y = true -> y = x.
Proof.
  intros Hf Hin HP.
  assert (Hy : In y (List.filter P l)) by (apply filter_In; auto).
  rewrite Hf in Hy. destruct Hy as [->|[]]. reflexivity.
Qed.

Lemma filter_none (P : A -> bool) (l : list A) :
  (forall x, In x l -> P x = false) -> List.filter P l = [].
Proof.
  induction l as [|x l IH]; intros Hall; simpl; [reflexivity|].
  rewrite (Hall x) by (left; reflexivity).
  apply IH. intros y Hy. apply Hall. right. exact Hy.
Qed.

Lemma get_unique_found (rows : list A) (x : A) :
  get_unique rows = inr x -> rows = [x].
Proof. destruct rows as [|y [|z r]]; simpl; congruence. Qed.

End Rows.

Lemma has_qr_code_iff q l :
  has_qr_code q l = true <-> AnonymousLocation.qr_code l = Some q.
Proof.
  unfold has_qr_code. destruct (AnonymousLocation.qr_code l) as [q'|].
  - rewrite String.eqb_eq. split; congruence.
  - split; discriminate.
Qed.

Lemma no_conflict_same_row (rows : list AnonymousLocation.t) l l' q :
  List.filter (has_qr_code q) rows = [l] ->
  AnonymousLocation.id l' = AnonymousLocation.id l ->
  AnonymousLocation.qr_code l' = Some q ->
  qr_code_conflict l' rows = false.
Proof.
  intros Hf Hid Hq. unfold qr_code_conflict. rewrite Hq.
  apply not_true_is_false. intros Hex.
  apply existsb_exists in Hex as (r & Hin & Hr).
  apply andb_true_iff in Hr as [Hne Hr].
  rewrite (filter_singleton_member _ _ _ _ Hf Hin Hr) in Hne.
  rewrite Hid, Z.eqb_refl in Hne. discriminate.
Qed.

(** ** Running a handler *)

(** Unfolds the operators of [M] and the projections of the world. *)
Ltac exec :=
  cbv [dispatch try_except atomic bind ret raise lift query write fault group_send
       timezone_now uuid4_hex12 AnonymousLocationViewSet.save
       AnonymousLocationViewSet.serializer_data channel_layer_configured
       server_error AnonymousLocationViewSet.get_object
       AnonymousLocationViewSet.get_queryset
       AnonymousLocationViewSet.get_or_create];
  cbn [fst snd store clock delays uuids faults sent tick pop_fault pop_uuid post
       with_store];
  cbv [default from_option id].

(** A fault-free run meets no fault among its first operations. *)
Ltac no_fault :=
  unfold fault_free; intros ?Hff;
  destruct (faults _) as [|[] [|[] [|[] [|[] ?]]]]; simpl in *; congruence.

(** ** Redemption ([scan_qr_code]) *)

Section Redemption.
Import AnonymousLocationViewSet.

(** C1. Redeeming the code of an active request that has not received a
    donation: when no storage or channel operation fails the scan
    succeeds; a successful scan has rewritten the request row
    ([donation_received], [donated_by_user], [donation_timestamp],
    [next_request_allowed_at] three hours after a reading of the clock,
    [is_active]), marked the tracking rows of the (request, donator) pair
    arrived, appended the history snapshot and sent one
    [qr_scan_notification]; an unsuccessful one has left the database and
    the channel as they were. *)
Theorem scan_qr_code_redeems (w : World) (user : User.t) (qr : string)
    (location : AnonymousLocation.t) :
  qr_codes_unique (store w) ->
  In location (locations (store w)) ->
  AnonymousLocation.qr_code location = Some qr ->
  qr <> ""%string ->
  AnonymousLocation.is_active location = true ->
  AnonymousLocation.donation_received location = false ->
  let (r, w') := dispatch (scan_qr_code (Some user) (Some qr)) w in
  (fault_free w -> status_code r = 200) /\
  (status_code r = 200 ->
     exists t1 t2 t3 t4 : Instant,
       clock w <= t1 <= t2 /\ t2 <= t3 <= t4 /\ clock w' = t4 /\
       let location' :=
         AnonymousLocation.mk
           (AnonymousLocation.id location) (AnonymousLocation.first_name location)
           (AnonymousLocation.last_name location) (AnonymousLocation.phone location)
           (AnonymousLocation.facebook location) (AnonymousLocation.notes location)
           (AnonymousLocation.photo location)
           (AnonymousLocation.supply_needs location)
           (AnonymousLocation.latitude location)
           (AnonymousLocation.longitude location)
           t3 false (AnonymousLocation.session_id location) (Some qr)
           true (Some (User.id user)) (Some t1) (Some (t2 + hours 3)) in
       let history :=
         DonationHistory.mk (next_donation_history_id (store w)) (User.id user)
           (AnonymousLocation.first_name location)
           (AnonymousLocation.last_name location)
           (AnonymousLocation.phone location)
           (AnonymousLocation.latitude location)
           (AnonymousLocation.longitude location)
           (AnonymousLocation.supply_needs location) qr t4 "" in
       locations (store w') =
         map (fun r => if AnonymousLocation.id r =? AnonymousLocation.id location
                       then location' else r) (locations (store w)) /\
       donators_on_the_way (store w') =
         map (fun d => if is_pair (AnonymousLocation.id location) (User.id user) d
                       then DonatorOnTheWay.mk (DonatorOnTheWay.id d)
                              (DonatorOnTheWay.location d)
                              (DonatorOnTheWay.donator d)
                              (DonatorOnTheWay.marked_at d) true
                              (DonatorOnTheWay.is_tracking d)
                              (DonatorOnTheWay.last_location_update d)
                       else d) (donators_on_the_way (store w)) /\
       donation_history (store w') = donation_history (store w) ++ [history] /\
       location_updates (store w') = location_updates (store w) /\
       donation_ratings (store w') = donation_ratings (store w) /\
       sent w' = sent w ++
         [mkMessage "locations" "qr_scan_notification"
            (QrScanData (AnonymousLocation.session_id location)
               (DonationHistory.id history) (full_name user) (User.email user)
               (AnonymousLocation.supply_needs location) qr t4)]) /\
  (status_code r <> 200 -> store w' = store w /\ sent w' = sent w).
Proof.
  intros Huniq Hin Hqr Hne Hact Hrecv.
  assert (Hone : List.filter (has_qr_code qr) (locations (store w)) = [location]).
  { apply filter_at_most_one; auto. apply has_qr_code_iff; assumption. }
  assert (Hfil : List.filter
                   (fun l => has_qr_code qr l && AnonymousLocation.is_active l)
                   (locations (store w)) = [location]).
  { rewrite filter_and, Hone. simpl. rewrite Hact. reflexivity. }
  unfold scan_qr_code, AnonymousLocationSerializer.text_given.
  rewrite (truthy_str_ne qr Hne). cbn [negb].
  exec. rewrite Hfil. cbn [get_unique]. rewrite Hrecv.
  destruct (hd false (faults w)) eqn:F1; exec.
  { split; [no_fault | split; [discriminate | auto]]. }
  unfold locations_update at 1. cbn [store tick pop_fault].
  erewrite no_conflict_same_row by (try exact Hone; try reflexivity; exact Hqr).
  exec.
  destruct (hd false (tail (faults w))) eqn:F2; exec.
  { split; [no_fault | split; [discriminate | auto]]. }
  unfold donators_mark_arrived, history_insert. exec.
  destruct (hd false (tail (tail (faults w)))) eqn:F3; exec.
  { split; [no_fault | split; [discriminate | auto]]. }
  destruct (hd false (tail (tail (tail (faults w))))) eqn:F4; exec.
  { split; [no_fault | split; [discriminate | auto]]. }
  split; [reflexivity | split; [intros _ | intros Hbad; contradiction Hbad; reflexivity]].
  exists (clock w + Z.of_N (hd 0%N (delays w))),
         (clock w + Z.of_N (hd 0%N (delays w)) + Z.of_N (hd 0%N (tail (delays w)))),
         (clock w + Z.of_N (hd 0%N (delays w)) + Z.of_N (hd 0%N (tail (delays w)))
          + Z.of_N (hd 0%N (tail (tail (delays w))))),
         (clock w + Z.of_N (hd 0%N (delays w)) + Z.of_N (hd 0%N (tail (delays w)))
          + Z.of_N (hd 0%N (tail (tail (delays w))))
          + Z.of_N (hd 0%N (tail (tail (tail (delays w)))))).
  destruct location; cbn in Hqr; subst.
  repeat split; try lia; reflexivity.
Qed.

Lemma open_store_qr_codes_unique : qr_codes_unique open_store.
Proof.
  intros q. cbn [open_store locations List.filter].
  destruct (has_qr_code q request_row); simpl; lia.
Qed.

Lemma scan_qr_code_redeems_witness :
  qr_codes_unique (store open_world)
  /\ In request_row (locations (store open_world))
  /\ AnonymousLocation.qr_code request_row = Some "LOC-0123456789AB"%string
  /\ "LOC-0123456789AB"%string <> ""%string
  /\ AnonymousLocation.is_active request_row = true
  /\ AnonymousLocation.donation_received request_row = false
  /\ fault_free open_world
  /\ status_code
       (fst (dispatch (scan_qr_code (Some donor) (Some "LOC-0123456789AB"%string))
                      open_world)) = 200.
Proof.
  assert (Hne : "LOC-0123456789AB"%string <> ""%string) by discriminate.
  pose proof (scan_qr_code_redeems open_world donor "LOC-0123456789AB" request_row
                open_store_qr_codes_unique (or_introl eq_refl) eq_refl Hne
                eq_refl eq_refl) as Hred.
  split; [exact open_store_qr_codes_unique|].
  split; [left; reflexivity|].
  split; [reflexivity|].
  split; [exact Hne|].
  split; [reflexivity|].
  split; [reflexivity|].
  split; [reflexivity|].
  destruct (dispatch _ open_world) as [r w'].
  apply Hred. reflexivity.
Defined.

End Redemption.

(** ** Tables under insertion, replacement by key and deletion *)

Section Keyed.
Context {A : Type} (key : A -> Z).

Lemma key_injective (l : list A) (x y : A) :
  List.NoDup (map key l) -> In x l -> In y l -> key x = key y -> x = y.
Proof.
  induction l as [|a l IH]; simpl; intros Hnd Hx Hy Hk; [contradiction|].
  inversion Hnd as [|? ? Hnotin Hnd']; subst.
  destruct Hx as [->|Hx], Hy as [->|Hy]; auto.
  - exfalso. apply Hnotin. rewrite Hk. apply in_map. exact Hy.
  - exfalso. apply Hnotin. rewrite <- Hk. apply in_map. exact Hx.
Qed.

(** Replacing the row of a key touches exactly one position. *)
Lemma replace_by_key (l : list A) (x y : A) :
  List.NoDup (map key l) -> In x l ->
  exists l1 l2,
    l = l1 ++ x :: l2
    /\ (forall r, In r (l1 ++ l2) -> key r <> key x)
    /\ map (fun r => if key r =? key x then y else r) l = l1 ++ y :: l2.
Proof.
  intros Hnd Hin.
  destruct (in_split _ _ Hin) as (l1 & l2 & ->).
  exists l1, l2. split; [reflexivity|].
  assert (Hother : forall r, In r (l1 ++ l2) -> key r <> key x).
  { intros r Hr Heq. rewrite map_app in Hnd. simpl in Hnd.
    apply List.NoDup_remove_2 in Hnd. apply Hnd.
    rewrite <- map_app, <- Heq. apply in_map. exact Hr. }
  split; [exact Hother|].
  rewrite map_app. simpl. rewrite Z.eqb_refl.
  f_equal; [|f_equal].
  - rewrite <- (map_id l1) at 2. apply map_ext_in. intros r Hr.
    destruct (Z.eqb_spec (key r) (key x)) as [Heq|]; [|reflexivity].
    exfalso. apply (Hother r); [apply in_or_app; left; exact Hr | exact Heq].
  - rewrite <- (map_id l2) at 2. apply map_ext_in. intros r Hr.
    destruct (Z.eqb_spec (key r) (key x)) as [Heq|]; [|reflexivity].
    exfalso. apply (Hother r); [apply in_or_app; right; exact Hr | exact Heq].
Qed.

Lemma keys_fresh_insert (l : list A) (x : A) (next : Z) :
  keys_fresh (map key l) next -> key x = next ->
  keys_fresh (map key (l ++ [x])) (next + 1).
Proof.
  intros [Hnd Hlt] Hk. split.
  - rewrite map_app. simpl. apply List.NoDup_app; [exact Hnd | repeat constructor; auto |].
    intros i Hi [<-|[]]. apply Hlt in Hi. lia.
  - intros i Hi. rewrite map_app in Hi. apply in_app_or in Hi as [Hi|[<-|[]]].
    + apply Hlt in Hi. lia.
    + lia.
Qed.

Lemma keys_fresh_replace (l : list A) (f : A -> A) (next : Z) :
  (forall r, In r l -> key (f r) = key r) ->
  keys_fresh (map key l) next -> keys_fresh (map key (map f l)) next.
Proof.
  intros Hf Hfresh. rewrite map_map.
  rewrite (map_ext_in (fun r => key (f r)) key l Hf). exact Hfresh.
Qed.

Lemma keys_fresh_filter (l : list A) (P : A -> bool) (next : Z) :
  keys_fresh (map key l) next -> keys_fresh (map key (List.filter P l)) next.
Proof.
  intros [Hnd Hlt]. split.
  - clear Hlt. induction l as [|a l IH]; simpl; [constructor|].
    inversion Hnd as [|? ? Hnotin Hnd']; subst.
    destruct (P a); simpl; [constructor|]; auto.
    intros Hin. apply Hnotin. apply in_map_iff in Hin as (r & Hr & Hin).
    apply filter_In in Hin as [Hin _]. rewrite <- Hr. apply in_map. exact Hin.
  - intros i Hi. apply Hlt. apply in_map_iff in Hi as (r & Hr & Hin).
    apply filter_In in Hin as [Hin _]. rewrite <- Hr. apply in_map. exact Hin.
Qed.

End Keyed.

Section Counting.
Context {A : Type} (P : A -> bool).

Lemma count_insert (l : list A) (x : A) :
  length (List.filter P (l ++ [x]))
  = (length (List.filter P l) + (if P x then 1 else 0))%nat.
Proof.
  rewrite List.filter_app, length_app. simpl. destruct (P x); reflexivity.
Qed.

Lemma count_filter (Q : A -> bool) (l : list A) :
  (length (List.filter P (List.filter Q l)) <= length (List.filter P l))%nat.
Proof.
  induction l as [|a l IH]; simpl; [lia|].
  destruct (Q a); simpl; destruct (P a); simpl; lia.
Qed.

Lemma count_around (l1 l2 : list A) (x : A) :
  length (List.filter P (l1 ++ x :: l2))
  = (length (List.filter P l1) + (if P x then 1 else 0)
     + length (List.filter P l2))%nat.
Proof.
  rewrite List.filter_app, length_app. simpl. destruct (P x); simpl; lia.
Qed.

Lemma count_unchanged (f : A -> A) (l : list A) :
  (forall r, In r l -> P (f r) = P r) ->
  length (List.filter P (map f l)) = length (List.filter P l).
Proof.
  induction l as [|a l IH]; intros Hf; simpl; [reflexivity|].
  rewrite (Hf a) by (left; reflexivity).
  destruct (P a); simpl; rewrite IH; auto; intros r Hr; apply Hf; right; exact Hr.
Qed.

End Counting.

(** ** The schema constraints survive every write *)

Lemma is_pair_iff location donator d :
  is_pair location donator d = true
  <-> DonatorOnTheWay.location d = location /\ DonatorOnTheWay.donator d = donator.
Proof. unfold is_pair. rewrite andb_true_iff, !Z.eqb_eq. reflexivity. Qed.

Lemma existsb_false_count {A} (P : A -> bool) (l : list A) :
  existsb P l = false -> length (List.filter P l) = 0%nat.
Proof.
  intros Hex. rewrite filter_none; [reflexivity|].
  intros x Hx. apply not_true_is_false. intros HP.
  assert (existsb P l = true) by (apply existsb_exists; eauto). congruence.
Qed.

Lemma locations_update_inv l s s' :
  locations_update l s = inr (tt, s') ->
  qr_code_conflict l (locations s) = false
  /\ s' = set_locations
            (map (fun r => if AnonymousLocation.id r =? AnonymousLocation.id l
                           then l else r) (locations s)) s.
Proof.
  unfold locations_update. destruct (qr_code_conflict l (locations s)); [discriminate|].
  intros [= <-]. auto.
Qed.

Lemma no_conflict_elsewhere l rows q r :
  qr_code_conflict l rows = false -> has_qr_code q l = true ->
  In r rows -> AnonymousLocation.id r <> AnonymousLocation.id l ->
  has_qr_code q r = false.
Proof.
  intros Hc Hq Hin Hne. apply has_qr_code_iff in Hq.
  unfold qr_code_conflict in Hc. rewrite Hq in Hc.
  apply not_true_is_false. intros Hr.
  assert (Hex : existsb (fun r => negb (AnonymousLocation.id r =? AnonymousLocation.id l)
                                  && has_qr_code q r) rows = true).
  { apply existsb_exists. exists r. split; [exact Hin|].
    rewrite Hr, andb_true_r. apply negb_true_iff. apply Z.eqb_neq. exact Hne. }
  congruence.
Qed.

Lemma qr_codes_unique_update (s : Store) l0 l :
  List.NoDup (map AnonymousLocation.id (locations s)) ->
  qr_codes_unique s -> In l0 (locations s) ->
  AnonymousLocation.id l = AnonymousLocation.id l0 ->
  qr_code_conflict l (locations s) = false ->
  forall q,
    (length (List.filter (has_qr_code q)
       (map (fun r => if (AnonymousLocation.id r =? AnonymousLocation.id l)%Z
                      then l else r) (locations s))) <= 1)%nat.
Proof.
  intros Hnd Huniq Hin Hid Hc q. rewrite Hid.
  destruct (replace_by_key AnonymousLocation.id _ l0 l Hnd Hin)
    as (l1 & l2 & Hsplit & Hother & ->).
  specialize (Huniq q). rewrite Hsplit, count_around in Huniq.
  rewrite count_around.
  destruct (has_qr_code q l) eqn:Hq; [|destruct (has_qr_code q l0); lia].
  assert (Hnone : forall r, In r (l1 ++ l2) -> has_qr_code q r = false).
  { intros r Hr. apply (no_conflict_elsewhere l (locations s) q r Hc Hq).
    - rewrite Hsplit. apply in_app_or in Hr as [Hr|Hr]; apply in_or_app;
        [left | right; right]; exact Hr.
    - rewrite Hid. apply Hother. exact Hr. }
  rewrite (filter_none (has_qr_code q) l1), (filter_none (has_qr_code q) l2);
    [simpl; lia | |]; intros r Hr; apply Hnone; apply in_or_app; auto.
Qed.

Lemma pairs_unique_update (rows : list DonatorOnTheWay.t) d0 d :
  List.NoDup (map DonatorOnTheWay.id rows) -> In d0 rows ->
  DonatorOnTheWay.id d = DonatorOnTheWay.id d0 ->
  DonatorOnTheWay.location d = DonatorOnTheWay.location d0 ->
  DonatorOnTheWay.donator d = DonatorOnTheWay.donator d0 ->
  forall a b,
    length (List.filter (is_pair a b)
      (map (fun r => if DonatorOnTheWay.id r =? DonatorOnTheWay.id d then d else r) rows))
    = length (List.filter (is_pair a b) rows).
Proof.
  intros Hnd Hin Hid Hl Hd a b. rewrite Hid.
  destruct (replace_by_key DonatorOnTheWay.id _ d0 d Hnd Hin)
    as (l1 & l2 & Hsplit & _ & ->).
  rewrite Hsplit, !count_around.
  replace (is_pair a b d) with (is_pair a b d0); [reflexivity|].
  unfold is_pair. rewrite Hl, Hd. reflexivity.
Qed.

Ltac constraints :=
  unfold consistent; refine (conj _ (conj _ (conj _ (conj _ _))));
  cbn [locations donators_on_the_way location_updates donation_history
       donation_ratings next_location_id next_donator_on_the_way_id
       next_location_update_id next_donation_history_id next_donation_rating_id
       set_locations set_donators_on_the_way set_donation_history
       qr_codes_unique pairs_unique ratings_unique];
  try assumption.

Lemma Write_consistent (s s' : Store) : consistent s -> Write s s' -> consistent s'.
Proof.
  intros (Hloc & Hdon & Hqr & Hpair & Hrate) Hw.
  destruct Hw as [row l s' Hid Hnone Hins | l0 l s' Hin Hid Hkind Hupd
                 | l0 s' Hin Hact Hdel | row d s' Hid Hins
                 | d0 d s' Hin Hid Hl Hd Hupd | location donator s' Harr
                 | row u s' Hins | row h s' Hins | h s' Hupd | row r s' Hins].
  - unfold locations_insert in Hins.
    destruct (qr_code_conflict _ _); [discriminate|]. injection Hins as <- <-.
    constraints.
    + apply (keys_fresh_insert AnonymousLocation.id); auto.
    + intros q. unfold qr_codes_unique. cbn [locations].
      rewrite count_insert. unfold has_qr_code at 2. rewrite Hnone.
      specialize (Hqr q). lia.
  - apply locations_update_inv in Hupd as [Hc ->].
    constraints.
    + apply (keys_fresh_replace AnonymousLocation.id); [|exact Hloc].
      intros r _. destruct (Z.eqb_spec (AnonymousLocation.id r) (AnonymousLocation.id l));
        congruence.
    + intros q. cbn. apply (qr_codes_unique_update s l0 l); auto. apply Hloc.
  - unfold locations_delete in Hdel. injection Hdel as <-.
    constraints.
    + apply (keys_fresh_filter AnonymousLocation.id), Hloc.
    + apply (keys_fresh_filter DonatorOnTheWay.id), Hdon.
    + intros q. cbn. etransitivity; [apply count_filter | apply Hqr].
    + intros a b. cbn. etransitivity; [apply count_filter | apply Hpair].
  - unfold donators_insert in Hins.
    destruct (existsb _ _) eqn:Hex; [discriminate|]. injection Hins as <- <-.
    constraints.
    + apply (keys_fresh_insert DonatorOnTheWay.id); auto.
    + intros a b. cbn. rewrite count_insert.
      destruct (is_pair a b _) eqn:Hp; [|specialize (Hpair a b); lia].
      apply is_pair_iff in Hp as [<- <-].
      rewrite (existsb_false_count _ _ Hex). lia.
  - unfold donators_update in Hupd.
    destruct (existsb _ _); [discriminate|]. injection Hupd as <-.
    constraints.
    + apply (keys_fresh_replace DonatorOnTheWay.id); [|exact Hdon].
      intros r _. destruct (Z.eqb_spec (DonatorOnTheWay.id r) (DonatorOnTheWay.id d));
        congruence.
    + intros a b. cbn. rewrite (pairs_unique_update _ d0 d); auto. apply Hdon.
  - unfold donators_mark_arrived in Harr. injection Harr as <-.
    constraints.
    + apply (keys_fresh_replace DonatorOnTheWay.id); [|exact Hdon].
      intros r _. destruct (is_pair location donator r); reflexivity.
    + intros a b. cbn. rewrite count_unchanged; [apply Hpair|].
      intros r _. destruct (is_pair location donator r); reflexivity.
  - unfold location_updates_insert in Hins. injection Hins as <- <-. constraints.
  - unfold history_insert in Hins. injection Hins as <- <-. constraints.
  - unfold history_update in Hupd. injection Hupd as <-. constraints.
  - unfold ratings_insert in Hins.
    destruct (existsb _ _) eqn:Hex; [discriminate|]. injection Hins as <- <-.
    constraints.
    intros h. cbn. rewrite count_insert.
    destruct (_ =? h) eqn:Hh; [|specialize (Hrate h); lia].
    apply Z.eqb_eq in Hh. subst h.
    rewrite (existsb_false_count _ _ Hex). lia.
Qed.

Lemma Write_retired (q : string) (s s' : Store) :
  List.NoDup (map AnonymousLocation.id (locations s)) ->
  retired q s -> Write s s' -> retired q s'.
Proof.
  intros Hnd [(lq & Hlq & Hq) Hoff] Hw.
  assert (Hmoved : forall l0, In l0 (locations s) ->
            AnonymousLocation.is_active l0 = true \/ AnonymousLocation.qr_code l0 = None ->
            AnonymousLocation.id lq <> AnonymousLocation.id l0).
  { intros l0 Hin Hkind Heq.
    assert (lq = l0) by (eapply (key_injective AnonymousLocation.id); eauto). subst l0.
    destruct Hkind as [Hact|Hnone].
    - rewrite (Hoff lq Hlq Hq) in Hact. discriminate.
    - apply has_qr_code_iff in Hq. congruence. }
  destruct Hw as [row l s' Hid Hnone Hins | l0 l s' Hin Hid Hkind Hupd
                 | l0 s' Hin Hact Hdel | row d s' Hid Hins
                 | d0 d s' Hin Hid Hl Hd Hupd | location donator s' Harr
                 | row u s' Hins | row h s' Hins | h s' Hupd | row r s' Hins].
  - unfold locations_insert in Hins.
    destruct (qr_code_conflict _ _); [discriminate|]. injection Hins as <- <-.
    split; cbn [locations].
    + exists lq. split; [apply in_or_app; left|]; assumption.
    + intros r Hr Hqr. apply in_app_or in Hr as [Hr|[<-|[]]]; [auto|].
      apply has_qr_code_iff in Hqr. congruence.
  - apply locations_update_inv in Hupd as [Hc ->].
    assert (Hne : AnonymousLocation.id lq <> AnonymousLocation.id l).
    { rewrite Hid. apply Hmoved; [exact Hin|]. destruct Hkind as [[? _]|?]; auto. }
    split; cbn [locations set_locations].
    + exists lq. split; [|exact Hq].
      apply in_map_iff. exists lq. split; [|exact Hlq].
      destruct (Z.eqb_spec (AnonymousLocation.id lq) (AnonymousLocation.id l));
        [contradiction | reflexivity].
    + intros r' Hr' Hqr. apply in_map_iff in Hr' as (r & <- & Hr).
      destruct (Z.eqb_spec (AnonymousLocation.id r) (AnonymousLocation.id l)); [|auto].
      exfalso.
      pose proof (no_conflict_elsewhere l (locations s) q lq Hc Hqr Hlq Hne). congruence.
  - unfold locations_delete in Hdel. injection Hdel as <-.
    split; cbn [locations].
    + exists lq. split; [|exact Hq]. apply filter_In. split; [exact Hlq|].
      apply negb_true_iff, Z.eqb_neq. apply Hmoved; auto.
    + intros r Hr. apply filter_In in Hr as [Hr _]. auto.
  - unfold donators_insert in Hins.
    destruct (existsb _ _); [discriminate|]. injection Hins as <- <-.
    split; cbn [locations]; eauto.
  - unfold donators_update in Hupd.
    destruct (existsb _ _); [discriminate|]. injection Hupd as <-.
    split; cbn [locations set_donators_on_the_way]; eauto.
  - unfold donators_mark_arrived in Harr. injection Harr as <-.
    split; cbn [locations set_donators_on_the_way]; eauto.
  - unfold location_updates_insert in Hins. injection Hins as <- <-.
    split; cbn [locations]; eauto.
  - unfold history_insert in Hins. injection Hins as <- <-.
    split; cbn [locations]; eauto.
  - unfold history_update in Hupd. injection Hupd as <-.
    split; cbn [locations set_donation_history]; eauto.
  - unfold ratings_insert in Hins.
    destruct (existsb _ _); [discriminate|]. injection Hins as <- <-.
    split; cbn [locations]; eauto.
Qed.

Lemma Writes_consistent (s s' : Store) :
  rtc Write s s' -> consistent s -> consistent s'.
Proof.
  induction 1 as [|s1 s2 s3 Hstep _ IH]; [auto|].
  intros Hc. apply IH. eapply Write_consistent; eauto.
Qed.

Lemma Writes_retired (q : string) (s s' : Store) :
  rtc Write s s' -> consistent s -> retired q s -> retired q s'.
Proof.
  induction 1 as [|s1 s2 s3 Hstep _ IH]; [auto|].
  intros Hc Hr. apply IH.
  - eapply Write_consistent; eauto.
  - eapply Write_retired; eauto. apply Hc.
Qed.

Lemma first_by_last_seen_In rows x :
  first_by_last_seen rows = Some x -> In x rows.
Proof.
  revert x. induction rows as [|a rows IH]; simpl; intros x Hx; [discriminate|].
  destruct (first_by_last_seen rows) as [y|].
  - destruct (_ <? _); injection Hx as <-; auto.
  - injection Hx as <-. auto.
Qed.

Lemma first_by_last_seen_filter P rows x :
  first_by_last_seen (List.filter P rows) = Some x -> In x rows /\ P x = true.
Proof. intros Hx. apply first_by_last_seen_In in Hx. apply filter_In in Hx. exact Hx. Qed.

Lemma get_unique_filter {A} (P : A -> bool) rows x :
  get_unique (List.filter P rows) = inr x -> In x rows /\ P x = true.
Proof.
  intros Hx. apply get_unique_found in Hx.
  apply filter_In. rewrite Hx. left. reflexivity.
Qed.

Lemma locations_insert_inv row s l s' :
  locations_insert row s = inr (l, s') ->
  l = row (next_location_id s) /\ locations s' = locations s ++ [l].
Proof.
  unfold locations_insert. destruct (qr_code_conflict _ _); [discriminate|].
  intros [= <- <-]. auto.
Qed.

(** ** Every handler changes the database by guarded writes *)

Section Views.
Import AnonymousLocationViewSet.
Context {rt : Runtime}.

Lemma create_writes data w :
  rtc Write (store w) (store (snd (dispatch (create data) w))).
Proof.
  unfold create. exec.
  destruct (first_by_last_seen _) as [recent|]; exec; [apply rtc_refl|].
  assert (Hnew :
    rtc Write (store w)
      (store (snd (dispatch
        (let! attrs := lift (AnonymousLocationSerializer.is_valid None false data) in
         let! seen := timezone_now in
         let! seen' := timezone_now in
         let! location := write (locations_insert
                            (AnonymousLocationSerializer.create_row attrs seen')) in
         let! hex := uuid4_hex12 in
         let! location := save (AnonymousLocation.set_qr_code
                                  (Some ("LOC-" ++ hex)%string) location) in
         let! (l, on_the_way) := serializer_data location in
         ret (mkResponse 201 (LocationBody l on_the_way))) (tick w))))).
  { exec.
    destruct (AnonymousLocationSerializer.is_valid None false data) as [e|attrs]; exec;
      [apply rtc_refl|].
    destruct (hd false (faults w)); exec; [apply rtc_refl|].
    destruct (locations_insert _ (store w)) as [e|[l s1]] eqn:Hins; exec; [apply rtc_refl|].
    assert (W1 : Write (store w) s1).
    { eapply W_location_insert; [| |exact Hins]; reflexivity. }
    apply locations_insert_inv in Hins as [Hl Hs1].
    destruct (hd false (tail (faults w))); exec; [apply rtc_once, W1|].
    destruct (locations_update _ s1) as [e|[[] s2]] eqn:Hupd; exec; [apply rtc_once, W1|].
    eapply rtc_l; [exact W1|]. apply rtc_once.
    eapply (W_location_update s1 l); [| | |exact Hupd].
    + rewrite Hs1. apply in_or_app. right. left. reflexivity.
    + reflexivity.
    + right. rewrite Hl. reflexivity. }
  destruct (Py.truthy_str _); exec; [|exact Hnew].
  destruct (first_by_last_seen _) as [instance|] eqn:Hfirst; [|exact Hnew].
  clear Hnew. apply first_by_last_seen_filter in Hfirst as [Hin Hprop].
  apply andb_true_iff in Hprop as [_ Hact].
  destruct (AnonymousLocationSerializer.is_valid _ _ _) as [e|attrs]; exec;
    [apply rtc_refl|].
  destruct (hd false (faults w)); exec; [apply rtc_refl|].
  destruct (locations_update _ (store w)) as [e|[[] s1]] eqn:Hupd; exec; [apply rtc_refl|].
  apply rtc_once.
  eapply (W_location_update _ instance); [exact Hin | | | exact Hupd];
    [reflexivity | left; split; [exact Hact | reflexivity]].
Qed.


Lemma deactivate_writes pk w :
  rtc Write (store w) (store (snd (dispatch (deactivate pk) w))).
Proof.
  unfold deactivate. exec.
  destruct (get_unique _) as [e|location] eqn:Hget.
  { destruct e; exec; apply rtc_refl. }
  apply get_unique_filter in Hget as [Hq _].
  apply filter_In in Hq as [Hin Hprop]. apply andb_true_iff in Hprop as [Hact _].
  exec. destruct (hd false (faults w)); exec; [apply rtc_refl|].
  destruct (locations_delete _ (store w)) as [e|[[] s1]] eqn:Hdel; exec; [apply rtc_refl|].
  apply rtc_once. eapply W_location_delete; eauto.
Qed.

Lemma mark_on_the_way_writes user pk w :
  rtc Write (store w) (store (snd (dispatch (mark_on_the_way user pk) w))).
Proof.
  unfold mark_on_the_way.
  destruct user as [user|]; [|exec; apply rtc_refl].
  exec.
  destruct (get_unique _) as [e|location] eqn:Hget.
  { destruct e; exec; apply rtc_refl. }
  exec. destruct (AnonymousLocation.donation_received location); exec; [apply rtc_refl|].
  clear Hget. destruct (get_unique _) as [e|entry] eqn:Hpair.
  - destruct e; exec; try apply rtc_refl.
    destruct (hd false (faults w)); exec; [apply rtc_refl|].
    destruct (donators_insert _ (store w)) as [e|[d s1]] eqn:Hins; exec; [apply rtc_refl|].
    destruct (hd false (tail (faults w))); exec; [apply rtc_refl|].
    apply rtc_once. eapply W_donator_insert; [|exact Hins]. reflexivity.
  - apply get_unique_filter in Hpair as [Hin _].
    exec. destruct (hd false (faults w)); exec; [apply rtc_refl|].
    destruct (donators_update _ (store w)) as [e|[[] s1]] eqn:Hupd; exec; [apply rtc_refl|].
    destruct (hd false (tail (faults w))); exec; [apply rtc_refl|].
    apply rtc_once. eapply (W_donator_update _ entry); [exact Hin | | | | exact Hupd];
      reflexivity.
Qed.


Lemma scan_qr_code_writes user qr w :
  rtc Write (store w) (store (snd (dispatch (scan_qr_code user qr) w))).
Proof.
  unfold scan_qr_code.
  destruct user as [user|]; [|exec; apply rtc_refl].
  destruct (negb _); [exec; apply rtc_refl|].
  exec.
  destruct (get_unique _) as [e|location] eqn:Hget.
  { destruct e; exec; apply rtc_refl. }
  apply get_unique_filter in Hget as [Hin Hprop].
  apply andb_true_iff in Hprop as [_ Hact].
  destruct (AnonymousLocation.donation_received location); [exec; apply rtc_refl|].
  exec.
  destruct (hd false (faults w)); exec; [apply rtc_refl|].
  destruct (locations_update _ (store w)) as [e|[[] s1]] eqn:Hupd; exec; [apply rtc_refl|].
  destruct (hd false (tail (faults w))); exec; [apply rtc_refl|].
  destruct (donators_mark_arrived _ _ s1) as [e|[[] s2]] eqn:Harr; exec; [apply rtc_refl|].
  destruct (hd false (tail (tail (faults w)))); exec; [apply rtc_refl|].
  destruct (history_insert _ s2) as [e|[h s3]] eqn:Hins; exec; [apply rtc_refl|].
  destruct (hd false (tail (tail (tail (faults w))))); exec; [apply rtc_refl|].
  eapply rtc_l.
  { eapply W_location_update; [exact Hin | | | exact Hupd];
      [reflexivity | left; split; [exact Hact | reflexivity]]. }
  eapply rtc_l; [eapply W_donators_arrived; eauto|].
  eapply rtc_l; [eapply W_history_insert; eauto|].
  apply rtc_refl.
Qed.

Lemma rating_create_writes data w :
  rtc Write (store w) (store (snd (dispatch (DonationRatingViewSet.create data) w))).
Proof.
  unfold DonationRatingViewSet.create.
  destruct (_ || _); [exec; apply rtc_refl|]. exec.
  destruct (get_unique _) as [e|history] eqn:Hget.
  { destruct e; exec; apply rtc_refl. }
  clear Hget. exec.
  destruct (DonationRatingViewSet.has_rating history (store w)) as [e|[]]; exec;
    try apply rtc_refl.
  destruct (DonationRatingSerializer.is_valid data) as [e|attrs].
  { destruct e; exec; apply rtc_refl. }
  exec. destruct (hd false (faults w)); exec; [apply rtc_refl|].
  destruct (ratings_insert _ (store w)) as [e|[rating s1]] eqn:Hins; exec; [apply rtc_refl|].
  assert (W1 : Write (store w) s1) by (eapply W_rating_insert; exact Hins).
  destruct (Py.truthy _); exec; [|apply rtc_once, W1].
  destruct (DonationRating.supplies_confirmed rating); exec; try apply rtc_once, W1.
  destruct (DonationRatingViewSet.actual_supplies _) as [e|actual]; exec;
    [apply rtc_once, W1|].
  destruct (hd false (tail (faults w))); exec; [apply rtc_once, W1|].
  destruct (history_update _ s1) as [e|[[] s2]] eqn:Hupd; exec; [apply rtc_once, W1|].
  eapply rtc_l; [exact W1|]. apply rtc_once. eapply W_history_update. exact Hupd.
Qed.

Lemma location_updates_insert_inv row s u s' :
  location_updates_insert row s = inr (u, s') ->
  donators_on_the_way s' = donators_on_the_way s.
Proof. unfold location_updates_insert. intros [= <- <-]. reflexivity. Qed.

Lemma location_update_writes user data w :
  rtc Write (store w) (store (snd (dispatch (location_update user data) w))).
Proof.
  unfold location_update.
  destruct user as [user|]; [|exec; apply rtc_refl].
  exec. destruct (negb _); [exec; apply rtc_refl|].
  destruct (Py.int _) as [e|location_pk]; exec; [apply rtc_refl|].
  destruct (get_unique _) as [e|entry] eqn:Hget.
  { destruct e; exec; apply rtc_refl. }
  apply get_unique_filter in Hget as [Hin _]. exec.
  destruct (decimal_db_value 10 8 _) as [e|lat]; exec; [apply rtc_refl|].
  destruct (decimal_db_value 11 8 _) as [e|lon]; exec; [apply rtc_refl|].
  destruct (float_db_value _) as [e|acc]; exec; [apply rtc_refl|].
  destruct (hd false (faults w)); exec; [apply rtc_refl|].
  destruct (location_updates_insert _ (store w)) as [e|[sample s1]] eqn:Hins; exec;
    [apply rtc_refl|].
  assert (W1 : Write (store w) s1) by (eapply W_sample_insert; exact Hins).
  apply location_updates_insert_inv in Hins.
  destruct (hd false (tail (faults w))); exec; [apply rtc_once, W1|].
  destruct (donators_update _ s1) as [e|[[] s2]] eqn:Hupd; exec; [apply rtc_once, W1|].
  assert (W2 : Write s1 s2).
  { eapply (W_donator_update _ entry); [| | | | exact Hupd]; try reflexivity.
    rewrite Hins. exact Hin. }
  assert (W12 : rtc Write (store w) s2) by (eapply rtc_l; [exact W1 | apply rtc_once, W2]).
  destruct (py_float _) as [e|flat]; exec; [exact W12|].
  destruct (py_float _) as [e|flon]; exec; [exact W12|].
  destruct (hd false (tail (tail (faults w)))); exec; exact W12.
Qed.

Lemma stop_tracking_writes user locationId w :
  rtc Write (store w) (store (snd (dispatch (stop_tracking user locationId) w))).
Proof.
  unfold stop_tracking.
  destruct user as [user|]; [|exec; apply rtc_refl].
  exec. destruct (negb _); [exec; apply rtc_refl|].
  destruct (Py.int _) as [e|location_pk]; exec; [apply rtc_refl|].
  destruct (get_unique _) as [e|entry] eqn:Hget.
  { destruct e; exec; apply rtc_refl. }
  apply get_unique_filter in Hget as [Hin _]. exec.
  destruct (hd false (faults w)); exec; [apply rtc_refl|].
  destruct (donators_update _ (store w)) as [e|[[] s1]] eqn:Hupd; exec; [apply rtc_refl|].
  assert (W1 : Write (store w) s1).
  { eapply (W_donator_update _ entry); [exact Hin | | | | exact Hupd]; reflexivity. }
  destruct (hd false (tail (faults w))); exec; apply rtc_once, W1.
Qed.

(** Every request changes the database by a sequence of guarded writes. *)
Lemma run_writes (op : Op) (w : World) :
  rtc Write (store w) (store (snd (run op w))).
Proof.
  destruct op; unfold run, view.
  - apply create_writes.
  - apply deactivate_writes.
  - apply mark_on_the_way_writes.
  - apply scan_qr_code_writes.
  - apply rating_create_writes.
  - apply location_update_writes.
  - apply stop_tracking_writes.
Qed.

Lemma run_all_writes (ops : list Op) (w : World) :
  rtc Write (store w) (store (run_all ops w)).
Proof.
  revert w. induction ops as [|op ops IH]; intros w; simpl; [apply rtc_refl|].
  etransitivity; [apply run_writes | apply IH].
Qed.

End Views.

(** ** Scans that are turned down *)

Section Rejection.
Import AnonymousLocationViewSet.
Context {rt : Runtime}.

Lemma scan_inactive_code (w : World) (user : User.t) (qr : string) :
  qr <> ""%string ->
  (forall l, In l (locations (store w)) -> AnonymousLocation.qr_code l = Some qr ->
             AnonymousLocation.is_active l = false) ->
  dispatch (scan_qr_code (Some user) (Some qr)) w
  = (mkResponse 404 (ErrorBody "Invalid or expired QR code"), w).
Proof.
  intros Hne Hoff.
  unfold scan_qr_code, AnonymousLocationSerializer.text_given.
  rewrite (truthy_str_ne qr Hne). cbn [negb]. exec.
  rewrite filter_none; [reflexivity|].
  intros l Hl. destruct (has_qr_code qr l) eqn:Hq; [|reflexivity].
  apply has_qr_code_iff in Hq. rewrite (Hoff l Hl Hq). reflexivity.
Qed.

Lemma scan_success_retires (w : World) (user : User.t) (qr : string) :
  qr_codes_unique (store w) ->
  status_code (fst (dispatch (scan_qr_code (Some user) (Some qr)) w)) = 200 ->
  retired qr (store (snd (dispatch (scan_qr_code (Some user) (Some qr)) w))).
Proof.
  intros Huniq.
  unfold scan_qr_code.
  destruct (negb _); [exec; discriminate|]. exec.
  destruct (get_unique _) as [e|location] eqn:Hget.
  { destruct e; exec; discriminate. }
  apply get_unique_filter in Hget as [Hin Hprop].
  apply andb_true_iff in Hprop as [Hq Hact].
  destruct (AnonymousLocation.donation_received location); [exec; discriminate|].
  exec.
  destruct (hd false (faults w)); exec; [discriminate|].
  destruct (locations_update _ (store w)) as [e|[[] s1]] eqn:Hupd; exec; [discriminate|].
  destruct (hd false (tail (faults w))); exec; [discriminate|].
  unfold donators_mark_arrived, history_insert. exec.
  destruct (hd false (tail (tail (faults w)))); exec; [discriminate|].
  destruct (hd false (tail (tail (tail (faults w))))); exec; [discriminate|].
  intros _. apply locations_update_inv in Hupd as [_ ->].
  pose proof (filter_at_most_one _ _ _ (Huniq qr) Hin Hq) as Hone.
  split; cbn [locations set_locations set_donators_on_the_way].
  - eexists. split.
    + apply in_map_iff. exists location. split; [|exact Hin].
      cbn. rewrite Z.eqb_refl. reflexivity.
    + exact Hq.
  - intros r' Hr' Hqr. apply in_map_iff in Hr' as (r & <- & Hr).
    cbn in Hqr |- *.
    destruct (Z.eqb_spec (AnonymousLocation.id r) (AnonymousLocation.id location)) as [|Hne];
      [reflexivity|].
    rewrite (filter_singleton_member _ _ _ _ Hone Hr Hqr) in Hne. contradiction.
Qed.

(** C2. A scan of a code that no active request carries is answered 404 and
    changes nothing; a scan of the code of an active request that has
    already received a donation is answered 400 and changes nothing; once a
    scan of a code has succeeded, whatever requests follow, every later scan
    of that code is answered 404 and changes nothing. *)
Theorem scan_qr_code_rejects (w : World) (user : User.t) (qr : string) :
  qr <> ""%string ->
  ((forall l, In l (locations (store w)) -> AnonymousLocation.qr_code l = Some qr ->
              AnonymousLocation.is_active l = false) ->
   dispatch (scan_qr_code (Some user) (Some qr)) w
   = (mkResponse 404 (ErrorBody "Invalid or expired QR code"), w))
  /\ (forall location,
        qr_codes_unique (store w) ->
        In location (locations (store w)) ->
        AnonymousLocation.qr_code location = Some qr ->
        AnonymousLocation.is_active location = true ->
        AnonymousLocation.donation_received location = true ->
        dispatch (scan_qr_code (Some user) (Some qr)) w
        = (mkResponse 400 (ErrorBody "This location has already received a donation"), w))
  /\ (consistent (store w) ->
      status_code (fst (run (ScanQrCode (Some user) (Some qr)) w)) = 200 ->
      forall (ops : list Op) (again : User.t),
        let w1 := snd (run (ScanQrCode (Some user) (Some qr)) w) in
        let w2 := run_all ops w1 in
        run (ScanQrCode (Some again) (Some qr)) w2
        = (mkResponse 404 (ErrorBody "Invalid or expired QR code"), w2)
        /\ donation_history (store (snd (run (ScanQrCode (Some again) (Some qr)) w2)))
           = donation_history (store w2)).
Proof.
  intros Hne. split; [|split].
  - apply scan_inactive_code. exact Hne.
  - intros location Huniq Hin Hqr Hact Hrecv.
    assert (Hfil : List.filter
                     (fun l => has_qr_code qr l && AnonymousLocation.is_active l)
                     (locations (store w)) = [location]).
    { rewrite filter_and.
      rewrite (filter_at_most_one _ _ location (Huniq qr) Hin)
        by (apply has_qr_code_iff; exact Hqr).
      simpl. rewrite Hact. reflexivity. }
    unfold scan_qr_code, AnonymousLocationSerializer.text_given.
    rewrite (truthy_str_ne qr Hne). cbn [negb]. exec.
    rewrite Hfil. cbn [get_unique]. rewrite Hrecv. reflexivity.
  - intros Hcons Hok ops again w1 w2.
    assert (Hret : retired qr (store w2)).
    { apply (Writes_retired qr (store w1)).
      - apply run_all_writes.
      - eapply Writes_consistent; [apply run_writes | exact Hcons].
      - apply scan_success_retires; [apply Hcons | exact Hok]. }
    assert (Hrun : run (ScanQrCode (Some again) (Some qr)) w2
                   = (mkResponse 404 (ErrorBody "Invalid or expired QR code"), w2)).
    { apply scan_inactive_code; [exact Hne|].
      intros l Hl Hq. apply Hret; [exact Hl | apply has_qr_code_iff; exact Hq]. }
    split; [exact Hrun | rewrite Hrun; reflexivity].
Qed.

End Rejection.

Lemma open_store_consistent : consistent open_store.
Proof.
  unfold consistent, keys_fresh, open_store; cbn.
  split; [|split; [|split; [exact open_store_qr_codes_unique|split]]].
  - split; [repeat constructor; simpl; tauto | intros i [<-|[]]; lia].
  - split; [repeat constructor; simpl; tauto | intros i [<-|[]]; lia].
  - intros a b. cbn. destruct (is_pair a b tracking_row); simpl; lia.
  - intros h. cbn. lia.
Qed.

Lemma scan_qr_code_rejects_witness :
  "LOC-0123456789AB"%string <> ""%string
  /\ consistent (store open_world)
  /\ status_code (fst (run (rt := plain_runtime)
                        (ScanQrCode (Some donor) (Some "LOC-0123456789AB"%string))
                        open_world)) = 200
  /\ status_code
       (fst (run (rt := plain_runtime)
               (ScanQrCode (Some donor) (Some "LOC-0123456789AB"%string))
               (run_all (rt := plain_runtime) [MarkOnTheWay (Some donor) 1]
                  (snd (run (rt := plain_runtime)
                          (ScanQrCode (Some donor) (Some "LOC-0123456789AB"%string))
                          open_world))))) = 404.
Proof.
  assert (Hne : "LOC-0123456789AB"%string <> ""%string) by discriminate.
  split; [exact Hne|].
  split; [exact open_store_consistent|].
  split; [reflexivity|].
  destruct (scan_qr_code_rejects (rt := plain_runtime) open_world donor
              "LOC-0123456789AB" Hne) as (_ & _ & Hlater).
  destruct (Hlater open_store_consistent eq_refl [MarkOnTheWay (Some donor) 1] donor)
    as [Hrun _].
  rewrite Hrun. reflexivity.
Defined.

(** ** The cool-down of [create] *)

Section CoolDown.
Import AnonymousLocationViewSet.
Context {rt : Runtime}.

Lemma first_by_last_seen_none rows : first_by_last_seen rows = None -> rows = [].
Proof.
  destruct rows as [|a rows]; [reflexivity|]. simpl.
  destruct (first_by_last_seen rows); [destruct (_ <? _)|]; discriminate.
Qed.

Lemma restricted_iff phone now l :
  restricted (Some phone) now l = true
  <-> AnonymousLocation.phone l = phone
      /\ AnonymousLocation.donation_received l = true
      /\ exists t, AnonymousLocation.next_request_allowed_at l = Some t /\ now < t.
Proof.
  unfold restricted, same_phone.
  rewrite !andb_true_iff, String.eqb_eq.
  destruct (AnonymousLocation.next_request_allowed_at l) as [t|].
  - rewrite Z.ltb_lt. split.
    + intros [[? ?] ?]. eauto.
    + intros (? & ? & t' & [= <-] & ?). auto.
  - split; [intros [_ ?]; discriminate | intros (_ & _ & t & ? & _); discriminate].
Qed.

Lemma whole_seconds_positive (a : Z) : 0 < a `quot` 1000000 <-> 1000000 <= a.
Proof.
  split.
  - intros Hpos. destruct (Z_lt_le_dec a 1000000) as [Hlt|]; [|assumption].
    exfalso. destruct (Z_lt_le_dec a 0) as [Hneg|Hnn].
    + replace a with (- (- a)) in Hpos by lia.
      rewrite Z.quot_opp_l in Hpos by lia.
      pose proof (Z.quot_pos (- a) 1000000). lia.
    + rewrite Z.quot_small in Hpos by lia. lia.
  - intros Hle. apply Z.quot_str_pos. lia.
Qed.

Lemma exception_status (e : Exc) : status_code (exception_handler e) <> 429.
Proof. destruct e; discriminate. Qed.

(** Past the cool-down check, [create] answers 200 or 201 or with an error
    of the framework, never 429. *)
Lemma create_proceeds (data : LocationPayload.t) (w : World) :
  first_by_last_seen
    (List.filter (restricted (LocationPayload.phone data) (clock (tick w)))
                 (locations (store w))) = None ->
  status_code (fst (dispatch (create data) w)) <> 429.
Proof.
  intros Hfree. unfold create. exec. cbn [tick clock] in Hfree. rewrite Hfree. clear Hfree. exec.
  assert (Hnew :
    status_code (fst (dispatch
        (let! attrs := lift (AnonymousLocationSerializer.is_valid None false data) in
         let! seen := timezone_now in
         let! seen' := timezone_now in
         let! location := write (locations_insert
                            (AnonymousLocationSerializer.create_row attrs seen')) in
         let! hex := uuid4_hex12 in
         let! location := save (AnonymousLocation.set_qr_code
                                  (Some ("LOC-" ++ hex)%string) location) in
         let! (l, on_the_way) := serializer_data location in
         ret (mkResponse 201 (LocationBody l on_the_way))) (tick w))) <> 429).
  { exec.
    destruct (AnonymousLocationSerializer.is_valid None false data) as [e|attrs]; exec;
      [apply exception_status|].
    destruct (hd false (faults w)); exec; [discriminate|].
    destruct (locations_insert _ (store w)) as [e|[l s1]]; exec; [apply exception_status|].
    destruct (hd false (tail (faults w))); exec; [discriminate|].
    destruct (locations_update _ s1) as [e|[[] s2]]; exec;
      [apply exception_status | discriminate]. }
  destruct (Py.truthy_str _); exec; [|exact Hnew].
  destruct (first_by_last_seen _) as [instance|]; [|exact Hnew].
  clear Hnew.
  destruct (AnonymousLocationSerializer.is_valid _ _ _) as [e|attrs]; exec;
    [apply exception_status|].
  destruct (hd false (faults w)); exec; [discriminate|].
  destruct (locations_update _ (store w)) as [e|[[] s1]]; exec;
    [apply exception_status | discriminate].
Qed.

(** C3, as the code has it.  A submission for a phone that has a fulfilled
    request whose [next_request_allowed_at] is after the instant read for
    the check is answered 429, changes nothing, and carries the whole
    seconds that remain when the answer is built: a positive number exactly
    when at least one second remains.  A submission made when every
    fulfilled request of the phone has reached its instant is not answered
    429. *)
Theorem create_cool_down (w : World) (data : LocationPayload.t) (phone : string)
    (prior : AnonymousLocation.t) (allowed : Instant) :
  LocationPayload.phone data = Some phone ->
  In prior (locations (store w)) ->
  AnonymousLocation.phone prior = phone ->
  AnonymousLocation.donation_received prior = true ->
  AnonymousLocation.next_request_allowed_at prior = Some allowed ->
  let now := clock (tick w) in
  let (r, w') := dispatch (create data) w in
  (now < allowed ->
     store w' = store w /\ sent w' = sent w /\ status_code r = 429
     /\ exists recent until seconds hours_left minutes_left,
          In recent (locations (store w))
          /\ AnonymousLocation.phone recent = phone
          /\ AnonymousLocation.donation_received recent = true
          /\ AnonymousLocation.next_request_allowed_at recent = Some until
          /\ now < until /\ now <= clock w'
          /\ body r = RestrictionBody restriction_error until seconds
                        hours_left minutes_left
          /\ seconds = (until - clock w') `quot` 1000000
          /\ (0 < seconds <-> 1000000 <= until - clock w'))
  /\ ((forall l t, In l (locations (store w)) ->
         AnonymousLocation.phone l = phone ->
         AnonymousLocation.donation_received l = true ->
         AnonymousLocation.next_request_allowed_at l = Some t -> t <= now) ->
      status_code r <> 429).
Proof.
  intros Hphone Hin Hsame Hrecv Hnext now.
  subst now. cbn [tick clock].
  set (now := clock w + Z.of_N (hd 0%N (delays w))).
  destruct (dispatch (create data) w) as [r w'] eqn:Hrun.
  split.
  - intros Hbefore.
    assert (Hprior : restricted (Some phone) now prior = true).
    { apply restricted_iff. eauto. }
    revert Hrun. unfold create. rewrite Hphone. exec. fold now.
    destruct (first_by_last_seen _) as [recent|] eqn:Hfirst.
    + apply first_by_last_seen_filter in Hfirst as [Hrin Hr].
      apply restricted_iff in Hr as (Hrp & Hrr & until & Hru & Hlt).
      rewrite Hru. intros [= <- <-]. cbn.
      repeat split; try reflexivity.
      exists recent, until. do 3 eexists.
      repeat split; try eassumption; try reflexivity.
      * subst now. pose proof (N2Z.is_nonneg (hd 0%N (tail (delays w)))). lia.
      * apply whole_seconds_positive.
      * apply whole_seconds_positive.
    + apply first_by_last_seen_none in Hfirst.
      assert (Hmem : In prior (List.filter (restricted (Some phone) now)
                                           (locations (store w)))).
      { apply filter_In. auto. }
      rewrite Hfirst in Hmem. destruct Hmem.
  - intros Hpast.
    assert (Hr : r = fst (dispatch (create data) w)) by (rewrite Hrun; reflexivity).
    rewrite Hr. apply create_proceeds. rewrite Hphone. cbn [tick clock]. fold now.
    rewrite filter_none; [reflexivity|].
    intros l Hl. apply not_true_is_false. intros Hres.
    apply restricted_iff in Hres as (Hp & Hd & t & Ht & Hlt).
    specialize (Hpast l t Hl Hp Hd Ht). subst now. lia.
Qed.

End CoolDown.

Lemma create_cool_down_witness :
  LocationPayload.phone (submission "session-b" (JDict ∅)) = Some "09171234567"%string
  /\ In fulfilled_row (locations (store cooling_world))
  /\ AnonymousLocation.phone fulfilled_row = "09171234567"%string
  /\ AnonymousLocation.donation_received fulfilled_row = true
  /\ AnonymousLocation.next_request_allowed_at fulfilled_row = Some 3500000
  /\ clock (tick cooling_world) < 3500000
  /\ status_code
       (fst (dispatch
               (AnonymousLocationViewSet.create (rt := plain_runtime)
                  (submission "session-b" (JDict ∅)))
               cooling_world)) = 429.
Proof.
  split; [reflexivity|].
  split; [left; reflexivity|].
  split; [reflexivity|].
  split; [reflexivity|].
  split; [reflexivity|].
  split; [reflexivity|].
  pose proof (create_cool_down (rt := plain_runtime) cooling_world
                (submission "session-b" (JDict ∅)) "09171234567" fulfilled_row 3500000
                eq_refl (or_introl eq_refl) eq_refl eq_refl eq_refl) as Hcool.
  cbv zeta in Hcool.
  destruct (dispatch _ cooling_world) as [r w'].
  destruct Hcool as [Hreject _].
  apply Hreject. reflexivity.
Defined.

(** Half a second before the end of the cool-down the answer carries zero
    remaining seconds. *)
Lemma create_cool_down_counterexample :
  ~ (forall (w : World) (data : LocationPayload.t) (phone : string)
            (prior : AnonymousLocation.t) (allowed : Instant),
       LocationPayload.phone data = Some phone ->
       In prior (locations (store w)) ->
       AnonymousLocation.phone prior = phone ->
       AnonymousLocation.donation_received prior = true ->
       AnonymousLocation.next_request_allowed_at prior = Some allowed ->
       clock (tick w) < allowed ->
       exists error until seconds hours_left minutes_left,
         body (fst (dispatch (AnonymousLocationViewSet.create (rt := plain_runtime) data) w))
         = RestrictionBody error until seconds hours_left minutes_left
         /\ 0 < seconds).
Proof.
  intros Hspec.
  destruct (Hspec cooling_world (submission "session-b" (JDict ∅)) "09171234567"
              fulfilled_row 3500000 eq_refl (or_introl eq_refl) eq_refl eq_refl eq_refl
              eq_refl)
    as (error & until & seconds & hours_left & minutes_left & Hbody & Hpos).
  vm_compute in Hbody. injection Hbody as _ _ <- _ _. lia.
Qed.


(** ** Tracking rows ([mark_on_the_way]) *)

Section Marking.
Import AnonymousLocationViewSet.
Context {rt : Runtime}.

Lemma filter_by_key {A} (key : A -> Z) (l : list A) (x : A) :
  List.NoDup (map key l) -> In x l ->
  List.filter (fun r => key r =? key x) l = [x].
Proof.
  intros Hnd Hin.
  destruct (replace_by_key key l x x Hnd Hin) as (l1 & l2 & -> & Hother & _).
  rewrite List.filter_app. simpl. rewrite Z.eqb_refl.
  rewrite (filter_none _ l1), (filter_none _ l2); [reflexivity | |];
    intros r Hr; apply Z.eqb_neq, Hother, in_or_app; auto.
Qed.

Lemma fault_free_first (w : World) : fault_free w -> hd false (faults w) = false.
Proof. unfold fault_free. destruct (faults w) as [|[] ?]; simpl; auto; discriminate. Qed.

Lemma fault_free_second (w : World) :
  fault_free w -> hd false (tail (faults w)) = false.
Proof.
  unfold fault_free. destruct (faults w) as [|[] [|[] ?]]; simpl; auto; discriminate.
Qed.

(** C4. Marking a donator on the way to an open, listed request, on a
    consistent database and without storage failure: the call succeeds;
    when the pair has no tracking row it appends one with [arrived=false]
    and [is_tracking=true]; when it has one, that row is rewritten in place
    with [arrived=false], [is_tracking=true] and a fresh [marked_at], and no
    row is added; afterwards the pair has exactly one row, and whatever
    requests follow, no pair ever has two. *)
Theorem mark_on_the_way_upserts (w : World) (user : User.t)
    (location : AnonymousLocation.t) :
  consistent (store w) ->
  In location (locations (store w)) ->
  AnonymousLocation.is_active location = true ->
  clock (tick w) - hours 24 <= AnonymousLocation.last_seen location ->
  AnonymousLocation.donation_received location = false ->
  fault_free w ->
  let pk := AnonymousLocation.id location in
  let rows := donators_on_the_way (store w) in
  let (r, w') := dispatch (mark_on_the_way (Some user) pk) w in
  let rows' := donators_on_the_way (store w') in
  status_code r = 200
  /\ ((forall d, In d rows -> is_pair pk (User.id user) d = false) ->
      exists t, clock w <= t <= clock w' /\
        rows' = rows ++ [DonatorOnTheWay.mk (next_donator_on_the_way_id (store w))
                           pk (User.id user) t false true None])
  /\ (forall d0, In d0 rows -> is_pair pk (User.id user) d0 = true ->
      exists t, clock w <= t <= clock w' /\
        length rows' = length rows /\
        rows' = map (fun d => if DonatorOnTheWay.id d =? DonatorOnTheWay.id d0
                              then DonatorOnTheWay.mk (DonatorOnTheWay.id d0) pk
                                     (User.id user) t false true
                                     (DonatorOnTheWay.last_location_update d0)
                              else d) rows)
  /\ length (List.filter (is_pair pk (User.id user)) rows') = 1%nat
  /\ forall ops : list Op, pairs_unique (store (run_all ops w')).
Proof.
  intros Hcons Hin Hact Hfresh Hrecv Hff pk rows.
  destruct (dispatch (mark_on_the_way (Some user) pk) w) as [r w'] eqn:Hrun.
  assert (Hafter : consistent (store w')).
  { replace w' with (snd (run (MarkOnTheWay (Some user) pk) w))
      by (unfold run, view; rewrite Hrun; reflexivity).
    eapply Writes_consistent; [apply run_writes | exact Hcons]. }
  assert (Hlater : forall ops : list Op, pairs_unique (store (run_all ops w'))).
  { intros ops.
    pose proof (Writes_consistent _ _ (run_all_writes ops w') Hafter) as H.
    apply H. }
  destruct Hcons as ((Hnd & _) & (Hdnd & _) & _ & Hpairs & _).
  cbn [tick clock] in Hfresh.
  set (cutoff := clock w + Z.of_N (hd 0%N (delays w)) - hours 24) in *.
  assert (Hget : get_unique
            (List.filter (fun l => AnonymousLocation.id l =? pk)
               (List.filter
                  (fun l => AnonymousLocation.is_active l
                            && (cutoff <=? AnonymousLocation.last_seen l))
                  (locations (store w)))) = inr location).
  { rewrite <- filter_and.
    rewrite (filter_ext _ (fun l => (AnonymousLocation.id l =? pk)
                 && (AnonymousLocation.is_active l
                     && (cutoff <=? AnonymousLocation.last_seen l))))
      by (intros l; apply andb_comm).
    rewrite filter_and. unfold pk.
    rewrite (filter_by_key AnonymousLocation.id _ location Hnd Hin).
    cbn [List.filter]. rewrite Hact.
    rewrite (proj2 (Z.leb_le _ _) Hfresh). reflexivity. }
  revert Hrun. unfold mark_on_the_way. exec.
  fold cutoff. rewrite Hget. exec. rewrite Hrecv. exec.
  fold rows.
  destruct (List.filter (is_pair (AnonymousLocation.id location) (User.id user)) rows)
    as [|d0 rest] eqn:Hfil.
  - cbn [get_unique]. exec.
    rewrite (fault_free_first w Hff). exec.
    unfold donators_insert.
    cbn [DonatorOnTheWay.location DonatorOnTheWay.donator store tick pop_fault].
    assert (Hex : existsb (is_pair (AnonymousLocation.id location) (User.id user)) rows
                  = false).
    { apply not_true_is_false. intros Hex. apply existsb_exists in Hex as (d & Hd & Hp).
      assert (Hmem : In d (List.filter (is_pair (AnonymousLocation.id location)
                                                (User.id user)) rows))
        by (apply filter_In; auto).
      rewrite Hfil in Hmem. destruct Hmem. }
    fold rows. rewrite Hex. exec.
    rewrite (fault_free_second w Hff). exec.
    intros [= <- <-]. cbn.
    split; [reflexivity|]. split; [|split; [|split; [|exact Hlater]]].
    + intros _. eexists. split; [|reflexivity].
      pose proof (N2Z.is_nonneg (hd 0%N (delays w))).
      pose proof (N2Z.is_nonneg (hd 0%N (tail (delays w)))). lia.
    + intros d Hd Hp.
      assert (Hmem : In d (List.filter (is_pair (AnonymousLocation.id location)
                                                (User.id user)) rows))
        by (apply filter_In; auto).
      rewrite Hfil in Hmem. destruct Hmem.
    + unfold pk. rewrite count_insert, Hfil. unfold is_pair. cbn.
      rewrite !Z.eqb_refl. reflexivity.
  - assert (Hrest : rest = []).
    { pose proof (Hpairs (AnonymousLocation.id location) (User.id user)) as Hle.
      fold rows in Hle. rewrite Hfil in Hle. destruct rest; [reflexivity|].
      simpl in Hle. lia. }
    subst rest.
    assert (Hd0 : In d0 rows /\ is_pair (AnonymousLocation.id location) (User.id user) d0
                                = true).
    { apply filter_In. rewrite Hfil. left. reflexivity. }
    destruct Hd0 as [Hd0 Hp0]. pose proof Hp0 as Hp0'. apply is_pair_iff in Hp0' as [Hl0 Hu0].
    cbn [get_unique]. exec.
    rewrite (fault_free_first w Hff). exec.
    unfold donators_update.
    cbn [DonatorOnTheWay.restart DonatorOnTheWay.id DonatorOnTheWay.location
         DonatorOnTheWay.donator store tick pop_fault].
    fold rows.
    assert (Hex : existsb (fun r => negb (DonatorOnTheWay.id r =? DonatorOnTheWay.id d0)
                            && is_pair (DonatorOnTheWay.location d0)
                                       (DonatorOnTheWay.donator d0) r) rows = false).
    { apply not_true_is_false. intros Hex. apply existsb_exists in Hex as (d & Hd & Hp).
      apply andb_true_iff in Hp as [Hne Hp]. rewrite Hl0, Hu0 in Hp.
      rewrite (filter_singleton_member _ _ _ _ Hfil Hd Hp), Z.eqb_refl in Hne.
      discriminate. }
    rewrite Hex. exec.
    rewrite (fault_free_second w Hff). exec.
    intros [= <- <-]. cbn.
    split; [reflexivity|]. split; [|split; [|split; [|exact Hlater]]].
    + intros Hnone. pose proof (Hnone d0 Hd0) as Hno. unfold pk in Hno.
      rewrite Hno in Hp0. discriminate.
    + intros d Hd Hp. rewrite (filter_singleton_member _ _ _ _ Hfil Hd Hp).
      eexists. split; [|split; [apply length_map | unfold DonatorOnTheWay.restart, pk; rewrite <- Hl0, <- Hu0; reflexivity]].
      pose proof (N2Z.is_nonneg (hd 0%N (delays w))).
      pose proof (N2Z.is_nonneg (hd 0%N (tail (delays w)))). lia.
    + pose proof (pairs_unique_update rows d0
                    (DonatorOnTheWay.restart
                       (clock w + Z.of_N (hd 0%N (delays w))
                        + Z.of_N (hd 0%N (tail (delays w)))) d0)
                    Hdnd Hd0 eq_refl eq_refl eq_refl
                    (AnonymousLocation.id location) (User.id user)) as Hsame.
      cbn [DonatorOnTheWay.restart DonatorOnTheWay.id] in Hsame.
      unfold pk. rewrite Hsame, Hfil. reflexivity.
Qed.

End Marking.

Lemma mark_on_the_way_upserts_witness :
  consistent (store open_world)
  /\ In request_row (locations (store open_world))
  /\ AnonymousLocation.is_active request_row = true
  /\ clock (tick open_world) - hours 24 <= AnonymousLocation.last_seen request_row
  /\ AnonymousLocation.donation_received request_row = false
  /\ fault_free open_world
  /\ length (List.filter (is_pair 1 7)
       (donators_on_the_way
          (store (snd (dispatch
                         (AnonymousLocationViewSet.mark_on_the_way (Some donor) 1)
                         open_world))))) = 1%nat.
Proof.
  assert (Hfresh : clock (tick open_world) - hours 24
                   <= AnonymousLocation.last_seen request_row) by (unfold hours; cbn; lia).
  split; [exact open_store_consistent|].
  split; [left; reflexivity|].
  split; [reflexivity|].
  split; [exact Hfresh|].
  split; [reflexivity|].
  split; [reflexivity|].
  pose proof (mark_on_the_way_upserts (rt := plain_runtime) open_world donor request_row
                open_store_consistent (or_introl eq_refl) eq_refl Hfresh eq_refl eq_refl)
    as Hmark.
  cbv zeta in Hmark.
  destruct (dispatch _ open_world) as [r w'].
  apply Hmark.
Defined.

(** ** Ratings ([DonationRatingViewSet.create]) *)

Section Ratings.
Import DonationRatingViewSet.
Context {rt : Runtime}.

(** C5. When a rating exists for the history entry a submission names, the
    submission fails and changes nothing at all; on a consistent database,
    with both required fields present, the answer is the duplicate-rating
    error; and whatever requests run, no history entry ever has two
    ratings. *)
Theorem rating_create_once (w : World) (data : RatingPayload.t) (hid : Z)
    (existing : DonationRating.t) :
  RatingPayload.donation_history_id data = Some hid ->
  In existing (donation_ratings (store w)) ->
  DonationRating.donation_history existing = hid ->
  let (r, w') := dispatch (create data) w in
  w' = w
  /\ (status_code r = 400 \/ status_code r = 404 \/ status_code r = 500)
  /\ (forall h,
        ratings_unique (store w) ->
        List.NoDup (map DonationHistory.id (donation_history (store w))) ->
        In h (donation_history (store w)) -> DonationHistory.id h = hid ->
        hid <> 0 ->
        AnonymousLocationSerializer.text_given (RatingPayload.session_id data) = true ->
        r = mkResponse 400 (ErrorBody "Rating already exists for this donation"))
  /\ (consistent (store w) ->
      forall ops : list Op, ratings_unique (store (run_all ops w'))).
Proof.
  intros Hid Hin Hfor.
  destruct (dispatch (create data) w) as [r w'] eqn:Hrun.
  assert (Hsame : w' = w /\ (status_code r = 400 \/ status_code r = 404
                             \/ status_code r = 500)).
  { revert Hrun. unfold create. rewrite Hid. cbn [default from_option id].
    destruct (_ || _); [exec; intros [= <- <-]; auto|]. exec.
    destruct (get_unique _) as [e|h] eqn:Hget.
    { destruct e; exec; intros [= <- <-]; cbn; auto. }
    apply get_unique_filter in Hget as [_ Hh]. apply Z.eqb_eq in Hh.
    unfold has_rating.
    destruct (List.filter _ (donation_ratings (store w))) as [|x [|y l]] eqn:Hfil.
    - exfalso.
      assert (Hmem : In existing (List.filter
                (fun r => DonationRating.donation_history r =? DonationHistory.id h)
                (donation_ratings (store w)))).
      { apply filter_In. split; [exact Hin|]. apply Z.eqb_eq. congruence. }
      rewrite Hfil in Hmem. destruct Hmem.
    - cbn [get_unique]. exec. intros [= <- <-]. cbn. auto.
    - cbn [get_unique]. exec. intros [= <- <-]. cbn. auto. }
  destruct Hsame as [-> Hstatus].
  split; [reflexivity|]. split; [exact Hstatus|]. split.
  - intros h Huniq Hnd Hh Hhid Hnz Hsession.
    revert Hrun. unfold create. rewrite Hid, Hsession. cbn [default from_option id negb].
    rewrite (proj2 (Z.eqb_neq hid 0) Hnz). cbn [orb]. exec.
    rewrite <- Hhid.
    rewrite (filter_by_key DonationHistory.id _ h Hnd Hh). cbn [get_unique].
    unfold has_rating.
    rewrite (filter_at_most_one _ _ existing (Huniq (DonationHistory.id h)) Hin)
      by (apply Z.eqb_eq; congruence).
    cbn [get_unique]. exec. intros [= <-]. reflexivity.
  - intros Hcons ops.
    pose proof (Writes_consistent _ _ (run_all_writes ops w) Hcons) as H. apply H.
Qed.

End Ratings.

Lemma rating_create_once_witness :
  RatingPayload.donation_history_id confirmation = Some 1
  /\ In rating_row (donation_ratings (store rated_world))
  /\ DonationRating.donation_history rating_row = 1
  /\ dispatch (DonationRatingViewSet.create (rt := plain_runtime) confirmation) rated_world
     = (mkResponse 400 (ErrorBody "Rating already exists for this donation"), rated_world).
Proof.
  split; [reflexivity|]. split; [left; reflexivity|]. split; [reflexivity|].
  pose proof (rating_create_once (rt := plain_runtime) rated_world confirmation 1 rating_row
                eq_refl (or_introl eq_refl) eq_refl) as Honce.
  destruct (dispatch _ rated_world) as [r w'].
  destruct Honce as (-> & _ & Hdup & _).
  f_equal. apply (Hdup history_row).
  - intros h. cbn [rated_world store donation_ratings List.filter rating_row
                   DonationRating.donation_history].
    destruct (1 =? h); simpl; lia.
  - cbn. repeat constructor. simpl. tauto.
  - left. reflexivity.
  - reflexivity.
  - discriminate.
  - reflexivity.
Defined.

(** ** Confirmed supplies *)

Section Confirmation.
Import DonationRatingViewSet.
Context {rt : Runtime}.

Lemma positive_supplies_lookup (keys : list (string * string)) (d m : Dict) :
  List.NoDup (map fst keys) ->
  positive_supplies keys d = inr m ->
  (forall category received, In (category, received) keys ->
     m !! category = match d !! received with
                     | Some q => match Py.gt_zero q with
                                 | inr true => Some q
                                 | _ => None
                                 end
                     | None => None
                     end)
  /\ (forall k, ~ In k (map fst keys) -> m !! k = None).
Proof.
  revert m. induction keys as [|[c r] keys IH]; intros m Hnd Hpos.
  - injection Hpos as <-. split; [intros ? ? []|]. intros k _. apply lookup_empty.
  - cbn [positive_supplies] in Hpos. cbn [map fst] in Hnd.
    inversion Hnd as [|? ? Hfresh Hnd']; subst.
    destruct (Py.gt_zero (Py.get d r (JInt 0))) as [e|keep] eqn:Hkeep; [discriminate|].
    destruct (positive_supplies keys d) as [e|m0]; [discriminate|].
    destruct (IH m0 Hnd' eq_refl) as [IHin IHout].
    injection Hpos as <-. split.
    + intros category received [[= <- <-]|Hin].
      * unfold Py.get in Hkeep.
        destruct (d !! r) as [q|] eqn:Hq.
        -- rewrite Hkeep. destruct keep.
           ++ unfold Py.get. rewrite Hq. apply lookup_insert_eq.
           ++ apply IHout. exact Hfresh.
        -- cbn in Hkeep. injection Hkeep as <-. apply IHout. exact Hfresh.
      * assert (Hne : c <> category).
        { intros ->. apply Hfresh. apply (in_map fst) in Hin. exact Hin. }
        destruct keep; [rewrite lookup_insert_ne by exact Hne|]; apply (IHin _ _ Hin).
    + intros k Hk. cbn [map fst] in Hk.
      assert (c <> k /\ ~ In k (map fst keys)) as [Hne Hout]
        by (split; [intros ->; apply Hk; left; reflexivity | intros ?; apply Hk; right; assumption]).
      destruct keep; [rewrite lookup_insert_ne by exact Hne|]; apply IHout, Hout.
Qed.


Lemma rating_is_valid_inv (data attrs : RatingPayload.t) (v : Json) :
  DonationRatingSerializer.is_valid data = inr attrs ->
  RatingPayload.supplies_confirmed data = Some v ->
  exists v', DonationRatingSerializer.validate_supplies_confirmed v = inr v'
             /\ RatingPayload.supplies_confirmed attrs = Some v'.
Proof.
  unfold DonationRatingSerializer.is_valid, and_then. intros Hvalid Hv.
  rewrite Hv in Hvalid.
  unfold DonationRatingSerializer.supplies_confirmed_field in Hvalid.
  destruct (DonationRatingSerializer.escapes _); [discriminate|].
  destruct (DonationRatingSerializer.rating_field _); [discriminate|].
  destruct v; cbn [and_then] in Hvalid; try discriminate;
    (destruct (DonationRatingSerializer.validate_supplies_confirmed _) as [e|v'];
     [discriminate|]);
    cbn [and_then] in Hvalid;
    (destruct (AnonymousLocationSerializer.check_text _ _ _ _ _); [discriminate|]);
    simplify_eq; exists v'; split; reflexivity.
Qed.

(** C6. A successful rating with a non-empty [supplies_confirmed] rewrites
    [supply_needs_fulfilled] of the history entry it names: each category
    takes the value of its [*_received] field when that value is greater
    than zero and is absent otherwise, [other] takes the sanitized
    [other_items] when that is not empty, and there is no other key. *)
Theorem rating_confirms_supplies (w : World) (data : RatingPayload.t) (v : Json) :
  RatingPayload.supplies_confirmed data = Some v ->
  Py.truthy v = true ->
  let (r, w') := dispatch (create data) w in
  status_code r = 201 ->
  exists (confirmed view : Dict) (h : DonationHistory.t),
    v = JDict confirmed
    /\ In h (donation_history (store w))
    /\ RatingPayload.donation_history_id data = Some (DonationHistory.id h)
    /\ donation_history (store w')
       = map (fun x => if DonationHistory.id x =? DonationHistory.id h
                       then DonationHistory.mk (DonationHistory.id h)
                              (DonationHistory.donator h)
                              (DonationHistory.affected_first_name h)
                              (DonationHistory.affected_last_name h)
                              (DonationHistory.affected_phone h)
                              (DonationHistory.latitude h)
                              (DonationHistory.longitude h)
                              (JDict view)
                              (DonationHistory.qr_code h)
                              (DonationHistory.donated_at h)
                              (DonationHistory.notes h)
                       else x) (donation_history (store w))
    /\ (forall category received, In (category, received) received_keys ->
          view !! category = match confirmed !! received with
                             | Some q => match Py.gt_zero q with
                                         | inr true => Some q
                                         | _ => None
                                         end
                             | None => None
                             end)
    /\ view !! "other"%string
       = match confirmed !! "other_items"%string with
         | Some o => if String.eqb (bleach_clean (py_str o)) ""
                     then None else Some (JStr (bleach_clean (py_str o)))
         | None => None
         end
    /\ (forall k, k <> "other"%string -> ~ In k (map fst received_keys) ->
          view !! k = None).
Proof.
  intros Hv Htruthy.
  destruct (dispatch (create data) w) as [r w'] eqn:Hrun.
  revert Hrun. unfold create.
  destruct (RatingPayload.donation_history_id data) as [hid|] eqn:Hid;
    cbn [default from_option id]; [|exec; intros [= <- <-]; discriminate].
  destruct (_ || _); [exec; intros [= <- <-]; discriminate|]. exec.
  destruct (get_unique _) as [e|h] eqn:Hget.
  { destruct e; exec; intros [= <- <-]; discriminate. }
  apply get_unique_filter in Hget as [Hh Hhid]. apply Z.eqb_eq in Hhid. exec.
  destruct (has_rating h (store w)) as [e|[]]; exec;
    try (intros [= <- <-]; destruct e; discriminate);
    try (intros [= <- <-]; discriminate).
  destruct (DonationRatingSerializer.is_valid data) as [e|attrs] eqn:Hvalid.
  { destruct e; exec; intros [= <- <-]; discriminate. }
  destruct (rating_is_valid_inv data attrs v Hvalid Hv) as (v' & Hv' & Hattrs).
  exec. destruct (hd false (faults w)); exec; [intros [= <- <-]; discriminate|].
  unfold ratings_insert. cbn [DonationRatingSerializer.create_row
    DonationRating.donation_history store tick pop_fault].
  destruct (existsb _ _); exec; [intros [= <- <-]; discriminate|].
  cbn [DonationRating.supplies_confirmed DonationRatingSerializer.create_row].
  rewrite Hattrs. cbn [default from_option id].
  unfold DonationRatingSerializer.validate_supplies_confirmed in Hv'.
  rewrite Htruthy in Hv'.
  destruct v as [| | | | text | items | confirmed]; try discriminate.
  - destruct (DonationRatingSerializer.contains _ _); [discriminate|].
    injection Hv' as <-. rewrite Htruthy. exec. intros [= <- <-]. discriminate.
  - destruct (existsb _ _); [discriminate|].
    injection Hv' as <-. rewrite Htruthy. exec. intros [= <- <-]. discriminate.
  - set (stored := match confirmed !! "other_items"%string with
                   | Some o => <["other_items"%string :=
                                  JStr (bleach_clean (py_str o))]> confirmed
                   | None => confirmed
                   end).
    assert (Hstored : v' = JDict stored).
    { unfold stored. destruct (confirmed !! "other_items"%string); congruence. }
    subst v'.
    assert (Hts : Py.truthy (JDict stored) = true).
    { unfold stored. destruct (confirmed !! "other_items"%string); [|exact Htruthy].
      cbn. apply negb_true_iff, bool_decide_eq_false. apply insert_non_empty. }
    rewrite Hts. exec.
    destruct (actual_supplies stored) as [e|view] eqn:Hactual; exec;
      [intros [= <- <-]; destruct e; discriminate|].
    destruct (hd false (tail (faults w))); exec; [intros [= <- <-]; discriminate|].
    unfold history_update. exec. intros [= <- <-] _.
    exists confirmed, view, h.
    split; [reflexivity|]. split; [exact Hh|]. split; [congruence|].
    split; [reflexivity|].
    unfold actual_supplies in Hactual.
    destruct (positive_supplies received_keys stored) as [e|m] eqn:Hpos; [discriminate|].
    injection Hactual as <-.
    assert (Hnd : List.NoDup (map fst received_keys)).
    { cbn. repeat constructor; cbn; intuition discriminate. }
    destruct (positive_supplies_lookup received_keys stored m Hnd Hpos) as [Hin Hout].
    assert (Hkey : forall received, received <> "other_items"%string ->
                     stored !! received = confirmed !! received).
    { intros received Hne. unfold stored.
      destruct (confirmed !! "other_items"%string); [|reflexivity].
      apply lookup_insert_ne. congruence. }
    assert (Hother : Py.get stored "other_items" JNull
                     = match confirmed !! "other_items"%string with
                       | Some o => JStr (bleach_clean (py_str o))
                       | None => JNull
                       end).
    { unfold Py.get, stored. destruct (confirmed !! "other_items"%string) eqn:Ho.
      - rewrite lookup_insert_eq. reflexivity.
      - rewrite Ho. reflexivity. }
    rewrite Hother. split; [|split].
    + intros category received Hcr.
      assert (Hc : category <> "other"%string /\ received <> "other_items"%string).
      { cbn in Hcr. intuition congruence. }
      destruct Hc as [Hc Hr].
      destruct (confirmed !! "other_items"%string); cbn [Py.truthy];
        [destruct (negb _); [rewrite lookup_insert_ne by congruence|]|];
        rewrite (Hin _ _ Hcr), (Hkey _ Hr); reflexivity.
    + destruct (confirmed !! "other_items"%string) as [o|]; cbn [Py.truthy].
      * destruct (String.eqb _ ""); cbn [negb]; [|apply lookup_insert_eq].
        apply Hout. cbn. intuition discriminate.
      * apply Hout. cbn. intuition discriminate.
    + intros k Hk Hnot.
      destruct (confirmed !! "other_items"%string); cbn [Py.truthy];
        [destruct (negb _); [rewrite lookup_insert_ne by congruence|]|];
        apply Hout, Hnot.
Qed.

End Confirmation.


Example rating_example :
  donation_history
    (store (snd (dispatch (DonationRatingViewSet.create (rt := plain_runtime) confirmation)
                          redeemed_world)))
  = [DonationHistory.mk 1 7 "Ana" "Reyes" "09171234567" 14599500 120984200
       (JDict {[ "water"%string := JInt 5; "food"%string := JInt 2 ]})
       "LOC-0123456789AB" 3000000 ""].
Proof. vm_compute. reflexivity. Qed.

Lemma rating_confirms_supplies_witness :
  RatingPayload.supplies_confirmed confirmation
  = Some (JDict {[ "water_received"%string := JInt 5; "food_received"%string := JInt 2 ]})
  /\ Py.truthy (JDict {[ "water_received"%string := JInt 5;
                         "food_received"%string := JInt 2 ]}) = true
  /\ status_code
       (fst (dispatch (DonationRatingViewSet.create (rt := plain_runtime) confirmation)
                      redeemed_world)) = 201
  /\ exists view : Dict,
       map DonationHistory.supply_needs_fulfilled
         (donation_history
            (store (snd (dispatch
                           (DonationRatingViewSet.create (rt := plain_runtime) confirmation)
                           redeemed_world))))
       = [JDict view]
       /\ view !! "water"%string = Some (JInt 5)
       /\ view !! "food"%string = Some (JInt 2)
       /\ view !! "other"%string = None.
Proof.
  split; [reflexivity|]. split; [reflexivity|]. split; [reflexivity|].
  pose proof (rating_confirms_supplies (rt := plain_runtime) redeemed_world confirmation
                _ eq_refl eq_refl) as Hrate.
  destruct (dispatch _ redeemed_world) as [r w'] eqn:Hrun.
  assert (Hok : status_code r = 201).
  { replace r with (fst (dispatch (DonationRatingViewSet.create (rt := plain_runtime)
                                     confirmation) redeemed_world))
      by (rewrite Hrun; reflexivity).
    reflexivity. }
  destruct (Hrate Hok) as (confirmed & view & h & Hv & Hh & _ & Hstore & Hcat & Hother & _).
  injection Hv as <-. destruct Hh as [<-|[]].
  exists view. cbn [snd]. rewrite Hstore. split; [reflexivity|].
  split; [exact (Hcat "water"%string "water_received"%string (or_introl eq_refl))|].
  split; [exact (Hcat "food"%string "food_received"%string (or_intror (or_introl eq_refl)))|].
  exact Hother.
Defined.

(** ** Position reports ([location_update]) *)

Section Positions.
Context {rt : Runtime}.

(** C10. A position report of an authenticated caller in which
    [locationId], [latitude] or [longitude] is absent or falsy (the number
    zero included) is answered 400 with the missing-fields error and
    changes nothing. *)
Theorem location_update_requires_truthy (w : World) (user : User.t)
    (data : PositionPayload.t) :
  Py.truthy (default JNull (PositionPayload.locationId data)) = false
  \/ Py.truthy (default JNull (PositionPayload.latitude data)) = false
  \/ Py.truthy (default JNull (PositionPayload.longitude data)) = false ->
  dispatch (location_update (Some user) data) w
  = (mkResponse 400 (ErrorBody "locationId, latitude, and longitude are required"), w).
Proof.
  intros Hfalsy. unfold location_update. exec.
  assert (Hall : forallb Py.truthy
            [match PositionPayload.locationId data with Some x => x | None => JNull end;
             match PositionPayload.latitude data with Some x => x | None => JNull end;
             match PositionPayload.longitude data with Some x => x | None => JNull end]
          = false).
  { cbv [default from_option id] in Hfalsy. cbn [forallb].
    destruct Hfalsy as [-> | [-> | ->]]; cbn;
      repeat match goal with |- context [Py.truthy ?x] => destruct (Py.truthy x) end;
      reflexivity. }
  rewrite Hall. reflexivity.
Qed.

End Positions.

Lemma location_update_requires_truthy_witness :
  (Py.truthy (default JNull (PositionPayload.locationId equator_position)) = false
   \/ Py.truthy (default JNull (PositionPayload.latitude equator_position)) = false
   \/ Py.truthy (default JNull (PositionPayload.longitude equator_position)) = false)
  /\ location_updates
       (store (snd (dispatch (location_update (rt := plain_runtime) (Some donor)
                                equator_position) open_world))) = [].
Proof.
  assert (Hzero : Py.truthy (default JNull (PositionPayload.locationId equator_position))
                  = false
                  \/ Py.truthy (default JNull (PositionPayload.latitude equator_position))
                     = false
                  \/ Py.truthy (default JNull (PositionPayload.longitude equator_position))
                     = false)
    by (right; left; reflexivity).
  split; [exact Hzero|].
  rewrite (location_update_requires_truthy (rt := plain_runtime) open_world donor
             equator_position Hzero).
  reflexivity.
Defined.

Section Ranges.
Import AnonymousLocationSerializer.
Context {rt : Runtime}.

(** The submission path: what [validate] lets through has its latitude in
    [-90, 90] and its longitude in [-180, 180]. *)
Lemma validate_checks_ranges (instance : option AnonymousLocation.t)
    (attrs validated : LocationPayload.t) :
  validate instance attrs = inr validated ->
  (forall lat, LocationPayload.latitude attrs = Some lat ->
               -90000000 <= lat <= 90000000)
  /\ (forall lon, LocationPayload.longitude attrs = Some lon ->
                  -180000000 <= lon <= 180000000).
Proof.
  unfold validate. intros Hvalid.
  repeat match type of Hvalid with
         | (if ?c then inl _ else _) = inr _ =>
             destruct c eqn:?; [discriminate|]
         end.
  clear Hvalid. split.
  - intros lat Hlat. rewrite Hlat in *. lia.
  - intros lon Hlon. rewrite Hlon in *. lia.
Qed.

End Ranges.

(** C8. The position endpoint checks no range: a report from latitude 95
    and longitude 200, from a donator who is being tracked, is answered 200
    and stored. *)
Theorem location_update_accepts_out_of_range :
  dispatch (location_update (rt := plain_runtime) (Some donor) far_position) open_world
  = (mkResponse 200 (PositionBody "success" "Location update received" 3000000),
     mkWorld
       (mkStore [request_row]
          [DonatorOnTheWay.mk 1 1 7 2000000 false true (Some 3000000)]
          [LocationUpdate.mk 1 1 9500000000 20000000000 0 3000000]
          [] [] 2 2 2 1 1)
       3000000 [] [] []
       [mkMessage "locations" "donator_tracking_update"
          (TrackingPositionData (JInt 1) 7 "dana" "Dana" "Cruz" (inject_Z 95)
             (inject_Z 200) (JInt 0) 3000000 "Dana Cruz is on the way for supplies")]).
Proof. vm_compute. reflexivity. Qed.

(** ** Supply needs ([AnonymousLocationSerializer.validate]) *)

Section SupplyNeeds.
Import AnonymousLocationSerializer.
Context {rt : Runtime}.

Lemma invalid_fields_unknown (d : Dict) (k : string) :
  is_Some (d !! k) -> is_allowed k = false -> invalid_fields d <> [].
Proof.
  intros [v Hv] Hk Hnil.
  assert (Hin : In k (invalid_fields d)).
  { unfold invalid_fields. apply filter_In. split; [|rewrite Hk; reflexivity].
    apply in_map_iff. exists (k, v). split; [reflexivity|].
    apply list_elem_of_In. apply elem_of_map_to_list. exact Hv. }
  rewrite Hnil in Hin. destruct Hin.
Qed.

Lemma invalid_fields_none (d : Dict) :
  (forall k, is_Some (d !! k) -> is_allowed k = true) -> invalid_fields d = [].
Proof.
  intros Hall. unfold invalid_fields. apply filter_none.
  intros k Hk. apply in_map_iff in Hk as ([k' v] & <- & Hin).
  apply list_elem_of_In, elem_of_map_to_list in Hin.
  cbn [fst]. rewrite Hall; [reflexivity | eauto].
Qed.

Lemma validate_supply_needs_unknown (d : Dict) (k : string) :
  is_Some (d !! k) -> is_allowed k = false ->
  exists message,
    validate_supply_needs (JDict d) = inl (ValidationError "supply_needs" message).
Proof.
  intros Hk Hbad. unfold validate_supply_needs.
  pose proof (invalid_fields_unknown d k Hk Hbad) as Hne.
  destruct (invalid_fields d) as [|x l]; [contradiction|]. eauto.
Qed.

Lemma coerce_numeric_spec (fields : list string) (d : Dict) :
  List.NoDup fields ->
  (forall f v, In f fields -> d !! f = Some v ->
               exists n, Py.int v = inr n /\ 0 <= n) ->
  exists d', coerce_numeric fields d = inr d'
    /\ (forall f, In f fields -> d' !! f = coerced (d !! f))
    /\ (forall k, ~ In k fields -> d' !! k = d !! k).
Proof.
  revert d. induction fields as [|f fields IH]; intros d Hnd Hok.
  - exists d. split; [reflexivity|]. split; [intros ? []|]. reflexivity.
  - inversion Hnd as [|? ? Hfresh Hnd']; subst. cbn [coerce_numeric].
    destruct (d !! f) as [v|] eqn:Hv.
    + destruct (Hok f v (or_introl eq_refl) Hv) as (n & Hn & Hpos). rewrite Hn.
      destruct (Z.ltb_spec n 0) as [|_]; [lia|].
      destruct (IH (<[f := JInt n]> d) Hnd') as (d' & Hrun & Hin & Hout).
      { intros f' v' Hf' Hv'. apply (Hok f' v'); [right; exact Hf'|].
        rewrite lookup_insert_ne in Hv'; [exact Hv'|]. intros ->. contradiction. }
      exists d'. split; [exact Hrun|]. split.
      * intros f' [<-|Hf'].
        -- rewrite (Hout f Hfresh), lookup_insert_eq, Hv. unfold coerced. rewrite Hn.
           reflexivity.
        -- rewrite (Hin f' Hf'), lookup_insert_ne; [reflexivity|].
           intros ->. contradiction.
      * intros k Hk. rewrite Hout by (intros ?; apply Hk; right; assumption).
        apply lookup_insert_ne. intros ->. apply Hk. left. reflexivity.
    + destruct (IH d Hnd') as (d' & Hrun & Hin & Hout).
      { intros f' v' Hf' Hv'. apply (Hok f' v'); [right; exact Hf' | exact Hv']. }
      exists d'. split; [exact Hrun|]. split.
      * intros f' [<-|Hf']; [|apply Hin, Hf'].
        rewrite (Hout f Hfresh), Hv. reflexivity.
      * intros k Hk. apply Hout. intros ?. apply Hk. right. assumption.
Qed.


Lemma check_text_error name required blank max_length v e :
  check_text name required blank max_length v = inl e ->
  exists field message, e = ValidationError field message.
Proof.
  unfold check_text. destruct v as [s|].
  - destruct (_ && _); [intros [= <-]; eauto|].
    destruct (_ <? _)%nat; [intros [= <-]; eauto | discriminate].
  - destruct required; [intros [= <-]; eauto | discriminate].
Qed.

Lemma check_coordinate_error name required v e :
  check_coordinate name required v = inl e ->
  exists field message, e = ValidationError field message.
Proof.
  unfold check_coordinate. destruct v as [z|].
  - destruct (_ <=? _); [intros [= <-]; eauto | discriminate].
  - destruct required; [intros [= <-]; eauto | discriminate].
Qed.

Lemma seq_checks_error (checks : list (Result unit)) (e : Exc) :
  Forall (fun c => forall e', c = inl e' ->
                     exists field message, e' = ValidationError field message) checks ->
  seq_checks checks = inl e ->
  exists field message, e = ValidationError field message.
Proof.
  induction 1 as [|c checks Hc _ IH]; cbn; [discriminate|].
  destruct c as [e'|[]]; [intros [= <-]; apply Hc; reflexivity | exact IH].
Qed.

Lemma to_internal_value_inv (partial : bool) (d : LocationPayload.t) :
  match to_internal_value partial d with
  | inl e => exists field message, e = ValidationError field message
  | inr attrs => attrs = d
  end.
Proof.
  unfold to_internal_value.
  destruct (seq_checks _) as [e|[]] eqn:Hseq; [|reflexivity].
  revert Hseq. apply seq_checks_error.
  repeat constructor; intros e'.
  all: try apply check_text_error; try apply check_coordinate_error.
  - destruct (LocationPayload.phone d) as [s|]; [|discriminate].
    destruct (valid_phone s); [discriminate | intros [= <-]; eauto].
  - destruct (LocationPayload.photo d) as [[[|? ?]|]|]; try discriminate;
      intros [= <-]; eauto.
  - destruct (LocationPayload.supply_needs d) as [[]|]; try discriminate.
    intros [= <-]; eauto.
Qed.

(** What [validate] returns for a payload that carries [supply_needs]:
    a validation error, or the error or the value of the supply-needs
    check. *)
Lemma validate_inv (instance : option AnonymousLocation.t) (attrs : LocationPayload.t)
    (sn : Json) :
  LocationPayload.supply_needs attrs = Some sn ->
  match validate instance attrs with
  | inl e => (exists field message, e = ValidationError field message)
             \/ validate_supply_needs sn = inl e
  | inr attrs' => exists v, validate_supply_needs sn = inr v
                            /\ LocationPayload.supply_needs attrs' = Some v
  end.
Proof.
  intros Hsn. unfold validate.
  repeat match goal with
         | |- context [if ?b then inl _ else _] => destruct b; [left; eauto|]
         end.
  assert (Hkeep : forall a, LocationPayload.supply_needs a = Some sn ->
            LocationPayload.supply_needs
              (if text_given (LocationPayload.facebook
                    (if text_given (LocationPayload.notes a)
                     then LocationPayload.set_notes (bleach_clean <$> LocationPayload.notes a) a
                     else a))
               then LocationPayload.set_facebook
                      (bleach_clean <$> LocationPayload.facebook
                         (if text_given (LocationPayload.notes a)
                          then LocationPayload.set_notes
                                 (bleach_clean <$> LocationPayload.notes a) a
                          else a))
                      (if text_given (LocationPayload.notes a)
                       then LocationPayload.set_notes
                              (bleach_clean <$> LocationPayload.notes a) a
                       else a)
               else (if text_given (LocationPayload.notes a)
                     then LocationPayload.set_notes
                            (bleach_clean <$> LocationPayload.notes a) a
                     else a)) = Some sn).
  { intros a Ha. destruct (text_given (LocationPayload.notes a));
      destruct (text_given _); exact Ha. }
  cbv zeta. rewrite (Hkeep attrs Hsn).
  destruct (validate_supply_needs sn) as [e|v]; [right; reflexivity|].
  exists v. split; [reflexivity|].
  destruct (text_given (LocationPayload.notes attrs)); destruct (text_given _); reflexivity.
Qed.

Lemma is_valid_inv (instance : option AnonymousLocation.t) (partial : bool)
    (data : LocationPayload.t) (sn : Json) :
  LocationPayload.supply_needs data = Some sn ->
  match is_valid instance partial data with
  | inl e => (exists field message, e = ValidationError field message)
             \/ validate_supply_needs sn = inl e
  | inr attrs => exists v, validate_supply_needs sn = inr v
                           /\ LocationPayload.supply_needs attrs = Some v
  end.
Proof.
  intros Hsn. unfold is_valid.
  pose proof (to_internal_value_inv partial data) as Hfields.
  destruct (to_internal_value partial data) as [e|attrs]; [left; exact Hfields|].
  subst attrs. apply validate_inv. exact Hsn.
Qed.


Lemma in_replaced {A} (key : A -> Z) (l : list A) (x y : A) :
  In x l -> key y = key x ->
  In y (map (fun r => if key r =? key y then y else r) l).
Proof.
  intros Hin Hk. apply in_map_iff. exists x. split; [|exact Hin].
  rewrite Hk, Z.eqb_refl. reflexivity.
Qed.

(** The row an accepted submission answers with is stored and carries the
    validated supply needs. *)
Lemma create_stores_validated (data : LocationPayload.t) (sn v : Json) (w : World) :
  LocationPayload.supply_needs data = Some sn ->
  validate_supply_needs sn = inr v ->
  let (r, w') := dispatch (AnonymousLocationViewSet.create data) w in
  status_code r = 200 \/ status_code r = 201 ->
  exists l on_the_way,
    body r = LocationBody l on_the_way
    /\ In l (locations (store w'))
    /\ AnonymousLocation.supply_needs l = v.
Proof.
  intros Hsn Hv.
  destruct (dispatch _ w) as [r w'] eqn:Hrun. revert Hrun.
  unfold AnonymousLocationViewSet.create. exec.
  destruct (first_by_last_seen _) as [recent|]; exec.
  { intros [= <- <-] [|]; discriminate. }
  assert (Hattrs : forall instance partial attrs,
            is_valid instance partial data = inr attrs ->
            LocationPayload.supply_needs attrs = Some v).
  { intros instance partial attrs Hvalid.
    pose proof (is_valid_inv instance partial data sn Hsn) as Hinv.
    rewrite Hvalid in Hinv. destruct Hinv as (v' & Hv' & ->). congruence. }
  assert (Hnew : forall r w',
    dispatch
        (let! attrs := lift (is_valid None false data) in
         let! seen := timezone_now in
         let! seen' := timezone_now in
         let! location := write (locations_insert (create_row attrs seen')) in
         let! hex := uuid4_hex12 in
         let! location := AnonymousLocationViewSet.save
                            (AnonymousLocation.set_qr_code
                               (Some ("LOC-" ++ hex)%string) location) in
         let! (l, on_the_way) := AnonymousLocationViewSet.serializer_data location in
         ret (mkResponse 201 (LocationBody l on_the_way))) (tick w) = (r, w') ->
    status_code r = 200 \/ status_code r = 201 ->
    exists l on_the_way,
      body r = LocationBody l on_the_way
      /\ In l (locations (store w'))
      /\ AnonymousLocation.supply_needs l = v).
  { clear r w'. intros r w'. exec.
    destruct (is_valid None false data) as [e|attrs] eqn:Hvalid; exec.
    { intros [= <- <-] [|]; destruct e; discriminate. }
    apply Hattrs in Hvalid.
    destruct (hd false (faults w)); exec; [intros [= <- <-] [|]; discriminate|].
    destruct (locations_insert _ (store w)) as [e|[l s1]] eqn:Hins; exec.
    { intros [= <- <-] [|]; destruct e; discriminate. }
    apply locations_insert_inv in Hins as [Hl Hs1].
    destruct (hd false (tail (faults w))); exec; [intros [= <- <-] [|]; discriminate|].
    destruct (locations_update _ s1) as [e|[[] s2]] eqn:Hupd; exec.
    { intros [= <- <-] [|]; destruct e; discriminate. }
    apply locations_update_inv in Hupd as [_ ->].
    intros [= <- <-] _. do 2 eexists. split; [reflexivity|]. split.
    - cbn [locations set_locations]. apply (in_replaced AnonymousLocation.id _ l).
      + rewrite Hs1. apply in_or_app. right. left. reflexivity.
      + reflexivity.
    - rewrite Hl. cbn. rewrite Hvalid. reflexivity. }
  destruct (Py.truthy_str _); exec; [|apply Hnew].
  destruct (first_by_last_seen _) as [instance|] eqn:Hfirst; [|apply Hnew].
  clear Hnew. apply first_by_last_seen_filter in Hfirst as [Hin _].
  destruct (is_valid (Some instance) true data) as [e|attrs] eqn:Hvalid; exec.
  { intros [= <- <-] [|]; destruct e; discriminate. }
  apply Hattrs in Hvalid.
  destruct (hd false (faults w)); exec; [intros [= <- <-] [|]; discriminate|].
  destruct (locations_update _ (store w)) as [e|[[] s1]] eqn:Hupd; exec.
  { intros [= <- <-] [|]; destruct e; discriminate. }
  apply locations_update_inv in Hupd as [_ ->].
  intros [= <- <-] _. do 2 eexists. split; [reflexivity|]. split.
  - cbn [locations set_locations].
    apply (in_replaced AnonymousLocation.id _ instance); [exact Hin | reflexivity].
  - cbn. rewrite Hvalid. reflexivity.
Qed.

(** A submission that fails validation is answered 400 or, during a
    cool-down, 429, and stores nothing. *)
Lemma create_invalid (data : LocationPayload.t) (w : World) :
  (forall instance partial,
     exists field message,
       is_valid instance partial data = inl (ValidationError field message)) ->
  let (r, w') := dispatch (AnonymousLocationViewSet.create data) w in
  store w' = store w /\ (status_code r = 400 \/ status_code r = 429).
Proof.
  intros Hbad.
  destruct (dispatch _ w) as [r w'] eqn:Hrun. revert Hrun.
  unfold AnonymousLocationViewSet.create. exec.
  destruct (first_by_last_seen _) as [recent|]; exec.
  { intros [= <- <-]. cbn. auto. }
  destruct (Hbad None false) as (f0 & m0 & Hnone).
  destruct (Py.truthy_str _); exec.
  - destruct (first_by_last_seen _) as [instance|].
    + destruct (Hbad (Some instance) true) as (f1 & m1 & ->).
      exec. intros [= <- <-]. cbn. auto.
    + rewrite Hnone. exec. intros [= <- <-]. cbn. auto.
  - rewrite Hnone. exec. intros [= <- <-]. cbn. auto.
Qed.

(** C7, as the code has it.  A submission whose [supply_needs] has a key
    outside the seven allowed ones fails validation, whatever else it
    carries, and stores nothing.  When every key is allowed and every
    numeric field coerces to a non-negative integer, the supply needs pass
    validation; the validated dictionary holds for each numeric category the
    integer its value coerces to (the submitted value itself when that is
    already a non-negative integer), the sanitized text for [other] and no
    further key, and it is what the row of an accepted submission holds. *)
Theorem supply_needs_round_trip (data : LocationPayload.t) (d : Dict) :
  LocationPayload.supply_needs data = Some (JDict d) ->
  ((exists k, is_Some (d !! k) /\ is_allowed k = false) ->
   (forall instance partial,
      exists field message,
        is_valid instance partial data = inl (ValidationError field message))
   /\ forall w : World,
        let (r, w') := dispatch (AnonymousLocationViewSet.create data) w in
        store w' = store w /\ (status_code r = 400 \/ status_code r = 429))
  /\ ((forall k, is_Some (d !! k) -> is_allowed k = true) ->
      (forall f v, In f numeric_fields -> d !! f = Some v ->
                   exists n, Py.int v = inr n /\ 0 <= n) ->
      exists d' : Dict,
        validate_supply_needs (JDict d) = inr (JDict d')
        /\ (forall f, In f numeric_fields -> d' !! f = coerced (d !! f))
        /\ (forall f n, In f numeric_fields -> d !! f = Some (JInt n) ->
                        d' !! f = Some (JInt n))
        /\ d' !! "other"%string
           = (fun v => JStr (bleach_clean (py_str v))) <$> d !! "other"%string
        /\ (forall k, d !! k = None -> d' !! k = None)
        /\ forall w : World,
             let (r, w') := dispatch (AnonymousLocationViewSet.create data) w in
             status_code r = 200 \/ status_code r = 201 ->
             exists l on_the_way,
               body r = LocationBody l on_the_way
               /\ In l (locations (store w'))
               /\ AnonymousLocation.supply_needs l = JDict d').
Proof.
  intros Hsn. split.
  - intros (k & Hk & Hbad).
    destruct (validate_supply_needs_unknown d k Hk Hbad) as (message & Hreject).
    assert (Hinvalid : forall instance partial,
              exists field message,
                is_valid instance partial data = inl (ValidationError field message)).
    { intros instance partial.
      pose proof (is_valid_inv instance partial data (JDict d) Hsn) as Hinv.
      destruct (is_valid instance partial data) as [e|attrs].
      - destruct Hinv as [(f & m & ->)|He]; [eauto|].
        rewrite Hreject in He. injection He as <-. eauto.
      - destruct Hinv as (v & Hv & _). rewrite Hreject in Hv. discriminate. }
    split; [exact Hinvalid|]. intros w. apply create_invalid. exact Hinvalid.
  - intros Hallowed Hnumeric.
    assert (Hnd : List.NoDup numeric_fields).
    { unfold numeric_fields. repeat constructor; cbn; intuition discriminate. }
    destruct (coerce_numeric_spec numeric_fields d Hnd Hnumeric) as (d1 & Hrun & Hin & Hout).
    assert (Hvalid : validate_supply_needs (JDict d) = inr (JDict (sanitize_other d1))).
    { unfold validate_supply_needs. rewrite (invalid_fields_none d Hallowed), Hrun.
      reflexivity. }
    assert (Hother : ~ In "other"%string numeric_fields).
    { unfold numeric_fields. cbn. intuition discriminate. }
    assert (Hkeep : forall k, k <> "other"%string ->
                      sanitize_other d1 !! k = d1 !! k).
    { intros k Hk. unfold sanitize_other.
      destruct (d1 !! "other"%string); [|reflexivity].
      apply lookup_insert_ne. congruence. }
    exists (sanitize_other d1). split; [exact Hvalid|].
    assert (Hcoerced : forall f, In f numeric_fields ->
                         sanitize_other d1 !! f = coerced (d !! f)).
    { intros f Hf. rewrite Hkeep; [apply Hin, Hf|]. intros ->. contradiction. }
    split; [exact Hcoerced|]. split; [|split; [|split]].
    + intros f n Hf Hfn. rewrite (Hcoerced f Hf), Hfn. reflexivity.
    + unfold sanitize_other. rewrite (Hout _ Hother).
      destruct (d !! "other"%string) eqn:Ho; cbn.
      * apply lookup_insert_eq.
      * rewrite (Hout _ Hother). exact Ho.
    + intros k Hk.
      destruct (String.eqb_spec k "other") as [->|Hne].
      * unfold sanitize_other. rewrite (Hout _ Hother), Hk. rewrite (Hout _ Hother). exact Hk.
      * rewrite (Hkeep k Hne).
        destruct (in_dec string_dec k numeric_fields) as [Hf|Hf].
        -- rewrite (Hin k Hf), Hk. reflexivity.
        -- rewrite (Hout k Hf). exact Hk.
    + intros w. apply (create_stores_validated data (JDict d) _ w Hsn Hvalid).
Qed.

End SupplyNeeds.



Lemma supply_needs_round_trip_witness :
  LocationPayload.supply_needs
    (submission "session-b"
       (JDict {[ "water"%string := JInt 5; "food"%string := JInt 3 ]}))
  = Some (JDict {[ "water"%string := JInt 5; "food"%string := JInt 3 ]})
  /\ exists l on_the_way,
       fst (dispatch (AnonymousLocationViewSet.create (rt := plain_runtime)
                   (submission "session-b"
                      (JDict {[ "water"%string := JInt 5; "food"%string := JInt 3 ]})))
                open_world)
       = mkResponse 201 (LocationBody l on_the_way)
       /\ AnonymousLocation.supply_needs l
          = JDict {[ "water"%string := JInt 5; "food"%string := JInt 3 ]}.
Proof.
  split; [reflexivity|].
  destruct (supply_needs_round_trip (rt := plain_runtime)
              (submission "session-b"
                 (JDict {[ "water"%string := JInt 5; "food"%string := JInt 3 ]}))
              _ eq_refl) as [_ Haccepted].
  destruct Haccepted as (d' & Hvalid & _ & _ & _ & _ & Hrow).
  - intros k [v Hk].
    destruct (String.eqb_spec k "water") as [->|Hw]; [reflexivity|].
    destruct (String.eqb_spec k "food") as [->|Hf]; [reflexivity|].
    rewrite lookup_insert_ne, lookup_singleton_ne in Hk by congruence. discriminate.
  - intros f v _ Hv.
    destruct (String.eqb_spec f "water") as [->|Hw].
    { injection Hv as <-. exists 5. split; [reflexivity | lia]. }
    destruct (String.eqb_spec f "food") as [->|Hf].
    { injection Hv as <-. exists 3. split; [reflexivity | lia]. }
    rewrite lookup_insert_ne, lookup_singleton_ne in Hv by congruence. discriminate.
  - vm_compute in Hvalid. injection Hvalid as <-.
    specialize (Hrow open_world).
    destruct (dispatch _ open_world) as [r w'] eqn:Hrun.
    assert (Hr : r = fst (dispatch (AnonymousLocationViewSet.create (rt := plain_runtime)
                   (submission "session-b"
                      (JDict {[ "water"%string := JInt 5; "food"%string := JInt 3 ]})))
                   open_world)) by (rewrite Hrun; reflexivity).
    assert (Hok : status_code r = 201) by (rewrite Hr; vm_compute; reflexivity).
    destruct (Hrow (or_intror Hok)) as (l & on_the_way & Hbody & _ & Hneeds).
    exists l, on_the_way. split.
    + cbn [fst]. destruct r as [code b]. cbn in Hok, Hbody. subst. reflexivity.
    + rewrite Hneeds. vm_compute. reflexivity.
Defined.

(** A quantity of 2.7 is accepted and read back as 2. *)
Lemma supply_needs_round_trip_counterexample :
  ~ (forall (w : World) (data : LocationPayload.t) (d : Dict),
       LocationPayload.supply_needs data = Some (JDict d) ->
       (forall k, is_Some (d !! k) -> AnonymousLocationSerializer.is_allowed k = true) ->
       (forall f v, In f AnonymousLocationSerializer.numeric_fields -> d !! f = Some v ->
                    exists n, Py.int v = inr n /\ 0 <= n) ->
       forall l on_the_way,
         body (fst (dispatch (AnonymousLocationViewSet.create (rt := plain_runtime) data) w))
         = LocationBody l on_the_way ->
         exists d' : Dict,
           AnonymousLocation.supply_needs l = JDict d'
           /\ forall f, In f AnonymousLocationSerializer.numeric_fields ->
                        d' !! f = d !! f).
Proof.
  intros Hspec.
  specialize (Hspec open_world
                (submission "session-b" (JDict {[ "water"%string := JFloat (27 # 10) ]}))
                {[ "water"%string := JFloat (27 # 10) ]} eq_refl).
  assert (Hkeys : forall k, is_Some (({[ "water"%string := JFloat (27 # 10) ]} : Dict) !! k) ->
                            AnonymousLocationSerializer.is_allowed k = true).
  { intros k [v Hk]. apply lookup_singleton_Some in Hk as [<- _]. reflexivity. }
  assert (Hints : forall f v, In f AnonymousLocationSerializer.numeric_fields ->
                    ({[ "water"%string := JFloat (27 # 10) ]} : Dict) !! f = Some v ->
                    exists n, Py.int v = inr n /\ 0 <= n).
  { intros f v _ Hv. apply lookup_singleton_Some in Hv as [<- <-].
    exists 2. split; [reflexivity | lia]. }
  specialize (Hspec Hkeys Hints).
  remember (body (fst (dispatch (AnonymousLocationViewSet.create (rt := plain_runtime)
              (submission "session-b" (JDict {[ "water"%string := JFloat (27 # 10) ]})))
              open_world))) as answer eqn:Hanswer.
  vm_compute in Hanswer. subst answer.
  destruct (Hspec _ _ eq_refl) as (d' & Hneeds & Hsame).
  cbn [AnonymousLocation.supply_needs] in Hneeds. injection Hneeds as <-.
  specialize (Hsame "water"%string (or_introl eq_refl)).
  vm_compute in Hsame. discriminate.
Qed.

(** ** Requests are keyed by session token ([create]) *)

Section Sessions.
Import AnonymousLocationViewSet AnonymousLocationSerializer.
Context {rt : Runtime}.

Lemma is_valid_session (instance : option AnonymousLocation.t) (partial : bool)
    (data attrs : LocationPayload.t) :
  is_valid instance partial data = inr attrs ->
  LocationPayload.session_id attrs = LocationPayload.session_id data.
Proof.
  unfold is_valid. pose proof (to_internal_value_inv partial data) as Hfields.
  destruct (to_internal_value partial data) as [e|attrs0]; [discriminate|]. subst attrs0.
  unfold validate.
  repeat match goal with
         | |- context [if ?b then inl _ else _] => destruct b; [discriminate|]
         end.
  cbv zeta.
  destruct (text_given (LocationPayload.notes data));
    destruct (text_given _); cbn;
    destruct (LocationPayload.supply_needs data) as [sn|]; cbn;
    try destruct (validate_supply_needs sn); intros [= <-]; reflexivity.
Qed.

(** What an accepted submission did: it rewrote, in place, an active row
    found by its session token, or it appended a row under a new key. *)
Lemma create_accepted (data : LocationPayload.t) (w : World) :
  let session := default ""%string (LocationPayload.session_id data) in
  let (r, w') := dispatch (create data) w in
  (status_code r = 200 ->
     exists instance l on_the_way,
       session <> ""%string
       /\ In instance (locations (store w))
       /\ AnonymousLocation.session_id instance = session
       /\ AnonymousLocation.is_active instance = true
       /\ body r = LocationBody l on_the_way
       /\ AnonymousLocation.id l = AnonymousLocation.id instance
       /\ AnonymousLocation.session_id l = session
       /\ locations (store w')
          = map (fun x => if AnonymousLocation.id x =? AnonymousLocation.id instance
                          then l else x) (locations (store w)))
  /\ (status_code r = 201 ->
      exists l0 l on_the_way,
        body r = LocationBody l on_the_way
        /\ AnonymousLocation.id l = next_location_id (store w)
        /\ AnonymousLocation.id l0 = next_location_id (store w)
        /\ AnonymousLocation.session_id l = session
        /\ locations (store w')
           = map (fun x => if AnonymousLocation.id x =? next_location_id (store w)
                           then l else x) (locations (store w) ++ [l0])).
Proof.
  intros session.
  destruct (dispatch (create data) w) as [r w'] eqn:Hrun. revert Hrun.
  unfold create. exec.
  destruct (first_by_last_seen _) as [recent|]; exec.
  { intros [= <- <-]. split; discriminate. }
  assert (Hnew : forall r w',
    dispatch
        (let! attrs := lift (is_valid None false data) in
         let! seen := timezone_now in
         let! seen' := timezone_now in
         let! location := write (locations_insert (create_row attrs seen')) in
         let! hex := uuid4_hex12 in
         let! location := save (AnonymousLocation.set_qr_code
                                  (Some ("LOC-" ++ hex)%string) location) in
         let! (l, on_the_way) := serializer_data location in
         ret (mkResponse 201 (LocationBody l on_the_way))) (tick w) = (r, w') ->
    status_code r <> 200
    /\ (status_code r = 201 ->
        exists l0 l on_the_way,
          body r = LocationBody l on_the_way
          /\ AnonymousLocation.id l = next_location_id (store w)
          /\ AnonymousLocation.id l0 = next_location_id (store w)
          /\ AnonymousLocation.session_id l = session
          /\ locations (store w')
             = map (fun x => if AnonymousLocation.id x =? next_location_id (store w)
                             then l else x) (locations (store w) ++ [l0]))).
  { clear r w'. intros r w'. exec.
    destruct (is_valid None false data) as [e|attrs] eqn:Hvalid; exec.
    { intros [= <- <-]. split; destruct e; discriminate. }
    apply is_valid_session in Hvalid.
    destruct (hd false (faults w)); exec; [intros [= <- <-]; split; discriminate|].
    destruct (locations_insert _ (store w)) as [e|[l s1]] eqn:Hins; exec.
    { intros [= <- <-]. split; destruct e; discriminate. }
    apply locations_insert_inv in Hins as [Hl Hs1].
    destruct (hd false (tail (faults w))); exec; [intros [= <- <-]; split; discriminate|].
    destruct (locations_update _ s1) as [e|[[] s2]] eqn:Hupd; exec.
    { intros [= <- <-]. split; destruct e; discriminate. }
    apply locations_update_inv in Hupd as [_ ->].
    intros [= <- <-]. split; [discriminate|]. intros _.
    exists l. do 2 eexists. split; [reflexivity|].
    rewrite Hl. cbn [AnonymousLocation.id AnonymousLocation.session_id
                     AnonymousLocation.set_last_seen AnonymousLocation.set_qr_code
                     create_row locations set_locations].
    rewrite Hvalid. split; [reflexivity|]. split; [reflexivity|]. split; [reflexivity|].
    rewrite Hs1, Hl. reflexivity. }
  destruct (Py.truthy_str _) eqn:Htruthy; exec.
  2: { intros Hrun. destruct (Hnew _ _ Hrun) as [Hno Hyes].
       split; [intros H0; contradiction | exact Hyes]. }
  destruct (first_by_last_seen _) as [instance|] eqn:Hfirst.
  2: { intros Hrun. destruct (Hnew _ _ Hrun) as [Hno Hyes].
       split; [intros H0; contradiction | exact Hyes]. }
  clear Hnew. apply first_by_last_seen_filter in Hfirst as [Hin Hprop].
  apply andb_true_iff in Hprop as [Hsess Hact]. apply String.eqb_eq in Hsess.
  destruct (is_valid (Some instance) true data) as [e|attrs] eqn:Hvalid; exec.
  { intros [= <- <-]. split; destruct e; discriminate. }
  apply is_valid_session in Hvalid.
  destruct (hd false (faults w)); exec; [intros [= <- <-]; split; discriminate|].
  destruct (locations_update _ (store w)) as [e|[[] s1]] eqn:Hupd; exec.
  { intros [= <- <-]. split; destruct e; discriminate. }
  apply locations_update_inv in Hupd as [_ ->].
  intros [= <- <-]. split; [|discriminate]. intros _.
  exists instance. do 2 eexists.
  split. { intros Hempty. unfold session in Hempty. cbv [default from_option id] in Hempty.
           rewrite Hempty in Htruthy. discriminate. }
  split; [exact Hin|]. split; [exact Hsess|]. split; [exact Hact|].
  split; [reflexivity|]. split; [reflexivity|]. split; [|reflexivity].
  cbn [AnonymousLocation.session_id AnonymousLocation.set_last_seen update_row].
  rewrite Hvalid. unfold session.
  destruct (LocationPayload.session_id data); [reflexivity | exact Hsess].
Qed.


Lemma map_replace_keys {A} (key : A -> Z) (l : list A) (y : A) (k : Z) :
  key y = k ->
  map key (map (fun x => if key x =? k then y else x) l) = map key l.
Proof.
  intros Hy. rewrite map_map. apply map_ext. intros x.
  destruct (Z.eqb_spec (key x) k); congruence.
Qed.

Lemma in_replaced_at {A} (key : A -> Z) (l : list A) (x y : A) (k : Z) :
  In x l -> key x = k -> In y (map (fun r => if key r =? k then y else r) l).
Proof.
  intros Hin Hk. apply in_map_iff. exists x. split; [|exact Hin].
  rewrite Hk, Z.eqb_refl. reflexivity.
Qed.

Lemma in_replaced_other {A} (key : A -> Z) (l : list A) (x y : A) (k : Z) :
  In x l -> key x <> k -> In x (map (fun r => if key r =? k then y else r) l).
Proof.
  intros Hin Hne. apply in_map_iff. exists x. split; [|exact Hin].
  destruct (Z.eqb_spec (key x) k); [contradiction | reflexivity].
Qed.

(** A submission leaves alone every row that carries another session
    token. *)
Lemma create_spares (data : LocationPayload.t) (w : World) (other : AnonymousLocation.t) :
  keys_fresh (map AnonymousLocation.id (locations (store w))) (next_location_id (store w)) ->
  In other (locations (store w)) ->
  AnonymousLocation.session_id other
    <> default ""%string (LocationPayload.session_id data) ->
  In other (locations (store (snd (dispatch (create data) w)))).
Proof.
  intros [Hnd Hlt] Hin Hsess. unfold create. exec.
  destruct (first_by_last_seen _) as [recent|]; exec; [exact Hin|].
  assert (Hnew :
    In other (locations (store (snd (dispatch
        (let! attrs := lift (is_valid None false data) in
         let! seen := timezone_now in
         let! seen' := timezone_now in
         let! location := write (locations_insert (create_row attrs seen')) in
         let! hex := uuid4_hex12 in
         let! location := save (AnonymousLocation.set_qr_code
                                  (Some ("LOC-" ++ hex)%string) location) in
         let! (l, on_the_way) := serializer_data location in
         ret (mkResponse 201 (LocationBody l on_the_way))) (tick w)))))).
  { exec.
    destruct (is_valid None false data) as [e|attrs]; exec; [exact Hin|].
    destruct (hd false (faults w)); exec; [exact Hin|].
    destruct (locations_insert _ (store w)) as [e|[l s1]] eqn:Hins; exec; [exact Hin|].
    apply locations_insert_inv in Hins as [Hl Hs1].
    assert (Hin1 : In other (locations s1)).
    { rewrite Hs1. apply in_or_app. left. exact Hin. }
    destruct (hd false (tail (faults w))); exec; [exact Hin1|].
    destruct (locations_update _ s1) as [e|[[] s2]] eqn:Hupd; exec; [exact Hin1|].
    apply locations_update_inv in Hupd as [_ ->]. cbn [locations set_locations].
    apply (in_replaced_other AnonymousLocation.id); [exact Hin1|].
    rewrite Hl. cbn. apply (in_map AnonymousLocation.id) in Hin. apply Hlt in Hin. lia. }
  destruct (Py.truthy_str _); exec; [|exact Hnew].
  destruct (first_by_last_seen _) as [instance|] eqn:Hfirst; [|exact Hnew].
  clear Hnew. apply first_by_last_seen_filter in Hfirst as [Hinst Hprop].
  apply andb_true_iff in Hprop as [Hs _]. apply String.eqb_eq in Hs.
  destruct (is_valid (Some instance) true data) as [e|attrs]; exec; [exact Hin|].
  destruct (hd false (faults w)); exec; [exact Hin|].
  destruct (locations_update _ (store w)) as [e|[[] s1]] eqn:Hupd; exec; [exact Hin|].
  apply locations_update_inv in Hupd as [_ ->]. cbn [locations set_locations].
  apply (in_replaced_other AnonymousLocation.id); [exact Hin|].
  cbn. intros Hid.
  assert (other = instance)
    by (eapply (key_injective AnonymousLocation.id); eauto).
  subst other. apply Hsess. rewrite Hs. reflexivity.
Qed.

(** A submission whose session token an active row carries adds no row. *)
Lemma create_in_place (data : LocationPayload.t) (w : World) (sid : string)
    (existing : AnonymousLocation.t) :
  LocationPayload.session_id data = Some sid -> sid <> ""%string ->
  In existing (locations (store w)) ->
  AnonymousLocation.session_id existing = sid ->
  AnonymousLocation.is_active existing = true ->
  map AnonymousLocation.id (locations (store (snd (dispatch (create data) w))))
  = map AnonymousLocation.id (locations (store w))
  /\ status_code (fst (dispatch (create data) w)) <> 201.
Proof.
  intros Hsid Hne Hin Hsess Hact. unfold create. rewrite Hsid. exec.
  destruct (first_by_last_seen _) as [recent|]; exec; [split; [reflexivity|discriminate]|].
  rewrite (truthy_str_ne sid Hne). exec.
  destruct (first_by_last_seen _) as [instance|] eqn:Hfirst.
  - destruct (is_valid (Some instance) true _) as [e|attrs]; exec.
    { split; [reflexivity | destruct e; discriminate]. }
    destruct (hd false (faults w)); exec; [split; [reflexivity|discriminate]|].
    destruct (locations_update _ (store w)) as [e|[[] s1]] eqn:Hupd; exec.
    { split; [reflexivity | destruct e; discriminate]. }
    apply locations_update_inv in Hupd as [_ ->]. cbn [locations set_locations].
    split; [|discriminate]. apply map_replace_keys. reflexivity.
  - exfalso. apply first_by_last_seen_none in Hfirst.
    assert (Hmem : In existing
              (List.filter (fun l => String.eqb (AnonymousLocation.session_id l) sid
                                     && AnonymousLocation.is_active l)
                           (locations (store w)))).
    { apply filter_In. split; [exact Hin|].
      rewrite Hact, andb_true_r. apply String.eqb_eq. exact Hsess. }
    rewrite Hfirst in Hmem. destruct Hmem.
Qed.

(** Validation changes three fields of a payload at most: [notes] and
    [facebook], which it cleans, and [supply_needs]. *)
Lemma is_valid_fields (instance : option AnonymousLocation.t) (partial : bool)
    (data attrs : LocationPayload.t) :
  is_valid instance partial data = inr attrs ->
  attrs = LocationPayload.mk
            (LocationPayload.first_name data) (LocationPayload.last_name data)
            (LocationPayload.phone data) (LocationPayload.facebook attrs)
            (LocationPayload.notes attrs) (LocationPayload.photo data)
            (LocationPayload.supply_needs attrs) (LocationPayload.latitude data)
            (LocationPayload.longitude data) (LocationPayload.session_id data)
            (LocationPayload.is_active data) (LocationPayload.donation_received data)
            (LocationPayload.donation_timestamp data)
            (LocationPayload.next_request_allowed_at data).
Proof.
  unfold is_valid. pose proof (to_internal_value_inv partial data) as Hfields.
  destruct (to_internal_value partial data) as [e|attrs0]; [discriminate|]. subst attrs0.
  unfold validate.
  repeat match goal with
         | |- context [if ?b then inl _ else _] => destruct b; [discriminate|]
         end.
  cbv zeta.
  destruct (text_given (LocationPayload.notes data));
    destruct (text_given _); cbn;
    destruct (LocationPayload.supply_needs data) as [sn|]; cbn;
    try destruct (validate_supply_needs sn); intros [= <-]; destruct data; reflexivity.
Qed.

(** A row that keeps its key and its code meets no row with that code,
    where codes are unique. *)
Lemma no_conflict_kept (s : Store) (instance l : AnonymousLocation.t) :
  qr_codes_unique s -> In instance (locations s) ->
  AnonymousLocation.id l = AnonymousLocation.id instance ->
  AnonymousLocation.qr_code l = AnonymousLocation.qr_code instance ->
  qr_code_conflict l (locations s) = false.
Proof.
  intros Huniq Hin Hid Hq.
  destruct (AnonymousLocation.qr_code instance) as [q|] eqn:Hcode.
  - apply (no_conflict_same_row _ instance l q); [|exact Hid|exact Hq].
    apply filter_at_most_one; [apply Huniq | exact Hin |].
    apply has_qr_code_iff. exact Hcode.
  - unfold qr_code_conflict. rewrite Hq. reflexivity.
Qed.

(** The submission that finds an active row by its session token: what an
    answer 200 wrote, and when the answer is 200. *)
Lemma create_rewrites (data : LocationPayload.t) (w : World) (token : string)
    (instance : AnonymousLocation.t) :
  LocationPayload.session_id data = Some token -> token <> ""%string ->
  first_by_last_seen
    (List.filter (fun l => String.eqb (AnonymousLocation.session_id l) token
                           && AnonymousLocation.is_active l)
                 (locations (store w))) = Some instance ->
  let (r, w') := dispatch (create data) w in
  (status_code r = 200 ->
   exists attrs l on_the_way,
     is_valid (Some instance) true data = inr attrs
     /\ body r = LocationBody l on_the_way
     /\ l = AnonymousLocation.mk (AnonymousLocation.id instance)
              (default (AnonymousLocation.first_name instance)
                       (LocationPayload.first_name data))
              (default (AnonymousLocation.last_name instance)
                       (LocationPayload.last_name data))
              (default (AnonymousLocation.phone instance) (LocationPayload.phone data))
              (default (AnonymousLocation.facebook instance)
                       (LocationPayload.facebook attrs))
              (default (AnonymousLocation.notes instance) (LocationPayload.notes attrs))
              (match LocationPayload.photo data with
               | Some (ImageFile name) => Some name
               | Some NotAFile => None
               | None => AnonymousLocation.photo instance
               end)
              (default (AnonymousLocation.supply_needs instance)
                       (LocationPayload.supply_needs attrs))
              (default (AnonymousLocation.latitude instance)
                       (LocationPayload.latitude data))
              (default (AnonymousLocation.longitude instance)
                       (LocationPayload.longitude data))
              (clock w')
              (default (AnonymousLocation.is_active instance)
                       (LocationPayload.is_active data))
              token
              (AnonymousLocation.qr_code instance)
              (default (AnonymousLocation.donation_received instance)
                       (LocationPayload.donation_received data))
              (AnonymousLocation.donated_by_user instance)
              (default (AnonymousLocation.donation_timestamp instance)
                       (LocationPayload.donation_timestamp data))
              (default (AnonymousLocation.next_request_allowed_at instance)
                       (LocationPayload.next_request_allowed_at data))
     /\ store w'
        = set_locations
            (map (fun x => if AnonymousLocation.id x =? AnonymousLocation.id instance
                           then l else x) (locations (store w))) (store w)
     /\ sent w' = sent w)
  /\ ((forall l, In l (locations (store w)) ->
                 restricted (LocationPayload.phone data) (clock (tick w)) l = false) ->
      qr_codes_unique (store w) ->
      hd false (faults w) = false ->
      (exists attrs, is_valid (Some instance) true data = inr attrs) ->
      status_code r = 200).
Proof.
  intros Hsid Hne Hfirst.
  destruct (dispatch (create data) w) as [r w'] eqn:Hrun. revert Hrun.
  unfold create. rewrite Hsid. exec.
  destruct (first_by_last_seen (List.filter (restricted _ _) _)) as [recent|] eqn:Hrecent;
    exec.
  { intros [= <- <-]. split; [discriminate|]. intros Hfree _ _ _.
    apply first_by_last_seen_filter in Hrecent as [Hin Hr].
    rewrite (Hfree _ Hin) in Hr. discriminate. }
  rewrite (truthy_str_ne token Hne). exec. rewrite Hfirst.
  pose proof Hfirst as Hfound.
  apply first_by_last_seen_filter in Hfound as [Hin _].
  destruct (is_valid (Some instance) true data) as [e|attrs] eqn:Hvalid; exec.
  { intros [= <- <-]. split; [destruct e; discriminate|].
    intros _ _ _ [attrs Hattrs]. discriminate. }
  pose proof (is_valid_fields _ _ _ _ Hvalid) as Hattrs.
  destruct (hd false (faults w)) eqn:Hfault; exec.
  { intros [= <- <-]. split; [discriminate|]. intros _ _ Hnone. discriminate. }
  destruct (locations_update _ (store w)) as [e|[[] s1]] eqn:Hupd; exec.
  { intros [= <- <-]. split; [destruct e; discriminate|].
    intros _ Huniq _ _. exfalso.
    unfold locations_update in Hupd.
    rewrite (no_conflict_kept (store w) instance) in Hupd by auto. discriminate. }
  apply locations_update_inv in Hupd as [_ ->].
  intros [= <- <-]. split; [|reflexivity]. intros _.
  exists attrs. do 2 eexists. split; [reflexivity|]. split; [reflexivity|].
  split; [|split; reflexivity].
  rewrite Hattrs at 1.
  unfold update_row, AnonymousLocation.set_last_seen, file_name.
  cbn [AnonymousLocation.id AnonymousLocation.first_name AnonymousLocation.last_name
       AnonymousLocation.phone AnonymousLocation.facebook AnonymousLocation.notes
       AnonymousLocation.photo AnonymousLocation.supply_needs AnonymousLocation.latitude
       AnonymousLocation.longitude AnonymousLocation.is_active
       AnonymousLocation.session_id AnonymousLocation.qr_code
       AnonymousLocation.donation_received AnonymousLocation.donated_by_user
       AnonymousLocation.donation_timestamp AnonymousLocation.next_request_allowed_at
       LocationPayload.first_name LocationPayload.last_name LocationPayload.phone
       LocationPayload.facebook LocationPayload.notes LocationPayload.photo
       LocationPayload.supply_needs LocationPayload.latitude LocationPayload.longitude
       LocationPayload.session_id LocationPayload.is_active
       LocationPayload.donation_received LocationPayload.donation_timestamp
       LocationPayload.next_request_allowed_at clock with_store pop_fault tick].
  rewrite Hsid. cbn [default from_option id].
  destruct (LocationPayload.photo data) as [[name|]|]; reflexivity.
Qed.

(** C9. A submission whose session token an active request carries
    rewrites that request in place.  No row is created: every primary key
    of the table is kept and the answer is never 201.  An answer 200 means
    that the row found by the token now holds, under its old key, code and
    donor, the submitted value of every column the submission carries and
    its old value of every other one, with [last_seen] at the time of the
    write; no other row and no other table has changed.  The answer is 200
    whenever no cool-down holds the phone number back, the payload
    validates against the row and the write succeeds.  Two submissions
    under distinct session tokens, whatever their phone numbers, leave two
    rows: the row the first one created is untouched by the second, whose
    own row has another key. *)
Theorem create_keyed_by_session (w : World) (first second : LocationPayload.t)
    (token token' : string) :
  LocationPayload.session_id first = Some token ->
  LocationPayload.session_id second = Some token' ->
  (token <> ""%string ->
   (exists existing, In existing (locations (store w))
                     /\ AnonymousLocation.session_id existing = token
                     /\ AnonymousLocation.is_active existing = true) ->
   exists instance,
     In instance (locations (store w))
     /\ AnonymousLocation.session_id instance = token
     /\ AnonymousLocation.is_active instance = true
     /\ let (r, w') := dispatch (create first) w in
        map AnonymousLocation.id (locations (store w'))
        = map AnonymousLocation.id (locations (store w))
        /\ status_code r <> 201
        /\ (status_code r = 200 ->
            exists attrs l on_the_way,
              is_valid (Some instance) true first = inr attrs
              /\ body r = LocationBody l on_the_way
              /\ l = AnonymousLocation.mk (AnonymousLocation.id instance)
                       (default (AnonymousLocation.first_name instance)
                                (LocationPayload.first_name first))
                       (default (AnonymousLocation.last_name instance)
                                (LocationPayload.last_name first))
                       (default (AnonymousLocation.phone instance)
                                (LocationPayload.phone first))
                       (default (AnonymousLocation.facebook instance)
                                (LocationPayload.facebook attrs))
                       (default (AnonymousLocation.notes instance)
                                (LocationPayload.notes attrs))
                       (match LocationPayload.photo first with
                        | Some (ImageFile name) => Some name
                        | Some NotAFile => None
                        | None => AnonymousLocation.photo instance
                        end)
                       (default (AnonymousLocation.supply_needs instance)
                                (LocationPayload.supply_needs attrs))
                       (default (AnonymousLocation.latitude instance)
                                (LocationPayload.latitude first))
                       (default (AnonymousLocation.longitude instance)
                                (LocationPayload.longitude first))
                       (clock w')
                       (default (AnonymousLocation.is_active instance)
                                (LocationPayload.is_active first))
                       token
                       (AnonymousLocation.qr_code instance)
                       (default (AnonymousLocation.donation_received instance)
                                (LocationPayload.donation_received first))
                       (AnonymousLocation.donated_by_user instance)
                       (default (AnonymousLocation.donation_timestamp instance)
                                (LocationPayload.donation_timestamp first))
                       (default (AnonymousLocation.next_request_allowed_at instance)
                                (LocationPayload.next_request_allowed_at first))
              /\ store w'
                 = set_locations
                     (map (fun x => if AnonymousLocation.id x
                                       =? AnonymousLocation.id instance
                                    then l else x) (locations (store w))) (store w)
              /\ sent w' = sent w)
        /\ ((forall l, In l (locations (store w)) ->
                       restricted (LocationPayload.phone first) (clock (tick w)) l
                       = false) ->
            qr_codes_unique (store w) ->
            hd false (faults w) = false ->
            (exists attrs, is_valid (Some instance) true first = inr attrs) ->
            status_code r = 200))
  /\ (consistent (store w) -> token <> token' ->
      let (r1, w1) := dispatch (create first) w in
      status_code r1 = 201 ->
      exists l1 others,
        body r1 = LocationBody l1 others
        /\ In l1 (locations (store w1))
        /\ AnonymousLocation.session_id l1 = token
        /\ let (r2, w2) := dispatch (create second) w1 in
           In l1 (locations (store w2))
           /\ (status_code r2 = 200 \/ status_code r2 = 201 ->
               exists l2 others',
                 body r2 = LocationBody l2 others'
                 /\ In l2 (locations (store w2))
                 /\ AnonymousLocation.session_id l2 = token'
                 /\ AnonymousLocation.id l2 <> AnonymousLocation.id l1)).
Proof.
  intros Htoken Htoken'. split.
  - intros Hne (existing & Hin & Hsess & Hact).
    destruct (first_by_last_seen
                (List.filter (fun l => String.eqb (AnonymousLocation.session_id l) token
                                       && AnonymousLocation.is_active l)
                             (locations (store w)))) as [instance|] eqn:Hfirst.
    2: { exfalso. apply first_by_last_seen_none in Hfirst.
         assert (Hmem : In existing
                   (List.filter
                      (fun l => String.eqb (AnonymousLocation.session_id l) token
                                && AnonymousLocation.is_active l)
                      (locations (store w)))).
         { apply filter_In. split; [exact Hin|].
           rewrite Hact, andb_true_r. apply String.eqb_eq. exact Hsess. }
         rewrite Hfirst in Hmem. destruct Hmem. }
    pose proof (first_by_last_seen_filter _ _ _ Hfirst) as [Hi Hprop].
    apply andb_true_iff in Hprop as [Hs Ha]. apply String.eqb_eq in Hs.
    exists instance. split; [exact Hi|]. split; [exact Hs|]. split; [exact Ha|].
    pose proof (create_in_place first w token existing Htoken Hne Hin Hsess Hact)
      as [Hkeys Hnot].
    pose proof (create_rewrites first w token instance Htoken Hne Hfirst) as Hrew.
    destruct (dispatch (create first) w) as [r w']. cbn [fst snd] in Hkeys, Hnot.
    destruct Hrew as [Hwritten Hanswer].
    split; [exact Hkeys|]. split; [exact Hnot|]. split; [exact Hwritten|exact Hanswer].
  - intros Hcons Hdiff.
    pose proof (create_accepted first w) as Hacc1. cbv zeta in Hacc1.
    pose proof (run_writes (SubmitRequest first) w) as Hw1. unfold run, view in Hw1.
    destruct (dispatch (create first) w) as [r1 w1]. cbn [snd] in Hw1.
    intros Hok1. destruct Hacc1 as [_ Hcreated].
    destruct (Hcreated Hok1) as (l0 & l1 & ols & Hb1 & Hid1 & Hid0 & Hs1 & Hlocs1).
    rewrite Htoken in Hs1. cbn [default from_option id] in Hs1.
    assert (Hin1 : In l1 (locations (store w1))).
    { rewrite Hlocs1. apply (in_replaced_at AnonymousLocation.id _ l0).
      - apply in_or_app. right. left. reflexivity.
      - exact Hid0. }
    exists l1, ols. split; [exact Hb1|]. split; [exact Hin1|]. split; [exact Hs1|].
    pose proof (Writes_consistent _ _ Hw1 Hcons) as Hcons1.
    pose proof (create_spares second w1 l1 (proj1 Hcons1) Hin1) as Hspared.
    pose proof (create_accepted second w1) as Hacc2. cbv zeta in Hacc2.
    pose proof (run_writes (SubmitRequest second) w1) as Hw2. unfold run, view in Hw2.
    destruct (dispatch (create second) w1) as [r2 w2]. cbn [snd] in Hspared, Hw2.
    rewrite Htoken' in Hspared, Hacc2. cbn [default from_option id] in Hspared, Hacc2.
    assert (Hkept : In l1 (locations (store w2))).
    { apply Hspared. rewrite Hs1. exact Hdiff. }
    split; [exact Hkept|].
    pose proof (Writes_consistent _ _ Hw2 Hcons1) as Hcons2.
    assert (Hdistinct : forall l2, In l2 (locations (store w2)) ->
              AnonymousLocation.session_id l2 = token' ->
              AnonymousLocation.id l2 <> AnonymousLocation.id l1).
    { intros l2 Hin2 Hs2 Hid.
      assert (l2 = l1)
        by (eapply (key_injective AnonymousLocation.id); eauto; apply Hcons2).
      subst l2. congruence. }
    destruct Hacc2 as [Hupdated Hcreated2].
    intros [Hok2|Hok2].
    + destruct (Hupdated Hok2)
        as (instance & l2 & ols2 & _ & Hi & _ & _ & Hb2 & Hid2 & Hs2 & Hlocs2).
      assert (Hin2 : In l2 (locations (store w2))).
      { rewrite Hlocs2. apply (in_replaced_at AnonymousLocation.id _ instance); auto. }
      exists l2, ols2. auto.
    + destruct (Hcreated2 Hok2) as (l0' & l2 & ols2 & Hb2 & Hid2 & Hid0' & Hs2 & Hlocs2).
      assert (Hin2 : In l2 (locations (store w2))).
      { rewrite Hlocs2. apply (in_replaced_at AnonymousLocation.id _ l0').
        - apply in_or_app. right. left. reflexivity.
        - exact Hid0'. }
      exists l2, ols2. auto.
Qed.

End Sessions.

Lemma create_keyed_by_session_witness :
  (exists l,
     let (r, w') := dispatch
                      (AnonymousLocationViewSet.create (rt := plain_runtime)
                         (submission "session-a" no_needs)) submitting_world in
     status_code r = 200
     /\ locations (store w') = [l]
     /\ AnonymousLocation.id l = 1
     /\ AnonymousLocation.first_name l = "Ben"%string
     /\ AnonymousLocation.latitude l = 14600000
     /\ AnonymousLocation.session_id l = "session-a"%string
     /\ AnonymousLocation.qr_code l = Some "LOC-0123456789AB"%string)
  /\ (LocationPayload.session_id (submission "session-b" no_needs) = Some "session-b"%string
    /\ LocationPayload.session_id (submission "session-c" no_needs) = Some "session-c"%string
    /\ consistent (store submitting_world)
    /\ "session-b"%string <> "session-c"%string
    /\ exists l1 l2,
         let w2 := snd (dispatch
                          (AnonymousLocationViewSet.create (rt := plain_runtime)
                             (submission "session-c" no_needs))
                          (snd (dispatch
                                  (AnonymousLocationViewSet.create (rt := plain_runtime)
                                     (submission "session-b" no_needs))
                                  submitting_world))) in
         In l1 (locations (store w2)) /\ In l2 (locations (store w2))
         /\ AnonymousLocation.session_id l1 = "session-b"%string
         /\ AnonymousLocation.session_id l2 = "session-c"%string
         /\ AnonymousLocation.id l2 <> AnonymousLocation.id l1).
Proof.
  split.
  { destruct (create_keyed_by_session (rt := plain_runtime) submitting_world
                (submission "session-a" no_needs) (submission "session-c" no_needs)
                "session-a" "session-c" eq_refl eq_refl) as [Hupdate _].
    assert (Hne : "session-a"%string <> ""%string) by discriminate.
    destruct (Hupdate Hne
                (ex_intro _ request_row (conj (or_introl eq_refl) (conj eq_refl eq_refl))))
      as (instance & Hin & _ & _ & Hrun).
    destruct Hin as [<-|[]].
    destruct (dispatch _ submitting_world) as [r w'].
    destruct Hrun as (_ & _ & Hwritten & Hanswer).
    assert (Hok : status_code r = 200).
    { apply Hanswer.
      - intros l [<-|[]]. reflexivity.
      - exact open_store_qr_codes_unique.
      - reflexivity.
      - eexists. vm_compute. reflexivity. }
    destruct (Hwritten Hok) as (attrs & l & others & _ & _ & Hl & Hstore & _).
    exists l. split; [exact Hok|]. rewrite Hstore, Hl. repeat split. }
  assert (Hdiff : "session-b"%string <> "session-c"%string) by discriminate.
  split; [reflexivity|]. split; [reflexivity|].
  split; [exact open_store_consistent|]. split; [exact Hdiff|].
  destruct (create_keyed_by_session (rt := plain_runtime) submitting_world
              (submission "session-b" no_needs) (submission "session-c" no_needs)
              "session-b" "session-c" eq_refl eq_refl) as [_ Htwo].
  specialize (Htwo open_store_consistent Hdiff).
  destruct (dispatch _ submitting_world) as [r1 w1] eqn:Hrun1.
  assert (Hok1 : status_code r1 = 201).
  { replace r1 with (fst (dispatch (AnonymousLocationViewSet.create (rt := plain_runtime)
                                      (submission "session-b" no_needs)) submitting_world))
      by (rewrite Hrun1; reflexivity).
    vm_compute. reflexivity. }
  destruct (Htwo Hok1) as (l1 & others & _ & _ & Hs1 & Hsecond).
  assert (Hw1 : w1 = snd (dispatch (AnonymousLocationViewSet.create (rt := plain_runtime)
                                      (submission "session-b" no_needs)) submitting_world))
    by (rewrite Hrun1; reflexivity).
  cbn [snd].
  destruct (dispatch _ w1) as [r2 w2] eqn:Hrun2.
  assert (Hok2 : status_code r2 = 201).
  { replace r2 with (fst (dispatch (AnonymousLocationViewSet.create (rt := plain_runtime)
                                      (submission "session-c" no_needs)) w1))
      by (rewrite Hrun2; reflexivity).
    rewrite Hw1. vm_compute. reflexivity. }
  destruct Hsecond as [Hkept Hrow].
  destruct (Hrow (or_intror Hok2)) as (l2 & others' & _ & Hin2 & Hs2 & Hid).
  exists l1, l2. cbn [snd]. auto.
Defined.


(** * Further properties of the handlers *)

(** ** Withdrawing a request ([deactivate]) and the 24-hour window *)

Section Rows2.
Context {A : Type}.

Lemma filter_filter_comm (P Q : A -> bool) (l : list A) :
  List.filter P (List.filter Q l) = List.filter Q (List.filter P l).
Proof.
  rewrite <- !filter_and. apply List.filter_ext. intros x. apply andb_comm.
Qed.

Lemma filter_negb_In (P : A -> bool) (l : list A) (x : A) :
  In x (List.filter (fun r => negb (P r)) l) <-> In x l /\ P x = false.
Proof. rewrite filter_In, negb_true_iff. reflexivity. Qed.

End Rows2.

Section Deactivation.
Import AnonymousLocationViewSet.
Context {rt : Runtime}.

(** What [get_object] finds among the rows [get_queryset] returns. *)
Lemma visible_found (rows : list AnonymousLocation.t) (cutoff : Z)
    (location : AnonymousLocation.t) :
  List.NoDup (map AnonymousLocation.id rows) ->
  In location rows ->
  AnonymousLocation.is_active location = true ->
  cutoff <= AnonymousLocation.last_seen location ->
  List.filter (fun l => AnonymousLocation.id l =? AnonymousLocation.id location)
    (List.filter (fun l => AnonymousLocation.is_active l
                           && (cutoff <=? AnonymousLocation.last_seen l)) rows)
  = [location].
Proof.
  intros Hnd Hin Hact Hseen.
  rewrite filter_filter_comm.
  rewrite (filter_by_key AnonymousLocation.id rows location Hnd Hin).
  simpl. rewrite Hact. simpl.
  destruct (Z.leb_spec cutoff (AnonymousLocation.last_seen location)); [reflexivity|lia].
Qed.

Lemma hidden_not_found (rows : list AnonymousLocation.t) (cutoff pk : Z) :
  (forall l, In l rows -> AnonymousLocation.id l = pk ->
             AnonymousLocation.is_active l = false
             \/ AnonymousLocation.last_seen l < cutoff) ->
  List.filter (fun l => AnonymousLocation.id l =? pk)
    (List.filter (fun l => AnonymousLocation.is_active l
                           && (cutoff <=? AnonymousLocation.last_seen l)) rows)
  = [].
Proof.
  intros Hhidden. rewrite <- filter_and. apply filter_none.
  intros l Hl.
  destruct (Z.eqb_spec (AnonymousLocation.id l) pk) as [Hid|];
    [|rewrite andb_false_r; reflexivity].
  rewrite andb_true_r.
  destruct (Hhidden l Hl Hid) as [-> | Hold]; [reflexivity|].
  apply andb_false_iff. right. apply Z.leb_gt. exact Hold.
Qed.

(** X1. Withdrawing an active request that was seen in the last 24 hours
    succeeds when the storage does: the request is gone, with the
    tracking rows that point to it and the position samples of those rows;
    every other request, tracking row and sample stays, and so do the
    ledger, the ratings and the channel. *)
Theorem deactivate_deletes (w : World) (location : AnonymousLocation.t) :
  List.NoDup (map AnonymousLocation.id (locations (store w))) ->
  In location (locations (store w)) ->
  AnonymousLocation.is_active location = true ->
  clock w + Z.of_N (hd 0%N (delays w)) - hours 24
    <= AnonymousLocation.last_seen location ->
  hd false (faults w) = false ->
  let pk := AnonymousLocation.id location in
  exists w',
  dispatch (deactivate pk) w
  = (mkResponse 200 (StatusBody "location sharing stopped and data deleted" ""), w')
  /\ (forall l, In l (locations (store w'))
                <-> In l (locations (store w)) /\ AnonymousLocation.id l <> pk)
  /\ (forall d, In d (donators_on_the_way (store w'))
                <-> In d (donators_on_the_way (store w))
                    /\ DonatorOnTheWay.location d <> pk)
  /\ (forall u, In u (location_updates (store w'))
                <-> In u (location_updates (store w))
                    /\ forall d, In d (donators_on_the_way (store w)) ->
                                 DonatorOnTheWay.id d
                                 = LocationUpdate.donator_on_the_way u ->
                                 DonatorOnTheWay.location d <> pk)
  /\ donation_history (store w') = donation_history (store w)
  /\ donation_ratings (store w') = donation_ratings (store w)
  /\ sent w' = sent w.
Proof.
  intros Hnd Hin Hact Hseen Hfault pk. subst pk.
  unfold deactivate. exec.
  rewrite (visible_found _ _ location Hnd Hin Hact Hseen).
  cbn [get_unique]. exec. rewrite Hfault. exec.
  unfold locations_delete. exec.
  eexists. split; [reflexivity|].
  cbn [store sent with_store tick pop_fault locations donators_on_the_way
       location_updates donation_history donation_ratings].
  split.
  { intros l. rewrite filter_negb_In, Z.eqb_neq. reflexivity. }
  split.
  { intros d. rewrite filter_negb_In, Z.eqb_neq. reflexivity. }
  split; [|auto].
  intros u. rewrite filter_negb_In. apply and_iff_compat_l.
  split.
  - intros Hnone d Hd Hid Hloc.
    apply not_true_iff_false in Hnone. apply Hnone.
    apply existsb_exists. exists d. split.
    + apply filter_In. split; [exact Hd|]. apply Z.eqb_eq. exact Hloc.
    + apply Z.eqb_eq. exact Hid.
  - intros Hall. apply not_true_iff_false. intros Hex.
    apply existsb_exists in Hex as (d & Hd & Hid).
    apply filter_In in Hd as [Hd Hloc].
    apply (Hall d Hd); [apply Z.eqb_eq, Hid | apply Z.eqb_eq, Hloc].
Qed.

(** X2. A request that is inactive, or that was last seen more than 24
    hours before the call, is not found by the routes that address it by
    primary key: withdrawing it and marking a donator on the way to it are
    both answered 404, and nothing but the clock has changed. *)
Theorem get_object_hides (w : World) (user : User.t) (pk : Z) :
  (forall l, In l (locations (store w)) -> AnonymousLocation.id l = pk ->
             AnonymousLocation.is_active l = false
             \/ AnonymousLocation.last_seen l
                < clock w + Z.of_N (hd 0%N (delays w)) - hours 24) ->
  dispatch (deactivate pk) w = (mkResponse 404 (ErrorBody "Not found."), tick w)
  /\ dispatch (mark_on_the_way (Some user) pk) w
     = (mkResponse 404 (ErrorBody "Not found."), tick w).
Proof.
  intros Hhidden. split.
  - unfold deactivate. exec. rewrite (hidden_not_found _ _ pk Hhidden).
    reflexivity.
  - unfold mark_on_the_way. exec. rewrite (hidden_not_found _ _ pk Hhidden).
    reflexivity.
Qed.

End Deactivation.

Lemma deactivate_deletes_witness :
  exists w',
    dispatch (AnonymousLocationViewSet.deactivate 1) open_world
    = (mkResponse 200 (StatusBody "location sharing stopped and data deleted" ""), w')
    /\ locations (store w') = [] /\ donators_on_the_way (store w') = [].
Proof.
  assert (Hnd : List.NoDup (map AnonymousLocation.id (locations (store open_world))))
    by (repeat constructor; simpl; tauto).
  assert (Hseen : clock open_world + Z.of_N (hd 0%N (delays open_world)) - hours 24
                  <= AnonymousLocation.last_seen request_row)
    by (unfold hours; simpl; lia).
  destruct (deactivate_deletes open_world request_row Hnd (or_introl eq_refl) eq_refl
              Hseen eq_refl) as (w' & Hrun & Hloc & Hdon & _).
  exists w'. split; [exact Hrun|]. split.
  - destruct (locations (store w')) as [|l rest]; [reflexivity|].
    destruct (proj1 (Hloc l) (or_introl eq_refl)) as [[<-|[]] Hne].
    contradiction Hne. reflexivity.
  - destruct (donators_on_the_way (store w')) as [|d rest]; [reflexivity|].
    destruct (proj1 (Hdon d) (or_introl eq_refl)) as [[<-|[]] Hne].
    contradiction Hne. reflexivity.
Defined.

Lemma get_object_hides_witness :
  (In fulfilled_row (locations (store cooling_world))
   /\ AnonymousLocation.id fulfilled_row = 1
   /\ AnonymousLocation.is_active fulfilled_row = false
   /\ dispatch (AnonymousLocationViewSet.deactivate 1) cooling_world
      = (mkResponse 404 (ErrorBody "Not found."), tick cooling_world)
   /\ dispatch (AnonymousLocationViewSet.mark_on_the_way (Some donor) 1) cooling_world
      = (mkResponse 404 (ErrorBody "Not found."), tick cooling_world))
  /\ (In request_row (locations (store stale_world))
      /\ AnonymousLocation.id request_row = 1
      /\ AnonymousLocation.is_active request_row = true
      /\ AnonymousLocation.last_seen request_row
         < clock stale_world + Z.of_N (hd 0%N (delays stale_world)) - hours 24
      /\ dispatch (AnonymousLocationViewSet.deactivate 1) stale_world
         = (mkResponse 404 (ErrorBody "Not found."), tick stale_world)
      /\ dispatch (AnonymousLocationViewSet.mark_on_the_way (Some donor) 1) stale_world
         = (mkResponse 404 (ErrorBody "Not found."), tick stale_world)).
Proof.
  split.
  - split; [left; reflexivity|]. split; [reflexivity|]. split; [reflexivity|].
    apply (get_object_hides cooling_world donor 1).
    intros l [<-|[]] _. left. reflexivity.
  - split; [left; reflexivity|]. split; [reflexivity|]. split; [reflexivity|].
    split; [reflexivity|].
    apply (get_object_hides stale_world donor 1).
    intros l [<-|[]] _. right. reflexivity.
Defined.

(** ** Failures of [mark_on_the_way] *)

Section MarkingFailures.
Import AnonymousLocationViewSet.

(** X3. [mark_on_the_way] is all or nothing: an answer other than 200
    leaves the database and the channel as they were, whatever failed;
    an anonymous caller is answered 401, and a request that has received
    its donation is answered 400. *)
Theorem mark_on_the_way_all_or_nothing (w w' : World) (user : option User.t)
    (pk : Z) (r : Response) :
  dispatch (mark_on_the_way user pk) w = (r, w') ->
  (status_code r <> 200 -> store w' = store w /\ sent w' = sent w)
  /\ (user = None -> r = mkResponse 401 (ErrorBody "Authentication required"))
  /\ (forall location,
        get_unique
          (List.filter (fun l => AnonymousLocation.id l =? pk)
             (List.filter
                (fun l => AnonymousLocation.is_active l
                          && (clock (tick w) - hours 24
                              <=? AnonymousLocation.last_seen l))
                (locations (store w)))) = inr location ->
        user <> None ->
        AnonymousLocation.donation_received location = true ->
        r = mkResponse 400
              (ErrorBody "This location has already received a donation")).
Proof.
  unfold mark_on_the_way.
  destruct user as [user|];
    [|exec; intros [= <- <-]; repeat split; try tauto; congruence].
  exec.
  destruct (get_unique _) as [e|location] eqn:Hget.
  { destruct e; exec; intros [= <- <-]; repeat split; auto; try discriminate;
      intros location' [=]. }
  exec.
  destruct (AnonymousLocation.donation_received location) eqn:Hrecv; exec.
  { intros [= <- <-]. repeat split; auto; discriminate. }
  assert (Hno : forall location' : AnonymousLocation.t,
             @inr Exc _ location = inr location' -> Some user <> None ->
             AnonymousLocation.donation_received location' = true ->
             r = mkResponse 400
                   (ErrorBody "This location has already received a donation")).
  { intros location' [= <-] _ Hyes. congruence. }
  clear Hget. destruct (get_unique _) as [e|entry] eqn:Hpair.
  - destruct e; exec;
      try (intros [= <- <-]; repeat split; auto; discriminate).
    destruct (hd false (faults w)); exec;
      [intros [= <- <-]; repeat split; auto; discriminate|].
    destruct (donators_insert _ (store w)) as [e|[d s1]]; exec;
      [intros [= <- <-]; repeat split; auto; discriminate|].
    destruct (hd false (tail (faults w))); exec;
      intros [= <- <-]; repeat split; auto; try discriminate.
    all: match goal with H : _ <> 200 |- _ => contradiction H; reflexivity end.
  - exec. destruct (hd false (faults w)); exec;
      [intros [= <- <-]; repeat split; auto; discriminate|].
    destruct (donators_update _ (store w)) as [e|[[] s1]]; exec;
      [intros [= <- <-]; repeat split; auto; discriminate|].
    destruct (hd false (tail (faults w))); exec;
      intros [= <- <-]; repeat split; auto; try discriminate.
    all: match goal with H : _ <> 200 |- _ => contradiction H; reflexivity end.
Qed.

End MarkingFailures.

Lemma mark_on_the_way_all_or_nothing_witness :
  exists r w',
    dispatch (AnonymousLocationViewSet.mark_on_the_way (Some donor) 1) failing_world
    = (r, w')
    /\ status_code r = 500
    /\ store w' = store failing_world /\ sent w' = sent failing_world.
Proof.
  destruct (dispatch (AnonymousLocationViewSet.mark_on_the_way (Some donor) 1)
              failing_world) as [r w'] eqn:Hrun.
  assert (Hstatus : status_code r = 500).
  { replace r with (fst (dispatch (AnonymousLocationViewSet.mark_on_the_way
                                     (Some donor) 1) failing_world))
      by (rewrite Hrun; reflexivity).
    vm_compute. reflexivity. }
  exists r, w'. split; [reflexivity|]. split; [exact Hstatus|].
  apply (mark_on_the_way_all_or_nothing failing_world w' (Some donor) 1 r Hrun).
  rewrite Hstatus. discriminate.
Defined.

(** ** Position reports ([location_update]) and [stop_tracking] *)

Section Reports.
Context {rt : Runtime}.

(** The tracking row of a pair, found under [unique_together]. *)
Lemma pair_found (s : Store) (location donator : Z) (entry : DonatorOnTheWay.t) :
  pairs_unique s ->
  In entry (donators_on_the_way s) ->
  is_pair location donator entry = true ->
  List.filter (is_pair location donator) (donators_on_the_way s) = [entry].
Proof. intros Hu Hin Hp. apply filter_at_most_one; auto. Qed.

Lemma tracked_found (s : Store) (location donator : Z) (entry : DonatorOnTheWay.t) :
  pairs_unique s ->
  In entry (donators_on_the_way s) ->
  is_pair location donator entry = true ->
  DonatorOnTheWay.is_tracking entry = true ->
  List.filter (fun d => is_pair location donator d && DonatorOnTheWay.is_tracking d)
    (donators_on_the_way s) = [entry].
Proof.
  intros Hu Hin Hp Ht. rewrite filter_and, (pair_found s _ _ entry Hu Hin Hp).
  simpl. rewrite Ht. reflexivity.
Qed.

(** Rewriting a tracking row without touching its pair meets no conflict. *)
Lemma donators_update_ok (s : Store) (entry d : DonatorOnTheWay.t) :
  pairs_unique s ->
  In entry (donators_on_the_way s) ->
  DonatorOnTheWay.id d = DonatorOnTheWay.id entry ->
  DonatorOnTheWay.location d = DonatorOnTheWay.location entry ->
  DonatorOnTheWay.donator d = DonatorOnTheWay.donator entry ->
  donators_update d s
  = inr (tt, set_donators_on_the_way
               (map (fun r => if DonatorOnTheWay.id r =? DonatorOnTheWay.id entry
                              then d else r) (donators_on_the_way s)) s).
Proof.
  intros Hu Hin Hid Hloc Hdon. unfold donators_update. rewrite Hid, Hloc, Hdon.
  assert (Hpair : is_pair (DonatorOnTheWay.location entry)
                    (DonatorOnTheWay.donator entry) entry = true)
    by (unfold is_pair; rewrite !Z.eqb_refl; reflexivity).
  destruct (existsb _ _) eqn:Hex; [|reflexivity].
  apply existsb_exists in Hex as (r & Hr & Hprop).
  apply andb_true_iff in Hprop as [Hne Hp].
  pose proof (pair_found s _ _ entry Hu Hin Hpair) as Hone.
  rewrite (filter_singleton_member _ _ _ _ Hone Hr Hp), Z.eqb_refl in Hne.
  discriminate.
Qed.

Lemma all_truthy (a b c : Json) :
  Py.truthy a = true -> Py.truthy b = true -> Py.truthy c = true ->
  negb (forallb Py.truthy [a; b; c]) = false.
Proof. intros Ha Hb Hc. cbn [forallb]. rewrite Ha, Hb, Hc. reflexivity. Qed.

(** X4. A position report from a donator who is being tracked to the
    request, with coordinates the columns can hold, is stored: the
    answer is 200 with the instant of the sample, one sample is appended
    for the tracking row, the row's [last_location_update] is stamped, and
    one [donator_tracking_update] message goes out. *)
Theorem location_update_records (w : World) (user : User.t)
    (data : PositionPayload.t) (entry : DonatorOnTheWay.t) (lid : Z)
    (latitude longitude : Json) (lat lon : Z) (flat flon acc : Q) :
  PositionPayload.locationId data = Some (JInt lid) -> lid <> 0 ->
  PositionPayload.latitude data = Some latitude -> Py.truthy latitude = true ->
  PositionPayload.longitude data = Some longitude -> Py.truthy longitude = true ->
  decimal_db_value 10 8 latitude = inr lat ->
  decimal_db_value 11 8 longitude = inr lon ->
  float_db_value (default (JInt 0) (PositionPayload.accuracy data)) = inr acc ->
  py_float latitude = inr flat ->
  py_float longitude = inr flon ->
  pairs_unique (store w) ->
  In entry (donators_on_the_way (store w)) ->
  is_pair lid (User.id user) entry = true ->
  DonatorOnTheWay.is_tracking entry = true ->
  fault_free w ->
  exists (t t' : Instant) (w' : World),
    clock w <= t <= t'
    /\ dispatch (location_update (Some user) data) w
       = (mkResponse 200 (PositionBody "success" "Location update received" t), w')
    /\ location_updates (store w')
       = location_updates (store w)
         ++ [LocationUpdate.mk (next_location_update_id (store w))
               (DonatorOnTheWay.id entry) lat lon acc t]
    /\ donators_on_the_way (store w')
       = map (fun d => if DonatorOnTheWay.id d =? DonatorOnTheWay.id entry
                       then DonatorOnTheWay.set_last_location_update t' entry
                       else d) (donators_on_the_way (store w))
    /\ sent w'
       = sent w
         ++ [mkMessage "locations" "donator_tracking_update"
               (TrackingPositionData (JInt lid) (User.id user)
                  (username_or_email user) (User.first_name user)
                  (User.last_name user) flat flon
                  (default (JInt 0) (PositionPayload.accuracy data)) t
                  (display_name user ++ " is on the way for supplies"))].
Proof.
  intros Hlid Hnz Hlat Htlat Hlon Htlon Hdlat Hdlon Hacc Hflat Hflon
         Hu Hin Hp Ht Hff.
  assert (F1 : hd false (faults w) = false) by (revert Hff; no_fault).
  assert (F2 : hd false (tail (faults w)) = false) by (revert Hff; no_fault).
  assert (F3 : hd false (tail (tail (faults w))) = false) by (revert Hff; no_fault).
  unfold location_update. rewrite Hlid, Hlat, Hlon. exec.
  rewrite all_truthy; [|simpl; apply negb_true_iff, Z.eqb_neq; exact Hnz
                       |exact Htlat|exact Htlon].
  cbn [Py.int]. exec.
  rewrite (tracked_found _ _ _ entry Hu Hin Hp Ht). cbn [get_unique]. exec.
  rewrite Hdlat, Hdlon. exec.
  cbv [default from_option id] in Hacc. rewrite Hacc. exec.
  rewrite F1. exec. unfold location_updates_insert. exec.
  rewrite F2. exec.
  erewrite donators_update_ok; [|exact Hu|exact Hin|reflexivity..].
  exec. rewrite Hflat, Hflon. exec. rewrite F3. exec.
  eexists _, _, _. split; [|split].
  2: reflexivity.
  2: { cbn [store sent location_updates donators_on_the_way set_donators_on_the_way].
       split; [reflexivity|]. split; reflexivity. }
  pose proof (N2Z.is_nonneg (hd 0%N (delays w))).
  pose proof (N2Z.is_nonneg (hd 0%N (tail (delays w)))).
  cbn [LocationUpdate.timestamp]. lia.
Qed.

(** A whole number in a [DecimalField]: it fits when its digits before
    the point do. *)
Lemma decimal_db_value_whole (max_digits decimal_places : nat) (z : Z) :
  decimal_db_value max_digits decimal_places (JInt z)
  = if Z.abs z * 10 ^ Z.of_nat decimal_places <? 10 ^ Z.of_nat max_digits
    then inr (z * 10 ^ Z.of_nat decimal_places)
    else inl InvalidOperation.
Proof.
  unfold decimal_db_value. rewrite Z.abs_mul.
  rewrite (Z.abs_eq (10 ^ _)) by (apply Z.pow_nonneg; lia). reflexivity.
Qed.

(** X5. The only bound on the coordinates of a position report is the
    width of the columns: a whole-number latitude of 100 or more in
    absolute value, or a whole-number longitude of 1000 or more, from a
    tracked donator is answered 500 and nothing at all has changed. *)
Theorem location_update_column_width (w : World) (user : User.t)
    (data : PositionPayload.t) (entry : DonatorOnTheWay.t) (lid lat lon : Z) :
  PositionPayload.locationId data = Some (JInt lid) -> lid <> 0 ->
  PositionPayload.latitude data = Some (JInt lat) -> lat <> 0 ->
  PositionPayload.longitude data = Some (JInt lon) -> lon <> 0 ->
  pairs_unique (store w) ->
  In entry (donators_on_the_way (store w)) ->
  is_pair lid (User.id user) entry = true ->
  DonatorOnTheWay.is_tracking entry = true ->
  100 <= Z.abs lat \/ 1000 <= Z.abs lon ->
  dispatch (location_update (Some user) data) w
  = (mkResponse 500 (ErrorBody (exc_message InvalidOperation)), w).
Proof.
  intros Hlid Hnz Hlat Hnlat Hlon Hnlon Hu Hin Hp Ht Hwide.
  unfold location_update. rewrite Hlid, Hlat, Hlon. exec.
  rewrite all_truthy by (simpl; apply negb_true_iff, Z.eqb_neq; assumption).
  cbn [Py.int]. exec.
  rewrite (tracked_found _ _ _ entry Hu Hin Hp Ht). cbn [get_unique]. exec.
  rewrite !decimal_db_value_whole.
  change (10 ^ Z.of_nat 8) with 100000000.
  change (10 ^ Z.of_nat 10) with 10000000000.
  change (10 ^ Z.of_nat 11) with 100000000000.
  destruct (Z.ltb_spec (Z.abs lat * 100000000) 10000000000) as [Hok|Hbig]; exec;
    [|reflexivity].
  destruct (Z.ltb_spec (Z.abs lon * 100000000) 100000000000) as [Hok'|Hbig]; exec;
    [|reflexivity].
  lia.
Qed.

(** X6. [location_update] is not atomic: when the sample has been stored
    and the write that stamps the tracking row fails, the answer is 500
    while the sample stays in the database; the tracking row is unchanged
    and nothing is sent. *)
Theorem location_update_partial (w : World) (user : User.t)
    (data : PositionPayload.t) (entry : DonatorOnTheWay.t) (lid : Z)
    (latitude longitude : Json) (lat lon : Z) (acc : Q) :
  PositionPayload.locationId data = Some (JInt lid) -> lid <> 0 ->
  PositionPayload.latitude data = Some latitude -> Py.truthy latitude = true ->
  PositionPayload.longitude data = Some longitude -> Py.truthy longitude = true ->
  decimal_db_value 10 8 latitude = inr lat ->
  decimal_db_value 11 8 longitude = inr lon ->
  float_db_value (default (JInt 0) (PositionPayload.accuracy data)) = inr acc ->
  pairs_unique (store w) ->
  In entry (donators_on_the_way (store w)) ->
  is_pair lid (User.id user) entry = true ->
  DonatorOnTheWay.is_tracking entry = true ->
  hd false (faults w) = false ->
  hd false (tail (faults w)) = true ->
  exists (t : Instant) (w' : World),
    dispatch (location_update (Some user) data) w
    = (mkResponse 500 (ErrorBody (exc_message StorageError)), w')
    /\ location_updates (store w')
       = location_updates (store w)
         ++ [LocationUpdate.mk (next_location_update_id (store w))
               (DonatorOnTheWay.id entry) lat lon acc t]
    /\ donators_on_the_way (store w') = donators_on_the_way (store w)
    /\ sent w' = sent w.
Proof.
  intros Hlid Hnz Hlat Htlat Hlon Htlon Hdlat Hdlon Hacc Hu Hin Hp Ht F1 F2.
  unfold location_update. rewrite Hlid, Hlat, Hlon. exec.
  rewrite all_truthy; [|simpl; apply negb_true_iff, Z.eqb_neq; exact Hnz
                       |exact Htlat|exact Htlon].
  cbn [Py.int]. exec.
  rewrite (tracked_found _ _ _ entry Hu Hin Hp Ht). cbn [get_unique]. exec.
  rewrite Hdlat, Hdlon. exec.
  cbv [default from_option id] in Hacc. rewrite Hacc. exec.
  rewrite F1. exec. unfold location_updates_insert. exec.
  rewrite F2. exec.
  eexists _, _. split; [reflexivity|].
  cbn [store sent location_updates donators_on_the_way].
  split; [reflexivity|]. split; reflexivity.
Qed.

(** A report for a pair that has no row with [is_tracking] set. *)
Lemma location_update_untracked (w : World) (user : User.t)
    (data : PositionPayload.t) (locationId latitude longitude : Json) (lid : Z) :
  PositionPayload.locationId data = Some locationId ->
  PositionPayload.latitude data = Some latitude ->
  PositionPayload.longitude data = Some longitude ->
  Py.truthy locationId = true -> Py.truthy latitude = true ->
  Py.truthy longitude = true ->
  Py.int locationId = inr lid ->
  (forall d, In d (donators_on_the_way (store w)) ->
             is_pair lid (User.id user) d = true ->
             DonatorOnTheWay.is_tracking d = false) ->
  dispatch (location_update (Some user) data) w
  = (mkResponse 404 (ErrorBody "No active tracking found for this location"), w).
Proof.
  intros Hlid Hlat Hlon Htid Htlat Htlon Hint Hnone.
  unfold location_update. rewrite Hlid, Hlat, Hlon. exec.
  rewrite all_truthy by assumption. rewrite Hint. exec.
  rewrite filter_none; [reflexivity|].
  intros d Hd. destruct (is_pair lid (User.id user) d) eqn:Hp; [|reflexivity].
  rewrite (Hnone d Hd Hp). reflexivity.
Qed.

(** X7. Once [stop_tracking] has succeeded for a request, the position
    reports of that donator for that request are answered 404 and store
    nothing (until the donator is marked on the way again). *)
Theorem stop_tracking_stops (w w1 : World) (user : User.t) (locationId : Json)
    (r : Response) (data : PositionPayload.t) (latitude longitude : Json) :
  dispatch (stop_tracking (Some user) (Some locationId)) w = (r, w1) ->
  status_code r = 200 ->
  PositionPayload.locationId data = Some locationId ->
  PositionPayload.latitude data = Some latitude -> Py.truthy latitude = true ->
  PositionPayload.longitude data = Some longitude -> Py.truthy longitude = true ->
  dispatch (location_update (Some user) data) w1
  = (mkResponse 404 (ErrorBody "No active tracking found for this location"), w1).
Proof.
  intros Hrun Hok Hlid Hlat Htlat Hlon Htlon. revert Hrun.
  unfold stop_tracking. exec.
  destruct (Py.truthy locationId) eqn:Htid; cbn [negb];
    [|exec; intros [= <- <-]; discriminate Hok].
  destruct (Py.int locationId) as [e|lid] eqn:Hint; exec;
    [intros [= <- <-]; discriminate Hok|].
  destruct (get_unique _) as [e|entry] eqn:Hget.
  { destruct e; exec; intros [= <- <-]; discriminate Hok. }
  apply get_unique_found in Hget. exec.
  destruct (hd false (faults w)); exec; [intros [= <- <-]; discriminate Hok|].
  destruct (donators_update _ (store w)) as [e|[[] s1]] eqn:Hupd; exec;
    [intros [= <- <-]; discriminate Hok|].
  assert (Hrows : donators_on_the_way s1
                  = map (fun r => if DonatorOnTheWay.id r =? DonatorOnTheWay.id entry
                                  then DonatorOnTheWay.set_is_tracking false entry
                                  else r) (donators_on_the_way (store w))).
  { revert Hupd. unfold donators_update. destruct (existsb _ _); [discriminate|].
    intros [= <-]. reflexivity. }
  assert (Hnone : forall d, In d (donators_on_the_way s1) ->
                            is_pair lid (User.id user) d = true ->
                            DonatorOnTheWay.is_tracking d = false).
  { intros d Hd Hp. rewrite Hrows in Hd. apply in_map_iff in Hd as (d0 & Hd0 & Hin).
    destruct (DonatorOnTheWay.id d0 =? DonatorOnTheWay.id entry) eqn:Hid.
    - subst d. reflexivity.
    - subst d0. rewrite (filter_singleton_member _ _ _ _ Hget Hin Hp), Z.eqb_refl in Hid.
      discriminate. }
  destruct (hd false (tail (faults w))); exec; intros [= <- <-];
    [discriminate Hok|].
  apply (location_update_untracked _ user data locationId latitude longitude lid);
    auto.
Qed.

End Reports.

Lemma open_store_pairs_unique : pairs_unique open_store.
Proof. apply open_store_consistent. Qed.

Lemma location_update_records_witness :
  exists (t : Instant) (w' : World),
    dispatch (location_update (rt := plain_runtime) (Some donor) far_position) open_world
    = (mkResponse 200 (PositionBody "success" "Location update received" t), w')
    /\ length (location_updates (store w')) = 1%nat.
Proof.
  destruct (location_update_records (rt := plain_runtime) open_world donor far_position
              tracking_row 1 (JInt 95) (JInt 200) 9500000000 20000000000
              (inject_Z 95) (inject_Z 200) (inject_Z 0))
    as (t & t' & w' & _ & Hrun & Hrows & _);
    try reflexivity; try discriminate.
  - exact open_store_pairs_unique.
  - left. reflexivity.
  - exists t, w'. split; [exact Hrun|]. rewrite Hrows. reflexivity.
Defined.

Lemma location_update_column_width_witness :
  dispatch (location_update (rt := plain_runtime) (Some donor) wide_position) open_world
  = (mkResponse 500 (ErrorBody (exc_message InvalidOperation)), open_world).
Proof.
  apply (location_update_column_width (rt := plain_runtime) open_world donor wide_position
           tracking_row 1 100 120); try reflexivity; try discriminate.
  - exact open_store_pairs_unique.
  - left. reflexivity.
  - left. simpl. lia.
Defined.

Lemma location_update_partial_witness :
  exists (w' : World),
    dispatch (location_update (rt := plain_runtime) (Some donor) far_position)
      half_failing_world
    = (mkResponse 500 (ErrorBody (exc_message StorageError)), w')
    /\ length (location_updates (store w')) = 1%nat.
Proof.
  destruct (location_update_partial (rt := plain_runtime) half_failing_world donor
              far_position tracking_row 1 (JInt 95) (JInt 200) 9500000000 20000000000
              (inject_Z 0))
    as (t & w' & Hrun & Hrows & _);
    try reflexivity; try discriminate.
  - exact open_store_pairs_unique.
  - left. reflexivity.
  - exists w'. split; [exact Hrun|]. rewrite Hrows. reflexivity.
Defined.

Lemma stop_tracking_stops_witness :
  exists (w1 : World),
    dispatch (stop_tracking (Some donor) (Some (JInt 1))) open_world
    = (mkResponse 200 (StatusBody "success" "Location tracking stopped"), w1)
    /\ dispatch (location_update (rt := plain_runtime) (Some donor) far_position) w1
       = (mkResponse 404 (ErrorBody "No active tracking found for this location"), w1).
Proof.
  destruct (dispatch (stop_tracking (Some donor) (Some (JInt 1)))
              open_world) as [r w1] eqn:Hrun.
  assert (Hr : r = mkResponse 200 (StatusBody "success" "Location tracking stopped")).
  { replace r with (fst (dispatch (stop_tracking (Some donor)
                                     (Some (JInt 1))) open_world))
      by (rewrite Hrun; reflexivity).
    vm_compute. reflexivity. }
  exists w1. split; [rewrite Hr; reflexivity|].
  apply (stop_tracking_stops (rt := plain_runtime) open_world w1 donor (JInt 1) r
           far_position (JInt 95) (JInt 200) Hrun); try reflexivity.
  rewrite Hr. reflexivity.
Defined.

(** ** Refused and half-done ratings ([DonationRatingViewSet.create]) *)

Section RatingFailures.
Import DonationRatingViewSet.
Context {rt : Runtime}.

(** X8. A rating that does not name a history entry or carries no session
    is answered 400, and one that names a history entry that does not
    exist is answered 404; neither changes anything. *)
Theorem rating_create_rejects (w : World) (data : RatingPayload.t) :
  (default 0 (RatingPayload.donation_history_id data) = 0
   \/ AnonymousLocationSerializer.text_given (RatingPayload.session_id data) = false ->
   dispatch (create data) w
   = (mkResponse 400 (ErrorBody "donation_history_id and session_id are required"), w))
  /\ (default 0 (RatingPayload.donation_history_id data) <> 0 ->
      AnonymousLocationSerializer.text_given (RatingPayload.session_id data) = true ->
      (forall h, In h (donation_history (store w)) ->
                 DonationHistory.id h
                 <> default 0 (RatingPayload.donation_history_id data)) ->
      dispatch (create data) w
      = (mkResponse 404 (ErrorBody "Donation history not found"), w)).
Proof.
  split.
  - intros Hmissing. unfold create.
    replace (_ || _) with true; [reflexivity|].
    symmetry. apply orb_true_iff.
    destruct Hmissing as [-> | ->]; [left|right]; reflexivity.
  - intros Hid Hsession Hnone. unfold create.
    rewrite Hsession, (proj2 (Z.eqb_neq _ 0) Hid). cbn [negb orb]. exec.
    rewrite filter_none; [reflexivity|].
    intros h Hh. apply Z.eqb_neq. apply (Hnone h Hh).
Qed.

(** The steps of [create] before validation, for a history entry that
    exists and has no rating. *)
Lemma rating_create_unrated (w : World) (data : RatingPayload.t)
    (h : DonationHistory.t) :
  RatingPayload.donation_history_id data = Some (DonationHistory.id h) ->
  DonationHistory.id h <> 0 ->
  AnonymousLocationSerializer.text_given (RatingPayload.session_id data) = true ->
  List.NoDup (map DonationHistory.id (donation_history (store w))) ->
  In h (donation_history (store w)) ->
  (forall r, In r (donation_ratings (store w)) ->
             DonationRating.donation_history r <> DonationHistory.id h) ->
  dispatch (create data) w
  = dispatch
      (match DonationRatingSerializer.is_valid data with
       | inl (ValidationError f m) => ret (mkResponse 400 (FieldErrors f m))
       | inl e => raise e
       | inr attrs =>
           let! rated_at := timezone_now in
           let! rating :=
             write (ratings_insert
                      (DonationRatingSerializer.create_row
                         (DonationHistory.id h) attrs rated_at)) in
           let supplies_confirmed := DonationRating.supplies_confirmed rating in
           do! (if Py.truthy supplies_confirmed then
                  match supplies_confirmed with
                  | JDict confirmed =>
                      let! actual := lift (actual_supplies confirmed) in
                      write (history_update
                               (DonationHistory.set_supply_needs_fulfilled
                                  (JDict actual) h))
                  | _ => raise AttributeError
                  end
                else ret tt) in
           ret (mkResponse 201 (RatingBody rating))
       end) w.
Proof.
  intros Hid Hnz Hsession Hnd Hin Hnone. unfold create.
  rewrite Hid, Hsession. cbn [default from_option id negb].
  rewrite (proj2 (Z.eqb_neq _ 0) Hnz). cbn [orb]. exec.
  rewrite (filter_by_key DonationHistory.id _ h Hnd Hin). cbn [get_unique].
  unfold has_rating. rewrite filter_none; [reflexivity|].
  intros r Hr. apply Z.eqb_neq. apply (Hnone r Hr).
Qed.

(** X9. A rating outside 1 to 5 for an unrated history entry is answered
    400 on the field [rating] and nothing is stored. *)
Theorem rating_out_of_range (w : World) (data : RatingPayload.t)
    (h : DonationHistory.t) (stars : Z) :
  RatingPayload.donation_history_id data = Some (DonationHistory.id h) ->
  DonationHistory.id h <> 0 ->
  AnonymousLocationSerializer.text_given (RatingPayload.session_id data) = true ->
  List.NoDup (map DonationHistory.id (donation_history (store w))) ->
  In h (donation_history (store w)) ->
  (forall r, In r (donation_ratings (store w)) ->
             DonationRating.donation_history r <> DonationHistory.id h) ->
  RatingPayload.rating data = Some stars ->
  stars < 1 \/ 5 < stars ->
  (forall v, RatingPayload.supplies_confirmed data = Some v ->
             exists d, v = JDict d) ->
  dispatch (create data) w
  = (mkResponse 400 (FieldErrors "rating" "is not a valid choice."), w).
Proof.
  intros Hid Hnz Hsession Hnd Hin Hnone Hstars Hout Hdict.
  rewrite (rating_create_unrated w data h) by assumption.
  unfold DonationRatingSerializer.is_valid,
    DonationRatingSerializer.supplies_confirmed_field,
    DonationRatingSerializer.rating_field.
  rewrite Hstars.
  replace ((stars <? 1) || (5 <? stars)) with true
    by (symmetry; apply orb_true_iff; rewrite !Z.ltb_lt; exact Hout).
  destruct (RatingPayload.supplies_confirmed data) as [v|]; [|reflexivity].
  destruct (Hdict v eq_refl) as [d ->].
  unfold DonationRatingSerializer.validate_supplies_confirmed.
  destruct (Py.truthy (JDict d)); [|reflexivity].
  destruct (d !! _); reflexivity.
Qed.

(** X10. A rating whose [supplies_confirmed] is a non-empty list without
    the text [other_items] passes validation, so the rating is stored;
    deriving the delivered supplies from it then fails, and the answer is
    500 with the rating in the database and the ledger untouched. *)
Theorem rating_list_confirmation (w : World) (data : RatingPayload.t)
    (h : DonationHistory.t) (l : list Json) (session : string) :
  RatingPayload.donation_history_id data = Some (DonationHistory.id h) ->
  DonationHistory.id h <> 0 ->
  RatingPayload.session_id data = Some session ->
  session <> ""%string -> (String.length session <= 100)%nat ->
  List.NoDup (map DonationHistory.id (donation_history (store w))) ->
  In h (donation_history (store w)) ->
  (forall r, In r (donation_ratings (store w)) ->
             DonationRating.donation_history r <> DonationHistory.id h) ->
  (forall stars, RatingPayload.rating data = Some stars -> 1 <= stars <= 5) ->
  RatingPayload.supplies_confirmed data = Some (JList l) ->
  l <> [] ->
  existsb (DonationRatingSerializer.is_text "other_items") l = false ->
  hd false (faults w) = false ->
  exists (t : Instant) (w' : World),
    dispatch (create data) w = (mkResponse 500 (ErrorBody "Server Error (500)"), w')
    /\ donation_ratings (store w')
       = donation_ratings (store w)
         ++ [DonationRating.mk (next_donation_rating_id (store w))
               (DonationHistory.id h) (RatingPayload.rating data)
               (default ""%string (RatingPayload.comment data)) (JList l) t session]
    /\ donation_history (store w') = donation_history (store w)
    /\ sent w' = sent w.
Proof.
  intros Hid Hnz Hsession Hne Hlen Hnd Hin Hnone Hstars Hlist Hl Hother F1.
  rewrite (rating_create_unrated w data h); try assumption;
    [|rewrite Hsession; apply truthy_str_ne; exact Hne].
  assert (Htruthy : Py.truthy (JList l) = true) by (destruct l; [contradiction|reflexivity]).
  assert (Hvalid : DonationRatingSerializer.is_valid data
                   = inr (RatingPayload.mk (RatingPayload.donation_history_id data)
                            (RatingPayload.session_id data) (RatingPayload.rating data)
                            (RatingPayload.comment data) (Some (JList l)))).
  { unfold DonationRatingSerializer.is_valid,
      DonationRatingSerializer.supplies_confirmed_field,
      DonationRatingSerializer.rating_field,
      DonationRatingSerializer.validate_rating,
      DonationRatingSerializer.validate_supplies_confirmed.
    rewrite Hlist, Htruthy, Hother. cbn [and_then DonationRatingSerializer.escapes].
    assert (Hrating : (match RatingPayload.rating data with
                       | Some v => if (v <? 1) || (5 <? v)
                                   then inl (ValidationError "rating" "is not a valid choice.")
                                   else inr tt
                       | None => inr tt
                       end : Result unit) = inr tt).
    { destruct (RatingPayload.rating data) as [v|]; [|reflexivity].
      specialize (Hstars v eq_refl).
      replace ((v <? 1) || (5 <? v)) with false; [reflexivity|].
      symmetry. apply orb_false_iff. rewrite !Z.ltb_ge. lia. }
    rewrite Hrating. cbn [and_then].
    assert (Hrating' : (match RatingPayload.rating data with
                        | Some v => if (v <? 1) || (5 <? v)
                                    then inl (ValidationError "rating"
                                                "Rating must be between 1 and 5 stars.")
                                    else inr (RatingPayload.rating data)
                        | None => inr (RatingPayload.rating data)
                        end : Result (option Z)) = inr (RatingPayload.rating data)).
    { destruct (RatingPayload.rating data) as [v|]; [|reflexivity].
      specialize (Hstars v eq_refl).
      replace ((v <? 1) || (5 <? v)) with false; [reflexivity|].
      symmetry. apply orb_false_iff. rewrite !Z.ltb_ge. lia. }
    rewrite Hrating'. cbn [and_then].
    unfold AnonymousLocationSerializer.check_text. rewrite Hsession.
    cbn [negb andb].
    replace (100 <? String.length session)%nat with false
      by (symmetry; apply Nat.ltb_ge; exact Hlen).
    reflexivity. }
  rewrite Hvalid. exec. rewrite F1. exec.
  unfold ratings_insert.
  cbn [DonationRatingSerializer.create_row DonationRating.donation_history].
  replace (existsb _ (donation_ratings (store w))) with false.
  2: { symmetry. apply not_true_iff_false. intros Hex.
       apply existsb_exists in Hex as (r & Hr & Heq). apply Z.eqb_eq in Heq.
       apply (Hnone r Hr Heq). }
  exec. unfold DonationRatingSerializer.create_row.
  cbn [DonationRating.supplies_confirmed RatingPayload.supplies_confirmed
       default from_option id].
  rewrite Htruthy. exec.
  eexists _, _. split; [reflexivity|].
  cbn [store sent donation_ratings donation_history RatingPayload.rating
       RatingPayload.comment RatingPayload.session_id].
  rewrite Hsession. auto.
Qed.

End RatingFailures.

Lemma rating_create_rejects_witness :
  dispatch (DonationRatingViewSet.create (rt := plain_runtime) stray_rating)
    redeemed_world
  = (mkResponse 404 (ErrorBody "Donation history not found"), redeemed_world).
Proof.
  apply (rating_create_rejects (rt := plain_runtime) redeemed_world stray_rating).
  - discriminate.
  - reflexivity.
  - intros h [<-|[]]. discriminate.
Defined.

Lemma rating_out_of_range_witness :
  dispatch (DonationRatingViewSet.create (rt := plain_runtime) six_stars) redeemed_world
  = (mkResponse 400 (FieldErrors "rating" "is not a valid choice."), redeemed_world).
Proof.
  apply (rating_out_of_range (rt := plain_runtime) redeemed_world six_stars
           history_row 6).
  - reflexivity.
  - discriminate.
  - reflexivity.
  - repeat constructor. simpl. tauto.
  - left. reflexivity.
  - intros r [].
  - reflexivity.
  - right. lia.
  - discriminate.
Defined.

Lemma rating_list_confirmation_witness :
  exists (w' : World),
    dispatch (DonationRatingViewSet.create (rt := plain_runtime) listed_confirmation)
      redeemed_world
    = (mkResponse 500 (ErrorBody "Server Error (500)"), w')
    /\ length (donation_ratings (store w')) = 1%nat.
Proof.
  destruct (rating_list_confirmation (rt := plain_runtime) redeemed_world
              listed_confirmation history_row [JStr "water"] "session-a")
    as (t & w' & Hrun & Hrows & _).
  - reflexivity.
  - discriminate.
  - reflexivity.
  - discriminate.
  - simpl. lia.
  - repeat constructor. simpl. tauto.
  - left. reflexivity.
  - intros r [].
  - intros stars [= <-]. lia.
  - reflexivity.
  - discriminate.
  - reflexivity.
  - reflexivity.
  - exists w'. split; [exact Hrun|]. rewrite Hrows. reflexivity.
Defined.

(** ** From redemption to the cool-down, and from a request to its code *)

Section Lifecycle.
Import AnonymousLocationViewSet.
Context {rt : Runtime}.

Lemma first_by_last_seen_some (rows : list AnonymousLocation.t) (x : AnonymousLocation.t) :
  In x rows -> exists y, first_by_last_seen rows = Some y.
Proof.
  intros Hin. destruct (first_by_last_seen rows) as [y|] eqn:Hfirst; [eauto|].
  apply first_by_last_seen_none in Hfirst. subst rows. destruct Hin.
Qed.

(** What a successful scan has left in the table: the row its answer
    shows. *)
Lemma scan_answer_stored (w w1 : World) (user : option User.t) (qr : option string)
    (status message : string) (l : AnonymousLocation.t)
    (on_the_way : list DonatorOnTheWay.t) (allowed : option Instant) :
  dispatch (scan_qr_code user qr) w
  = (mkResponse 200 (DonationBody status l on_the_way message allowed), w1) ->
  In l (locations (store w1))
  /\ AnonymousLocation.donation_received l = true
  /\ AnonymousLocation.next_request_allowed_at l = allowed.
Proof.
  unfold scan_qr_code. destruct user as [user|]; [|exec; discriminate].
  destruct (negb _); [exec; discriminate|]. exec.
  destruct (get_unique _) as [e|location] eqn:Hget.
  { destruct e; exec; discriminate. }
  apply get_unique_filter in Hget as [Hin _].
  destruct (AnonymousLocation.donation_received location); [exec; discriminate|].
  exec.
  destruct (hd false (faults w)); exec; [discriminate|].
  destruct (locations_update _ (store w)) as [e|[[] s1]] eqn:Hupd; exec; [discriminate|].
  destruct (hd false (tail (faults w))); exec; [discriminate|].
  unfold donators_mark_arrived, history_insert. exec.
  destruct (hd false (tail (tail (faults w)))); exec; [discriminate|].
  destruct (hd false (tail (tail (tail (faults w))))); exec; [discriminate|].
  apply locations_update_inv in Hupd as [_ ->].
  intros [= <- <- <- <- <- <-].
  cbn [store locations set_locations set_donators_on_the_way].
  split; [|split; reflexivity].
  apply in_map_iff. exists location. split; [|exact Hin].
  cbn [AnonymousLocation.id AnonymousLocation.set_last_seen AnonymousLocation.set_donated].
  rewrite Z.eqb_refl. reflexivity.
Qed.

(** X11. Redemption starts the cool-down: after a scan has answered 200,
    a submission under the phone number of the redeemed request, made
    before the instant the answer names as [next_request_allowed_at], is
    answered 429 and changes nothing but the clock. *)
Theorem scan_starts_cool_down (w w1 : World) (user : option User.t)
    (qr : option string) (status message : string) (l : AnonymousLocation.t)
    (on_the_way : list DonatorOnTheWay.t) (allowed : Instant)
    (data : LocationPayload.t) :
  dispatch (scan_qr_code user qr) w
  = (mkResponse 200 (DonationBody status l on_the_way message (Some allowed)), w1) ->
  LocationPayload.phone data = Some (AnonymousLocation.phone l) ->
  clock w1 + Z.of_N (hd 0%N (delays w1)) < allowed ->
  exists body,
    dispatch (create data) w1 = (mkResponse 429 body, tick (tick w1)).
Proof.
  intros Hscan Hphone Hearly.
  apply scan_answer_stored in Hscan as (Hin & Hrecv & Hnext).
  unfold create. exec.
  assert (Hrestricted : restricted (LocationPayload.phone data)
                          (clock w1 + Z.of_N (hd 0%N (delays w1))) l = true).
  { rewrite Hphone. apply restricted_iff. split; [reflexivity|].
    split; [exact Hrecv|]. exists allowed. split; [exact Hnext | exact Hearly]. }
  destruct (first_by_last_seen_some
              (List.filter (restricted (LocationPayload.phone data)
                              (clock w1 + Z.of_N (hd 0%N (delays w1))))
                           (locations (store w1))) l) as [recent Hrecent].
  { apply filter_In. split; [exact Hin | exact Hrestricted]. }
  rewrite Hrecent. exec. eexists. reflexivity.
Qed.

(** What a 201 answer shows: the stored row, carrying a code drawn for
    it. *)
Lemma create_answer_stored (w w1 : World) (data : LocationPayload.t)
    (l : AnonymousLocation.t) (on_the_way : list DonatorOnTheWay.t) :
  dispatch (create data) w = (mkResponse 201 (LocationBody l on_the_way), w1) ->
  In l (locations (store w1))
  /\ exists hex, AnonymousLocation.qr_code l = Some ("LOC-" ++ hex)%string.
Proof.
  unfold create. exec.
  destruct (first_by_last_seen _) as [recent|]; exec; [discriminate|].
  assert (Hnew :
    dispatch
        (let! attrs := lift (AnonymousLocationSerializer.is_valid None false data) in
         let! seen := timezone_now in
         let! seen' := timezone_now in
         let! location := write (locations_insert
                            (AnonymousLocationSerializer.create_row attrs seen')) in
         let! hex := uuid4_hex12 in
         let! location := save (AnonymousLocation.set_qr_code
                                  (Some ("LOC-" ++ hex)%string) location) in
         let! (l, on_the_way) := serializer_data location in
         ret (mkResponse 201 (LocationBody l on_the_way))) (tick w)
      = (mkResponse 201 (LocationBody l on_the_way), w1) ->
    In l (locations (store w1))
    /\ exists hex, AnonymousLocation.qr_code l = Some ("LOC-" ++ hex)%string).
  { exec.
    destruct (AnonymousLocationSerializer.is_valid None false data) as [e|attrs]; exec.
    { destruct e; discriminate. }
    destruct (hd false (faults w)); exec; [discriminate|].
    destruct (locations_insert _ (store w)) as [e|[l0 s1]] eqn:Hins; exec.
    { destruct e; discriminate. }
    apply locations_insert_inv in Hins as [Hl Hs1].
    destruct (hd false (tail (faults w))); exec; [discriminate|].
    destruct (locations_update _ s1) as [e|[[] s2]] eqn:Hupd; exec.
    { destruct e; discriminate. }
    apply locations_update_inv in Hupd as [_ ->].
    intros [= <- <- <-]. cbn [store locations set_locations]. split.
    - apply in_map_iff. exists l0. split.
      + cbn [AnonymousLocation.id AnonymousLocation.set_last_seen
             AnonymousLocation.set_qr_code].
        rewrite Z.eqb_refl. reflexivity.
      + rewrite Hs1. apply in_or_app. right. left. reflexivity.
    - eexists. reflexivity. }
  destruct (Py.truthy_str _); exec; [|exact Hnew].
  destruct (first_by_last_seen _) as [instance|]; [|exact Hnew].
  clear Hnew.
  destruct (AnonymousLocationSerializer.is_valid _ _ _) as [e|attrs]; exec.
  { destruct e; discriminate. }
  destruct (hd false (faults w)); exec; [discriminate|].
  destruct (locations_update _ (store w)) as [e|[[] s1]]; exec;
    [destruct e|]; discriminate.
Qed.

(** A scan of the code of the one open request that carries it succeeds
    when the storage and the channel do. *)
Lemma scan_succeeds (w : World) (user : User.t) (qr : string)
    (location : AnonymousLocation.t) :
  qr_codes_unique (store w) ->
  In location (locations (store w)) ->
  AnonymousLocation.qr_code location = Some qr ->
  qr <> ""%string ->
  AnonymousLocation.is_active location = true ->
  AnonymousLocation.donation_received location = false ->
  fault_free w ->
  status_code (fst (dispatch (scan_qr_code (Some user) (Some qr)) w)) = 200.
Proof.
  intros Huniq Hin Hqr Hne Hact Hrecv Hff.
  assert (F1 : hd false (faults w) = false) by (revert Hff; no_fault).
  assert (F2 : hd false (tail (faults w)) = false) by (revert Hff; no_fault).
  assert (F3 : hd false (tail (tail (faults w))) = false) by (revert Hff; no_fault).
  assert (F4 : hd false (tail (tail (tail (faults w)))) = false)
    by (revert Hff; no_fault).
  assert (Hone : List.filter (has_qr_code qr) (locations (store w)) = [location]).
  { apply filter_at_most_one; auto. apply has_qr_code_iff; assumption. }
  assert (Hfil : List.filter
                   (fun l => has_qr_code qr l && AnonymousLocation.is_active l)
                   (locations (store w)) = [location]).
  { rewrite filter_and, Hone. simpl. rewrite Hact. reflexivity. }
  unfold scan_qr_code, AnonymousLocationSerializer.text_given.
  rewrite (truthy_str_ne qr Hne). cbn [negb].
  exec. rewrite Hfil. cbn [get_unique]. rewrite Hrecv, F1. exec.
  unfold locations_update at 1. cbn [store tick pop_fault].
  erewrite no_conflict_same_row by (try exact Hone; try reflexivity; exact Hqr).
  exec. rewrite F2. exec.
  unfold donators_mark_arrived, history_insert. exec.
  rewrite F3. exec. rewrite F4. exec. reflexivity.
Qed.

(** X12. The code of a new request can be redeemed: when a submission has
    been answered 201 on a consistent database with a request that is
    active and has not received a donation, a scan of the code the answer
    shows, by any authenticated caller, succeeds as long as the storage
    does. *)
Theorem created_code_redeems (w w1 : World) (data : LocationPayload.t)
    (l : AnonymousLocation.t) (on_the_way : list DonatorOnTheWay.t)
    (user : User.t) :
  consistent (store w) ->
  dispatch (create data) w = (mkResponse 201 (LocationBody l on_the_way), w1) ->
  AnonymousLocation.is_active l = true ->
  AnonymousLocation.donation_received l = false ->
  fault_free w1 ->
  exists qr,
    AnonymousLocation.qr_code l = Some qr
    /\ status_code (fst (dispatch (scan_qr_code (Some user) (Some qr)) w1)) = 200.
Proof.
  intros Hcons Hrun Hact Hrecv Hff.
  assert (Hafter : consistent (store w1)).
  { replace w1 with (snd (dispatch (create data) w)) by (rewrite Hrun; reflexivity).
    eapply Writes_consistent; [apply create_writes | exact Hcons]. }
  apply create_answer_stored in Hrun as (Hin & hex & Hqr).
  exists ("LOC-" ++ hex)%string. split; [exact Hqr|].
  apply (scan_succeeds w1 user _ l); auto; first [apply Hafter | discriminate].
Qed.

End Lifecycle.

Lemma scan_starts_cool_down_witness :
  exists body,
    dispatch (AnonymousLocationViewSet.create (rt := plain_runtime)
                (submission "session-b" no_needs))
      (snd (dispatch (AnonymousLocationViewSet.scan_qr_code (Some donor)
                        (Some "LOC-0123456789AB"%string)) open_world))
    = (mkResponse 429 body,
       tick (tick (snd (dispatch (AnonymousLocationViewSet.scan_qr_code (Some donor)
                                    (Some "LOC-0123456789AB"%string)) open_world)))).
Proof.
  set (p := dispatch (AnonymousLocationViewSet.scan_qr_code (Some donor)
                        (Some "LOC-0123456789AB"%string)) open_world).
  assert (Hrun : dispatch (AnonymousLocationViewSet.scan_qr_code (Some donor)
                             (Some "LOC-0123456789AB"%string)) open_world = p)
    by reflexivity.
  vm_compute in p. subst p. cbn [snd].
  eapply (scan_starts_cool_down (rt := plain_runtime) _ _ _ _ _ _ _ _ _ _ Hrun).
  - reflexivity.
  - vm_compute. reflexivity.
Defined.

Lemma created_code_redeems_witness :
  exists (l : AnonymousLocation.t) (on_the_way : list DonatorOnTheWay.t)
         (w1 : World) (qr : string),
    dispatch (AnonymousLocationViewSet.create (rt := plain_runtime)
                (submission "session-b" no_needs)) submitting_world
    = (mkResponse 201 (LocationBody l on_the_way), w1)
    /\ AnonymousLocation.qr_code l = Some qr
    /\ status_code (fst (dispatch (AnonymousLocationViewSet.scan_qr_code (Some donor)
                                     (Some qr)) w1)) = 200.
Proof.
  set (p := dispatch (AnonymousLocationViewSet.create (rt := plain_runtime)
                        (submission "session-b" no_needs)) submitting_world).
  assert (Hrun : dispatch (AnonymousLocationViewSet.create (rt := plain_runtime)
                             (submission "session-b" no_needs)) submitting_world = p)
    by reflexivity.
  vm_compute in p. subst p.
  destruct (created_code_redeems (rt := plain_runtime) submitting_world _ _ _ _ donor
              open_store_consistent Hrun eq_refl eq_refl eq_refl) as (qr & Hqr & Hscan).
  eexists _, _, _, qr. split; [reflexivity|]. split; [exact Hqr | exact Hscan].
Defined.

(** ** What [AnonymousLocationSerializer.validate] lets through *)

Section NewSubmissions.
Import AnonymousLocationSerializer.
Context {rt : Runtime}.

(** X13. What [validate] accepts for a new request has a first name, a
    last name and a photo, a latitude in [-90, 90] and a longitude in
    [-180, 180] (in micro-degrees). *)
Theorem validate_new_submission (attrs validated : LocationPayload.t) :
  validate None attrs = inr validated ->
  text_given (LocationPayload.first_name attrs) = true
  /\ text_given (LocationPayload.last_name attrs) = true
  /\ is_Some (LocationPayload.photo attrs)
  /\ (forall lat, LocationPayload.latitude attrs = Some lat ->
                  -90000000 <= lat <= 90000000)
  /\ (forall lon, LocationPayload.longitude attrs = Some lon ->
                  -180000000 <= lon <= 180000000).
Proof.
  intros Hvalid.
  destruct (validate_checks_ranges None attrs validated Hvalid) as [Hlat Hlon].
  revert Hvalid. unfold validate. cbn [negb andb].
  replace (bool_decide (is_Some (@None AnonymousLocation.t))) with false
    by (symmetry; apply bool_decide_eq_false; intros [x Hx]; discriminate).
  cbn [negb andb].
  destruct (text_given (LocationPayload.first_name attrs)); [|discriminate].
  destruct (text_given (LocationPayload.last_name attrs)); [|discriminate].
  cbn [negb]. rewrite andb_true_r.
  destruct (bool_decide (is_Some (LocationPayload.photo attrs))) eqn:Hphoto;
    [|discriminate].
  apply bool_decide_eq_true in Hphoto. intros _. auto.
Qed.

End NewSubmissions.

Lemma validate_new_submission_witness :
  is_Some (LocationPayload.photo (submission "session-b" no_needs))
  /\ AnonymousLocationSerializer.validate (rt := plain_runtime) None bare_submission
     = inl (ValidationError "photo" "Photo is required to verify your location").
Proof.
  split.
  - apply (validate_new_submission (rt := plain_runtime)
             (submission "session-b" no_needs) (submission "session-b" no_needs)).
    vm_compute. reflexivity.
  - vm_compute. reflexivity.
Defined.

(** ** The ledger as its donator sees it ([DonationHistoryViewSet]) *)

Section Ordering.
Context {A : Type} (key : A -> Z).

Lemma insert_desc_In (x y : A) (l : list A) :
  In y (insert_desc key x l) <-> y = x \/ In y l.
Proof.
  induction l as [|z l IH]; simpl.
  - split; [intros [<-|[]]; auto | intros [->|[]]; auto].
  - destruct (key z <=? key x); simpl; [split; intros [<-|H]; auto|].
    rewrite IH. tauto.
Qed.

Lemma order_by_desc_In (y : A) (l : list A) :
  In y (order_by_desc key l) <-> In y l.
Proof.
  induction l as [|x l IH]; simpl; [reflexivity|].
  rewrite insert_desc_In, IH. split; intros [->|H]; auto.
Qed.

Lemma insert_desc_length (x : A) (l : list A) :
  length (insert_desc key x l) = S (length l).
Proof.
  induction l as [|z l IH]; simpl; [reflexivity|].
  destruct (key z <=? key x); simpl; [reflexivity|]. rewrite IH. reflexivity.
Qed.

Lemma order_by_desc_length (l : list A) :
  length (order_by_desc key l) = length l.
Proof.
  induction l as [|x l IH]; simpl; [reflexivity|].
  rewrite insert_desc_length, IH. reflexivity.
Qed.

Lemma descending_cons (x : A) (l : list A) :
  descending key l -> (forall y, In y l -> key y <= key x) -> descending key (x :: l).
Proof.
  intros Hl Hx l1 a l2 b l3 Heq. destruct l1 as [|c l1]; simpl in Heq.
  - injection Heq as <- ->. apply Hx. apply in_or_app. right. left. reflexivity.
  - injection Heq as _ ->. eapply Hl. reflexivity.
Qed.

Lemma descending_tail (x : A) (l : list A) :
  descending key (x :: l) -> descending key l /\ forall y, In y l -> key y <= key x.
Proof.
  intros H. split.
  - intros l1 a l2 b l3 ->. apply (H (x :: l1) a l2 b l3). reflexivity.
  - intros y Hy. apply in_split in Hy as (l2 & l3 & ->).
    apply (H [] x l2 y l3). reflexivity.
Qed.

Lemma insert_desc_descending (x : A) (l : list A) :
  descending key l -> descending key (insert_desc key x l).
Proof.
  induction l as [|z l IH]; simpl; intros Hl.
  - intros l1 a l2 b l3 Heq. destruct l1 as [|? [|? ?]]; destruct l2; discriminate.
  - destruct (Z.leb_spec (key z) (key x)) as [Hle|Hgt].
    + apply descending_cons; [exact Hl|].
      apply descending_tail in Hl as [_ Hz].
      intros y [<-|Hy]; [exact Hle|]. specialize (Hz y Hy). lia.
    + apply descending_tail in Hl as [Hl Hz].
      apply descending_cons; [apply IH, Hl|].
      intros y Hy. apply insert_desc_In in Hy as [->|Hy]; [lia | apply Hz, Hy].
Qed.

Lemma order_by_desc_descending (l : list A) : descending key (order_by_desc key l).
Proof.
  induction l as [|x l IH]; simpl.
  - intros l1 a l2 b l3 Heq. destruct l1; discriminate.
  - apply insert_desc_descending, IH.
Qed.

End Ordering.

Section Ledger.
Import DonationHistoryViewSet.

(** X14. [my_donations] answers 403 to a caller whose role is not
    [donator]; to a donator it lists the ledger rows of that donator and
    no other row, each as often as the ledger holds it, newest first; it
    changes nothing. *)
Theorem my_donations_lists (w : World) (user : User.t) :
  (User.role user <> "donator"%string ->
   dispatch_page (my_donations (Some user)) w
   = (mkAnswer 403 (PageError "Only donators can view their donation history"), w))
  /\ (User.role user = "donator"%string ->
      exists rows,
        dispatch_page (my_donations (Some user)) w = (mkAnswer 200 (HistoryPage rows), w)
        /\ (forall h, In h rows
                      <-> In h (donation_history (store w))
                          /\ DonationHistory.donator h = User.id user)
        /\ length rows
           = length (List.filter (fun h => DonationHistory.donator h =? User.id user)
                       (donation_history (store w)))
        /\ descending DonationHistory.donated_at rows).
Proof.
  unfold my_donations, dispatch_page. split.
  - intros Hrole. apply String.eqb_neq in Hrole. rewrite Hrole. reflexivity.
  - intros Hrole. apply String.eqb_eq in Hrole. rewrite Hrole. cbn [negb].
    eexists. split; [reflexivity|]. unfold donations_of. split; [|split].
    + intros h. rewrite order_by_desc_In, filter_In, Z.eqb_eq. reflexivity.
    + apply order_by_desc_length.
    + apply order_by_desc_descending.
Qed.

(** What the loop of [donator_acknowledgments] returns when it returns. *)
Lemma acknowledge_entries (ratings : list DonationRating.t)
    (donations : list DonationHistory.t) :
  forall (rating : option DonationRating.t) (entries : list Acknowledgment),
    acknowledge ratings rating donations = inr entries ->
    Forall2 (fun d a =>
               donation_id a = DonationHistory.id d
               /\ has_confirmation a = true
               /\ ((forall r, In r ratings ->
                              DonationRating.donation_history r <> DonationHistory.id d) ->
                   feedback_rating a = None /\ feedback_comment a = ""%string
                   /\ feedback_rated_at a = None))
            donations entries.
Proof.
  induction donations as [|d rest IH]; intros rating entries; simpl.
  - intros [= <-]. constructor.
  - destruct (get_unique _) as [e|r] eqn:Hget.
    + cbn [received]. destruct rating as [bound|]; [|discriminate].
      destruct (acknowledge ratings (Some bound) rest) as [e'|entries'] eqn:Hrest;
        [discriminate|].
      intros [= <-]. constructor; [|apply (IH _ _ Hrest)].
      cbn. auto.
    + destruct (received _) as [e|supplies]; [discriminate|].
      destruct (acknowledge ratings (Some r) rest) as [e'|entries'] eqn:Hrest;
        [discriminate|].
      intros [= <-]. constructor; [|apply (IH _ _ Hrest)].
      cbn. split; [reflexivity|]. split; [reflexivity|].
      intros Hnone. apply get_unique_filter in Hget as [Hin Heq].
      apply Z.eqb_eq in Heq. contradiction (Hnone r Hin Heq).
Qed.

Lemma acknowledge_unbound (ratings : list DonationRating.t)
    (d : DonationHistory.t) (rest : list DonationHistory.t) :
  (forall r, In r ratings ->
             DonationRating.donation_history r <> DonationHistory.id d) ->
  acknowledge ratings None (d :: rest) = inl (UnboundLocalError "rating").
Proof.
  intros Hnone. simpl. rewrite filter_none; [reflexivity|].
  intros r Hr. apply Z.eqb_neq, Hnone, Hr.
Qed.

(** X15. [donator_acknowledgments] fails for a donator whose newest
    donation has no rating: the flag [has_confirmation] reads a variable
    that only a found rating assigns, so the answer is 500.  In particular
    a donator with donations of which none has been rated is answered 500. *)
Theorem acknowledgments_unrated (w : World) (user : User.t)
    (newest : DonationHistory.t) (rest : list DonationHistory.t) :
  donations_of user (store w) = newest :: rest ->
  (forall r, In r (donation_ratings (store w)) ->
             DonationRating.donation_history r <> DonationHistory.id newest) ->
  dispatch_page (donator_acknowledgments (Some user)) w = (server_error_page, w).
Proof.
  intros Hrows Hnone. unfold donator_acknowledgments, dispatch_page. exec.
  rewrite Hrows, (acknowledge_unbound _ newest rest Hnone). reflexivity.
Qed.

(** X16. When [donator_acknowledgments] answers 200, the answer counts the
    donations of the caller and has one entry for each, in order; every
    entry says [has_confirmation], also the entry of a donation that has no
    rating, whose feedback is empty; and the newest donation, if there is
    one, has a rating. *)
Theorem acknowledgments_answer (w w' : World) (user : User.t) (total : Z)
    (entries : list Acknowledgment) :
  dispatch_page (donator_acknowledgments (Some user)) w
  = (mkAnswer 200 (AcknowledgmentPage total entries), w') ->
  w' = w
  /\ total = Z.of_nat (length (donations_of user (store w)))
  /\ Forall2 (fun d a =>
                donation_id a = DonationHistory.id d
                /\ has_confirmation a = true
                /\ ((forall r, In r (donation_ratings (store w)) ->
                               DonationRating.donation_history r
                               <> DonationHistory.id d) ->
                    feedback_rating a = None /\ feedback_comment a = ""%string
                    /\ feedback_rated_at a = None))
             (donations_of user (store w)) entries
  /\ (forall newest rest,
        donations_of user (store w) = newest :: rest ->
        exists r, In r (donation_ratings (store w))
                  /\ DonationRating.donation_history r = DonationHistory.id newest).
Proof.
  unfold donator_acknowledgments, dispatch_page. exec.
  destruct (acknowledge _ None _) as [e|entries'] eqn:Hloop; exec; [discriminate|].
  intros [= <- <- <-]. split; [reflexivity|]. split; [reflexivity|].
  split; [apply (acknowledge_entries _ _ _ _ Hloop)|].
  intros newest rest Hrows. rewrite Hrows in Hloop. simpl in Hloop.
  destruct (get_unique _) as [e|r] eqn:Hget.
  - cbn [received] in Hloop. discriminate.
  - apply get_unique_filter in Hget as [Hin Heq]. apply Z.eqb_eq in Heq. eauto.
Qed.

End Ledger.

Lemma my_donations_lists_witness :
  exists rows,
    dispatch_page (DonationHistoryViewSet.my_donations (Some donor)) redeemed_world
    = (mkAnswer 200 (HistoryPage rows), redeemed_world)
    /\ length rows = 1%nat.
Proof.
  destruct (proj2 (my_donations_lists redeemed_world donor) eq_refl)
    as (rows & Hrun & _ & Hlen & _).
  exists rows. split; [exact Hrun | exact Hlen].
Defined.

Lemma acknowledgments_unrated_witness :
  dispatch_page (DonationHistoryViewSet.donator_acknowledgments (Some donor))
    redeemed_world
  = (server_error_page, redeemed_world).
Proof.
  apply (acknowledgments_unrated redeemed_world donor history_row []).
  - reflexivity.
  - intros r [].
Defined.

Lemma acknowledgments_answer_witness :
  exists entries,
    dispatch_page (DonationHistoryViewSet.donator_acknowledgments (Some donor))
      acknowledged_world
    = (mkAnswer 200 (AcknowledgmentPage 2 entries), acknowledged_world)
    /\ Forall (fun a => has_confirmation a = true) entries
    /\ length entries = 2%nat.
Proof.
  set (p := dispatch_page (DonationHistoryViewSet.donator_acknowledgments (Some donor))
              acknowledged_world).
  assert (Hrun : dispatch_page
                   (DonationHistoryViewSet.donator_acknowledgments (Some donor))
                   acknowledged_world = p) by reflexivity.
  vm_compute in p. subst p.
  destruct (acknowledgments_answer _ _ _ _ _ Hrun) as (_ & _ & Hentries & _).
  eexists. split; [reflexivity|]. split.
  - clear Hrun. revert Hentries.
    generalize (DonationHistoryViewSet.donations_of donor (store acknowledged_world)).
    intros donations Hentries.
    induction Hentries as [|d a ds es [_ [Hflag _]] _ IH]; constructor; assumption.
  - reflexivity.
Defined.

(** ** The public list of requests ([active]) *)

Section Listing.
Context {rt : Runtime}.

(** What [active] lists: the active requests seen in the last 24 hours,
    the one seen last first. *)
Lemma active_rows (w : World) :
  exists rows,
    dispatch_page active w = (mkAnswer 200 (LocationPage rows), tick w)
    /\ (forall l, In l (map fst rows)
                  <-> In l (locations (store w))
                      /\ AnonymousLocation.is_active l = true
                      /\ clock (tick w) - hours 24 <= AnonymousLocation.last_seen l)
    /\ descending AnonymousLocation.last_seen (map fst rows).
Proof.
  unfold active, dispatch_page. exec. eexists. split; [reflexivity|].
  rewrite map_map. cbn [fst]. rewrite map_id. split.
  - intros l. rewrite order_by_desc_In, filter_In, andb_true_iff, Z.leb_le.
    reflexivity.
  - apply order_by_desc_descending.
Qed.

(** X17. A redeemed request never comes back to the public list: once a
    scan of a code has succeeded on a consistent database, whatever
    requests follow, [active] lists no request that carries the code. *)
Theorem redeemed_never_listed (w : World) (user : User.t) (qr : string)
    (ops : list Op) :
  consistent (store w) ->
  status_code (fst (run (ScanQrCode (Some user) (Some qr)) w)) = 200 ->
  let w2 := run_all ops (snd (run (ScanQrCode (Some user) (Some qr)) w)) in
  exists rows,
    dispatch_page active w2 = (mkAnswer 200 (LocationPage rows), tick w2)
    /\ forall l, In l (map fst rows) -> AnonymousLocation.qr_code l <> Some qr.
Proof.
  intros Hcons Hok w2.
  assert (Hret : retired qr (store w2)).
  { apply (Writes_retired qr (store (snd (run (ScanQrCode (Some user) (Some qr)) w)))).
    - apply run_all_writes.
    - eapply Writes_consistent; [apply run_writes | exact Hcons].
    - apply scan_success_retires; [apply Hcons | exact Hok]. }
  destruct (active_rows w2) as (rows & Hrun & Hrows & _).
  exists rows. split; [exact Hrun|].
  intros l Hl Hq. apply Hrows in Hl as (Hin & Hact & _).
  destruct Hret as [_ Hoff].
  rewrite (Hoff l Hin) in Hact; [discriminate|].
  apply has_qr_code_iff. exact Hq.
Qed.

End Listing.

Lemma redeemed_never_listed_witness :
  exists rows,
    dispatch_page active
      (run_all (rt := plain_runtime) [SubmitRequest (submission "session-b" no_needs)]
         (snd (run (rt := plain_runtime)
                 (ScanQrCode (Some donor) (Some "LOC-0123456789AB"%string)) open_world)))
    = (mkAnswer 200 (LocationPage rows),
       tick (run_all (rt := plain_runtime)
               [SubmitRequest (submission "session-b" no_needs)]
               (snd (run (rt := plain_runtime)
                       (ScanQrCode (Some donor) (Some "LOC-0123456789AB"%string))
                       open_world))))
    /\ forall l, In l (map fst rows)
                 -> AnonymousLocation.qr_code l <> Some "LOC-0123456789AB"%string.
Proof.
  apply (redeemed_never_listed (rt := plain_runtime) open_world donor "LOC-0123456789AB"
           [SubmitRequest (submission "session-b" no_needs)] open_store_consistent).
  vm_compute. reflexivity.
Defined.

(** ** The relief serializers *)

Section ReliefSerializers.
Context {rt : Runtime}.

Lemma latitude_accepted (lat : option Z) :
  latitude_refused lat = false ->
  forall v, lat = Some v -> -90000000 <= v <= 90000000.
Proof. unfold latitude_refused. intros H v ->. lia. Qed.

Lemma longitude_accepted (lon : option Z) :
  longitude_refused lon = false ->
  forall v, lon = Some v -> -180000000 <= v <= 180000000.
Proof. unfold longitude_refused. intros H v ->. lia. Qed.

(** X18. [DonationSerializer.validate] lets through only what carries a
    quantity greater than zero: data without the key [quantity], as a
    partial update sends it, is refused.  What it accepts has its four
    coordinates within range, and comes back with the text cleaned and
    the numbers as they were. *)
Theorem donation_validate_accepts (attrs : DonationSerializer.Attrs) :
  (DonationSerializer.quantity attrs = None ->
   exists field message,
     DonationSerializer.validate attrs = inl (ValidationError field message))
  /\ forall validated,
       DonationSerializer.validate attrs = inr validated ->
       validated = DonationSerializer.sanitize attrs
       /\ (exists q, DonationSerializer.quantity attrs = Some q /\ 0 < q)
       /\ (forall v, DonationSerializer.pickup_latitude attrs = Some v ->
                     -90000000 <= v <= 90000000)
       /\ (forall v, DonationSerializer.pickup_longitude attrs = Some v ->
                     -180000000 <= v <= 180000000)
       /\ (forall v, DonationSerializer.delivery_latitude attrs = Some v ->
                     -90000000 <= v <= 90000000)
       /\ (forall v, DonationSerializer.delivery_longitude attrs = Some v ->
                     -180000000 <= v <= 180000000).
Proof.
  unfold DonationSerializer.validate.
  cbn [DonationSerializer.sanitize DonationSerializer.pickup_latitude
       DonationSerializer.pickup_longitude DonationSerializer.delivery_latitude
       DonationSerializer.delivery_longitude DonationSerializer.quantity].
  split.
  - intros ->. cbn [default from_option id]. change (0 <=? 0) with true.
    repeat match goal with
           | |- context [if ?c then _ else _] => destruct c; [eauto|]
           end.
    eauto.
  - intros validated.
    destruct (latitude_refused _) eqn:H1; [discriminate|].
    destruct (longitude_refused _) eqn:H2; [discriminate|].
    destruct (latitude_refused (DonationSerializer.delivery_latitude attrs)) eqn:H3;
      [discriminate|].
    destruct (longitude_refused (DonationSerializer.delivery_longitude attrs)) eqn:H4;
      [discriminate|].
    destruct (Z.leb_spec (default 0 (DonationSerializer.quantity attrs)) 0) as [|Hq];
      [discriminate|].
    intros [= <-]. split; [reflexivity|]. split.
    + destruct (DonationSerializer.quantity attrs) as [q|]; cbn in Hq; [eauto|lia].
    + split; [|split; [|split]]; intros v Hv;
        first [eapply latitude_accepted; [|exact Hv]; assumption
              | eapply longitude_accepted; [|exact Hv]; assumption].
Qed.

(** X19. [EmergencyRequestSerializer.validate] lets through only what
    carries [quantity_needed] and [people_affected], both greater than
    zero: a request that leaves [people_affected] out is refused, although
    the column has a default.  What it accepts has its coordinates within
    range. *)
Theorem emergency_validate_accepts (attrs : EmergencyRequestSerializer.Attrs) :
  (EmergencyRequestSerializer.people_affected attrs = None
   \/ EmergencyRequestSerializer.quantity_needed attrs = None ->
   exists field message,
     EmergencyRequestSerializer.validate attrs = inl (ValidationError field message))
  /\ forall validated,
       EmergencyRequestSerializer.validate attrs = inr validated ->
       validated = EmergencyRequestSerializer.sanitize attrs
       /\ (exists q, EmergencyRequestSerializer.quantity_needed attrs = Some q /\ 0 < q)
       /\ (exists p, EmergencyRequestSerializer.people_affected attrs = Some p /\ 0 < p)
       /\ (forall v, EmergencyRequestSerializer.latitude attrs = Some v ->
                     -90000000 <= v <= 90000000)
       /\ (forall v, EmergencyRequestSerializer.longitude attrs = Some v ->
                     -180000000 <= v <= 180000000).
Proof.
  unfold EmergencyRequestSerializer.validate.
  cbn [EmergencyRequestSerializer.sanitize EmergencyRequestSerializer.latitude
       EmergencyRequestSerializer.longitude EmergencyRequestSerializer.quantity_needed
       EmergencyRequestSerializer.people_affected].
  split.
  - intros [-> | ->]; cbn [default from_option id]; change (0 <=? 0) with true;
      repeat match goal with
             | |- context [if ?c then _ else _] => destruct c; [eauto|]
             end; eauto.
  - intros validated.
    destruct (latitude_refused _) eqn:H1; [discriminate|].
    destruct (longitude_refused _) eqn:H2; [discriminate|].
    destruct (Z.leb_spec (default 0 (EmergencyRequestSerializer.quantity_needed attrs)) 0)
      as [|Hq]; [discriminate|].
    destruct (Z.leb_spec (default 0 (EmergencyRequestSerializer.people_affected attrs)) 0)
      as [|Hp]; [discriminate|].
    intros [= <-]. split; [reflexivity|]. split; [|split].
    + destruct (EmergencyRequestSerializer.quantity_needed attrs) as [q|]; cbn in Hq;
        [eauto|lia].
    + destruct (EmergencyRequestSerializer.people_affected attrs) as [p|]; cbn in Hp;
        [eauto|lia].
    + split; intros v Hv;
        first [eapply latitude_accepted; [|exact Hv]; assumption
              | eapply longitude_accepted; [|exact Hv]; assumption].
Qed.

End ReliefSerializers.

Lemma donation_validate_accepts_witness :
  exists field message,
    DonationSerializer.validate (rt := plain_runtime) notes_only
    = inl (ValidationError field message).
Proof.
  apply (donation_validate_accepts (rt := plain_runtime) notes_only). reflexivity.
Defined.

Lemma emergency_validate_accepts_witness :
  exists field message,
    EmergencyRequestSerializer.validate (rt := plain_runtime) plain_request
    = inl (ValidationError field message).
Proof.
  apply (emergency_validate_accepts (rt := plain_runtime) plain_request).
  left. reflexivity.
Defined.

(** ** Accounts, shared locations and relief donations *)

Section ReliefHandlers.
Context {be : Backend} {rt : Runtime}.




(** Demoting the current rows of one user leaves the rows of the others
    as they are and none of the user's current. *)
Lemma demote_spares (uid : Z) (rows : list Location.t) :
  List.filter (fun l => negb (Location.user l =? uid))
    (map (fun l => if (Location.user l =? uid) && Location.is_current l
                   then Location.set_is_current false l else l) rows)
  = List.filter (fun l => negb (Location.user l =? uid)) rows.
Proof.
  induction rows as [|l0 rows IH]; [reflexivity|].
  cbn [map List.filter].
  destruct (Z.eqb_spec (Location.user l0) uid) as [Heq|Hne].
  - cbn [andb]. destruct (Location.is_current l0);
      cbn [Location.user Location.set_is_current];
      rewrite (proj2 (Z.eqb_eq _ _) Heq); cbn [negb]; exact IH.
  - cbn [andb]. rewrite (proj2 (Z.eqb_neq _ _) Hne). cbn [negb].
    rewrite IH. reflexivity.
Qed.

Lemma demote_none_current (uid : Z) (rows : list Location.t) :
  List.filter (fun l => (Location.user l =? uid) && Location.is_current l)
    (map (fun l => if (Location.user l =? uid) && Location.is_current l
                   then Location.set_is_current false l else l) rows)
  = [].
Proof.
  apply filter_none. intros l Hl. apply in_map_iff in Hl as (l0 & <- & _).
  destruct ((Location.user l0 =? uid) && Location.is_current l0) eqn:Hcur.
  - cbn [Location.user Location.is_current Location.set_is_current].
    apply andb_false_r.
  - exact Hcur.
Qed.

(** The field declarations and [validate] of a location fail with a
    validation error only. *)
Lemma location_is_valid_error (data : LocationSerializer.Attrs) (e : Exc) :
  (let? _ := AnonymousLocationSerializer.check_coordinate "latitude" true
               (LocationSerializer.latitude data) in
   let? _ := AnonymousLocationSerializer.check_coordinate "longitude" true
               (LocationSerializer.longitude data) in
   LocationSerializer.validate data) = inl e ->
  exists field message, e = ValidationError field message.
Proof.
  destruct (AnonymousLocationSerializer.check_coordinate "latitude" _ _)
    as [e1|[]] eqn:Hlat; cbn.
  { intros [= <-]. eapply check_coordinate_error. exact Hlat. }
  destruct (AnonymousLocationSerializer.check_coordinate "longitude" _ _)
    as [e2|[]] eqn:Hlon; cbn.
  { intros [= <-]. eapply check_coordinate_error. exact Hlon. }
  unfold LocationSerializer.validate.
  destruct (latitude_refused _); [intros [= <-]; eauto|].
  destruct (longitude_refused _); [intros [= <-]; eauto|]. discriminate.
Qed.

(** X21. After [LocationViewSet.create] has answered 201 the caller has
    exactly one current location, the row of the answer, which was added
    behind the caller's earlier rows, none of them current any more.  A
    refusal with 400 changes nothing, and no answer changes a row of
    another user.  The two writes of [perform_create] are not one
    transaction: when the second fails the answer is 500 and the caller is
    left without a current location; and a position whose accuracy is an
    infinity is stored as the current one although the answer, which
    cannot be rendered, is 500. *)
Theorem location_create_current (faults : list bool) (d d' : Desk)
    (request_user : Account.t) (data : LocationSerializer.Attrs) (r : Reply) :
  location_create faults (Some request_user) data d = (r, d') ->
  let mine := fun l => Location.user l =? Account.id request_user in
  let demoted :=
    map (fun l => if mine l && Location.is_current l
                  then Location.set_is_current false l else l) (user_locations d) in
  (reply_status r = 201 ->
   exists location,
     reply_body r = UserLocationBody location
     /\ Location.user location = Account.id request_user
     /\ List.filter (fun l => mine l && Location.is_current l) (user_locations d')
        = [location]
     /\ List.filter (fun l => negb (mine l)) (user_locations d')
        = List.filter (fun l => negb (mine l)) (user_locations d)
     /\ length (user_locations d') = S (length (user_locations d))
     /\ user_locations d' = demoted ++ [location])
  /\ (reply_status r = 400 -> d' = d)
  /\ List.filter (fun l => negb (mine l)) (user_locations d')
     = List.filter (fun l => negb (mine l)) (user_locations d)
  /\ (reply_status r <> 400 -> hd false faults = false ->
      (hd false (tail faults) = true ->
       reply_status r = 500
       /\ user_locations d' = demoted
       /\ List.filter (fun l => mine l && Location.is_current l) (user_locations d')
          = [])
      /\ (hd false (tail faults) = false ->
          renders (LocationSerializer.accuracy data) = false ->
          reply_status r = 500
          /\ exists location,
               user_locations d' = demoted ++ [location]
               /\ Location.user location = Account.id request_user
               /\ Location.is_current location = true
               /\ Location.accuracy location = LocationSerializer.accuracy data)).
Proof.
  intros Hrun mine demoted. revert Hrun. unfold location_create.
  destruct (and_then _ _) as [e|attrs] eqn:Hvalid.
  { destruct (location_is_valid_error _ _ Hvalid) as (field & message & ->).
    intros [= <- <-]. split; [discriminate|]. split; [reflexivity|].
    split; [reflexivity|]. intros Hbad. contradiction Hbad. reflexivity. }
  assert (Hattrs : attrs = data).
  { revert Hvalid.
    destruct (AnonymousLocationSerializer.check_coordinate "latitude" _ _) as [?|[]];
      cbn; [discriminate|].
    destruct (AnonymousLocationSerializer.check_coordinate "longitude" _ _) as [?|[]];
      cbn; [discriminate|].
    unfold LocationSerializer.validate.
    destruct (latitude_refused _); [discriminate|].
    destruct (longitude_refused _); [discriminate|]. intros [= <-]. reflexivity. }
  subst attrs. clear Hvalid.
  destruct (hd false faults) eqn:Hfirst.
  { intros [= <- <-]. split; [discriminate|]. split; [reflexivity|].
    split; [reflexivity|]. intros _ Hno. discriminate. }
  cbn [desk_now set_user_locations user_locations next_user_location_id].
  destruct (hd false (tail faults)) eqn:Hsecond.
  { intros [= <- <-]. cbn [user_locations].
    split; [discriminate|]. split; [discriminate|].
    split; [apply demote_spares|]. intros _ _. split; [|discriminate].
    intros _. split; [reflexivity|]. split; [reflexivity|].
    apply demote_none_current. }
  cbn [Location.accuracy].
  assert (Hrows : forall location,
            Location.user location = Account.id request_user ->
            Location.is_current location = true ->
            List.filter (fun l => mine l && Location.is_current l)
              (demoted ++ [location]) = [location]
            /\ List.filter (fun l => negb (mine l)) (demoted ++ [location])
               = List.filter (fun l => negb (mine l)) (user_locations d)).
  { intros location Huser Hcur. rewrite !List.filter_app. cbn [List.filter].
    unfold mine at 2 4. rewrite Huser, Z.eqb_refl, Hcur. cbn [andb negb].
    unfold demoted, mine. rewrite demote_none_current, demote_spares, app_nil_r.
    split; reflexivity. }
  destruct (renders (LocationSerializer.accuracy data)) eqn:Hrenders.
  - intros [= <- <-]. unfold set_user_locations. cbn [user_locations reply_status reply_body].
    split.
    { intros _. eexists. split; [reflexivity|]. split; [reflexivity|].
      split; [apply Hrows; reflexivity|]. split; [apply Hrows; reflexivity|].
      split; [|reflexivity].
      rewrite length_app, length_map. cbn [length]. lia. }
    split; [discriminate|]. split; [apply Hrows; reflexivity|].
    intros _ _. split; [discriminate|]. intros _ Hno. discriminate.
  - intros [= <- <-]. unfold set_user_locations. cbn [user_locations reply_status reply_body].
    split; [discriminate|]. split; [discriminate|].
    split; [apply Hrows; reflexivity|].
    intros _ _. split; [discriminate|]. intros _ _. split; [reflexivity|].
    eexists. split; [reflexivity|]. repeat split.
Qed.

Lemma get_donation_found (pk : Z) (d : Desk) (donation : Donation.t) :
  get_donation pk d = inr donation ->
  In donation (donations d) /\ Donation.id donation = pk.
Proof.
  unfold get_donation. destruct (get_unique _) as [e|x] eqn:Hget.
  - destruct e; discriminate.
  - intros [= <-]. apply get_unique_filter in Hget as [Hin Heq].
    apply Z.eqb_eq in Heq. auto.
Qed.

(** X22. When [update_status] answers 200 the caller is the donator or
    the recipient of the donation, the donation carries the status that
    was sent, whatever text it is, and exactly one tracking entry with
    that status, that caller and the notes that were sent was appended;
    [delivered_at] is stamped when the status is [delivered] and is
    otherwise left as it was.  No other answer adds a tracking entry, and
    the answers 400, 403 and 404 change nothing.  The donation is saved
    before the entry is inserted, outside any transaction: when the notes
    are null, which the column refuses, or the insert fails, the answer
    is 500 and the donation keeps its new status without a tracking entry
    for it. *)
Theorem update_status_tracks (faults : list bool) (d d' : Desk)
    (request_user : Account.t) (pk : Z) (status : option string)
    (notes : option Json) (r : Reply) :
  update_status faults (Some request_user) pk status notes d = (r, d') ->
  (reply_status r = 200 ->
   exists old donation entry,
     In old (donations d) /\ Donation.id old = pk
     /\ (Donation.donator old = Account.id request_user
         \/ Donation.recipient old = Some (Account.id request_user))
     /\ reply_body r = DonationData donation
     /\ status = Some (Donation.status donation)
     /\ Donation.status donation <> ""%string
     /\ donations d'
        = map (fun x => if Donation.id x =? pk then donation else x) (donations d)
     /\ donation_tracking d' = donation_tracking d ++ [entry]
     /\ DonationTracking.donation entry = pk
     /\ DonationTracking.status entry = Donation.status donation
     /\ DonationTracking.updated_by entry = Some (Account.id request_user)
     /\ (Donation.status donation <> "delivered"%string ->
         Donation.delivered_at donation = Donation.delivered_at old)
     /\ (Donation.status donation = "delivered"%string ->
         exists t, Donation.delivered_at donation = Some t /\ desk_clock d <= t)
     /\ notes <> Some JNull
     /\ (forall text, notes = Some (JStr text) -> DonationTracking.notes entry = text)
     /\ (notes = None -> DonationTracking.notes entry = ""%string))
  /\ (reply_status r <> 200 -> donation_tracking d' = donation_tracking d)
  /\ (reply_status r = 400 \/ reply_status r = 403 \/ reply_status r = 404 -> d' = d)
  /\ (forall old s,
        get_donation pk d = inr old ->
        status = Some s -> s <> ""%string -> fits 20 s = true ->
        Donation.donator old = Account.id request_user
        \/ Donation.recipient old = Some (Account.id request_user) ->
        hd false faults = false ->
        notes = Some JNull \/ hd false (tail faults) = true ->
        reply_status r = 500
        /\ donation_tracking d' = donation_tracking d
        /\ exists donation,
             Donation.status donation = s
             /\ Donation.id donation = pk
             /\ donations d'
                = map (fun x => if Donation.id x =? pk then donation else x)
                      (donations d)).
Proof.
  unfold update_status.
  destruct (get_donation pk d) as [e|old] eqn:Hget.
  { destruct e; intros [= <- <-]; split; try discriminate;
      (split; [reflexivity|]); (split; [reflexivity|]); intros; discriminate. }
  pose proof (get_donation_found _ _ _ Hget) as [Hin Hid].
  destruct status as [s|]; cbn [AnonymousLocationSerializer.text_given negb].
  2: { intros [= <- <-]. split; [discriminate|]. split; [reflexivity|].
       split; [reflexivity|]. intros; discriminate. }
  destruct (Py.truthy_str s) eqn:Hs; cbn [negb].
  2: { intros [= <- <-]. split; [discriminate|]. split; [reflexivity|].
       split; [reflexivity|]. intros old' s' _ [= <-] Hne'. exfalso.
       unfold Py.truthy_str in Hs. destruct (String.eqb_spec s ""); [contradiction|].
       discriminate. }
  cbn [default from_option id].
  assert (Hne : s <> ""%string) by (intros ->; discriminate Hs).
  destruct (negb (Donation.donator old =? Account.id request_user)
            && negb (bool_decide (Donation.recipient old
                                  = Some (Account.id request_user)))) eqn:Hwho.
  { intros [= <- <-]. split; [discriminate|]. split; [reflexivity|].
    split; [reflexivity|]. intros old' s' [= <-] _ _ _ Hmay. exfalso.
    apply andb_true_iff in Hwho as [Hd Hr].
    apply negb_true_iff in Hd, Hr. apply Z.eqb_neq in Hd.
    apply bool_decide_eq_false in Hr. destruct Hmay; contradiction. }
  assert (Hmay : Donation.donator old = Account.id request_user
                 \/ Donation.recipient old = Some (Account.id request_user)).
  { apply andb_false_iff in Hwho as [H|H]; apply negb_false_iff in H.
    - left. apply Z.eqb_eq. exact H.
    - right. apply bool_decide_eq_true in H. exact H. }
  clear Hwho.
  pose proof (N2Z.is_nonneg (hd 0%N (desk_delays d))) as Hdelay.
  set (stamped := if String.eqb s "delivered"
                  then let (t, d0) := desk_now d in (Some t, d0)
                  else (Donation.delivered_at old, d)).
  assert (Hstamped :
    donations (snd stamped) = donations d
    /\ donation_tracking (snd stamped) = donation_tracking d
    /\ next_donation_tracking_id (snd stamped) = next_donation_tracking_id d
    /\ (s <> "delivered"%string -> stamped = (Donation.delivered_at old, d))
    /\ (s = "delivered"%string ->
        exists t, fst stamped = Some t /\ desk_clock d <= t)).
  { unfold stamped. destruct (String.eqb_spec s "delivered") as [Hdel|Hdel];
      cbn [desk_now fst snd donations donation_tracking next_donation_tracking_id].
    - repeat split; try contradiction. eexists. split; [reflexivity|lia].
    - repeat split. intros; contradiction. }
  destruct stamped as [delivered_at d0]. cbn [fst snd] in Hstamped.
  destruct Hstamped as (Hdon & Htrack & Hnext & Hkeep & Hstamp).
  destruct (hd false faults) eqn:Hfirst; cbn [orb].
  { intros [= <- <-]. split; [discriminate|]. split; [intros _; exact Htrack|].
    split; [intros [|[|]]; discriminate|]. intros; discriminate. }
  destruct (fits 20 s) eqn:Hfits; cbn [negb].
  2: { intros [= <- <-]. split; [discriminate|]. split; [intros _; exact Htrack|].
       split; [intros [|[|]]; discriminate|].
       intros old' s' _ [= <-] _ Hfits'. congruence. }
  cbn [desk_now].
  destruct (text_db_value (default (JStr "") notes)) as [text|] eqn:Htext.
  2: { intros [= <- <-]. unfold save_donation, set_donations.
       cbn [donations donation_tracking Donation.id Donation.status reply_status].
       split; [discriminate|]. split; [intros _; exact Htrack|].
       split; [intros [|[|]]; discriminate|].
       intros old' s' [= <-] [= <-] _ _ _ _ _.
       split; [reflexivity|]. split; [exact Htrack|].
       rewrite Hdon, Hid. eexists. split; [|split]. 3: reflexivity. all: reflexivity. }
  destruct (hd false (tail faults)) eqn:Hsecond.
  { intros [= <- <-]. unfold save_donation, set_donations.
    cbn [donations donation_tracking Donation.id Donation.status reply_status].
    split; [discriminate|]. split; [intros _; exact Htrack|].
    split; [intros [|[|]]; discriminate|].
    intros old' s' [= <-] [= <-] _ _ _ _ _.
    split; [reflexivity|]. split; [exact Htrack|].
    rewrite Hdon, Hid. eexists. split; [|split]. 3: reflexivity. all: reflexivity. }
  intros [= <- <-]. unfold set_donation_tracking, save_donation, set_donations.
  cbn [donations donation_tracking Donation.id Donation.status
       Donation.delivered_at DonationTracking.donation DonationTracking.status
       DonationTracking.updated_by DonationTracking.notes reply_body reply_status
       desk_clock].
  split.
  2: { split; [intros Hbad; contradiction Hbad; reflexivity|].
       split; [intros [|[|]]; discriminate|].
       intros old' s' _ _ _ _ _ _ [->|Hno]; [discriminate Htext | discriminate Hno]. }
  intros _. exists old. eexists. eexists.
  cbn [Donation.status Donation.delivered_at DonationTracking.donation
       DonationTracking.status DonationTracking.updated_by DonationTracking.notes].
  rewrite Hdon, Htrack, Hid.
  split; [exact Hin|]. split; [reflexivity|]. split; [exact Hmay|].
  split; [reflexivity|]. split; [reflexivity|]. split; [exact Hne|].
  split; [reflexivity|]. split; [reflexivity|]. split; [reflexivity|].
  split; [reflexivity|]. split; [reflexivity|].
  split. { intros Hdel. specialize (Hkeep Hdel). injection Hkeep as -> _. reflexivity. }
  split. { exact Hstamp. }
  split. { intros ->. discriminate Htext. }
  split. { intros text' ->. cbn in Htext. injection Htext as <-. reflexivity. }
  intros ->. cbn in Htext. injection Htext as <-. reflexivity.
Qed.

(** X23. When [assign_recipient] answers 200 the caller is the donator of
    the donation or a staff member and the recipient is an account with
    the role [affected]; the donation then has that recipient and the
    status [approved], whatever its status was, and no tracking entry was
    written for the change.  Any other answer changes nothing. *)
Theorem assign_recipient_approves (d d' : Desk) (request_user : Account.t) (pk : Z)
    (recipient_id : option Z) (r : Reply) :
  assign_recipient (Some request_user) pk recipient_id d = (r, d') ->
  (reply_status r = 200 ->
   exists old recipient donation,
     In old (donations d) /\ Donation.id old = pk
     /\ (Donation.donator old = Account.id request_user
         \/ Account.is_staff request_user = true)
     /\ In recipient (accounts d)
     /\ recipient_id = Some (Account.id recipient)
     /\ Account.role recipient = "affected"%string
     /\ reply_body r = DonationData donation
     /\ Donation.recipient donation = Some (Account.id recipient)
     /\ Donation.status donation = "approved"%string
     /\ Donation.delivered_at donation = Donation.delivered_at old
     /\ donations d'
        = map (fun x => if Donation.id x =? pk then donation else x) (donations d)
     /\ donation_tracking d' = donation_tracking d)
  /\ (reply_status r <> 200 -> d' = d).
Proof.
  unfold assign_recipient.
  destruct (get_donation pk d) as [e|old] eqn:Hget.
  { destruct e; intros [= <- <-]; split; try discriminate; auto. }
  apply get_donation_found in Hget as [Hin Hid].
  destruct (negb (Donation.donator old =? Account.id request_user)
            && negb (Account.is_staff request_user)) eqn:Hwho.
  { intros [= <- <-]; split; try discriminate; auto. }
  assert (Hmay : Donation.donator old = Account.id request_user
                 \/ Account.is_staff request_user = true).
  { apply andb_false_iff in Hwho as [H|H]; apply negb_false_iff in H;
      [left; apply Z.eqb_eq; exact H | right; exact H]. }
  destruct recipient_id as [rid|];
    [|intros [= <- <-]; split; try discriminate; auto].
  destruct (get_unique _) as [e|recipient] eqn:Hrec.
  { destruct e; intros [= <- <-]; split; try discriminate; auto. }
  apply get_unique_filter in Hrec as [Hrin Hprop].
  apply andb_true_iff in Hprop as [Hrid Hrole].
  apply Z.eqb_eq in Hrid. apply String.eqb_eq in Hrole.
  intros [= <- <-]. split; [|intros Hbad; contradiction Hbad; reflexivity].
  intros _. exists old, recipient. eexists.
  cbn [donations donation_tracking save_donation set_donations Donation.id
       Donation.status Donation.delivered_at Donation.recipient reply_body].
  rewrite Hid, Hrid. repeat (split; [first [assumption | reflexivity]|]).
  reflexivity.
Qed.

(** X24. Registration by phone number and the login that follows it: when
    [register_affected] has answered 201 the table has one more account,
    with the role [affected], the placeholder address
    [<phone>@affected.local] and no usable password; [login_affected] with
    that phone number then answers 200 with that account, and a second
    registration of the number is answered 400 and adds nothing. *)
Theorem register_then_login (d d1 : Desk) (phone first last : string)
    (address : option string) (r : Reply) :
  keys_fresh (map Account.id (accounts d)) (next_account_id d) ->
  register_affected (Some phone) (Some first) (Some last) address d = (r, d1) ->
  reply_status r = 201 ->
  exists user refresh access,
    reply_body r = SessionBody user refresh access
    /\ Account.phone_number user = phone
    /\ Account.role user = "affected"%string
    /\ Account.email user = (phone ++ "@affected.local")%string
    /\ Account.has_usable_password user = false
    /\ accounts d1 = accounts d ++ [user]
    /\ (exists refresh' access' d2,
          login_affected (Some phone) d1
          = (mkReply 200 (SessionBody user refresh' access'), d2)
          /\ accounts d2 = accounts d1)
    /\ (forall first' last' address',
          reply_status (fst (register_affected (Some phone) first' last' address' d1))
          = 400
          /\ snd (register_affected (Some phone) first' last' address' d1) = d1).
Proof.
  intros [Hnd Hlt]. unfold register_affected.
  cbn [AnonymousLocationSerializer.text_given default from_option id].
  destruct (Py.truthy_str phone) eqn:Hphone; cbn [negb orb];
    [|intros [= <- <-]; discriminate].
  destruct (Py.truthy_str first); cbn [negb orb]; [|intros [= <- <-]; discriminate].
  destruct (Py.truthy_str last); cbn [negb orb]; [|intros [= <- <-]; discriminate].
  destruct (existsb _ (accounts d)) eqn:Hknown; [intros [= <- <-]; discriminate|].
  destruct (_ || _); [intros [= <- <-]; discriminate|].
  unfold for_user, set_accounts, Account.set_unusable_password.
  cbn [accounts next_account_id Account.id Account.email Account.first_name
       Account.last_name Account.role Account.phone_number Account.address
       Account.is_location_shared Account.is_staff].
  assert (Hmap : map (fun u => if Account.id u =? next_account_id d
                               then Account.mk (next_account_id d)
                                      (phone ++ "@affected.local") first last
                                      "affected" phone (default ""%string address)
                                      false false false
                               else u)
                     (accounts d
                      ++ [Account.mk (next_account_id d) (phone ++ "@affected.local")
                            first last "affected" phone (default ""%string address)
                            false false true])
                 = accounts d
                   ++ [Account.mk (next_account_id d) (phone ++ "@affected.local")
                         first last "affected" phone (default ""%string address)
                         false false false]).
  { rewrite map_app. cbn [map Account.id]. rewrite Z.eqb_refl. f_equal.
    rewrite <- (map_id (accounts d)) at 2. apply map_ext_in. intros u Hu.
    destruct (Z.eqb_spec (Account.id u) (next_account_id d)) as [Heq|]; [|reflexivity].
    apply (in_map Account.id) in Hu. apply Hlt in Hu. lia. }
  cbv [default from_option id] in Hmap |- *. rewrite Hmap.
  intros [= <- <-] _. eexists _, _, _.
  cbn [reply_body accounts Account.phone_number Account.role Account.email
       Account.has_usable_password].
  repeat (split; [reflexivity|]).
  assert (Hnew : forall u, In u (accounts d) ->
                           String.eqb (Account.phone_number u) phone = false).
  { intros u Hu. apply not_true_iff_false. intros Heq.
    apply not_true_iff_false in Hknown. apply Hknown.
    apply existsb_exists. exists u. auto. }
  split.
  - unfold login_affected.
    cbn [AnonymousLocationSerializer.text_given default from_option id].
    rewrite Hphone. cbn [negb accounts].
    rewrite List.filter_app. cbn [List.filter Account.phone_number Account.role].
    rewrite String.eqb_refl. cbn [andb String.eqb Ascii.eqb Bool.eqb].
    rewrite filter_none by (intros u Hu; rewrite (Hnew u Hu); reflexivity).
    cbn [app get_unique for_user]. eexists _, _, _. split; reflexivity.
  - intros first' last' address'.
    cbn [AnonymousLocationSerializer.text_given default from_option id negb orb].
    destruct (_ || _); [split; reflexivity|].
    cbn [accounts]. rewrite existsb_app.
    cbn [existsb Account.phone_number]. rewrite String.eqb_refl.
    rewrite orb_true_r. split; reflexivity.
Qed.

(** X25. The switch of [toggle_location_sharing] decides what
    [affected_users] shows of the caller: after a toggle that answered
    the flag [shared], a location of the caller is listed exactly when
    [shared] is true, the account has the role [affected] and the location
    is current. *)
Theorem sharing_controls_listing (d d1 : Desk) (request_user user viewer : Account.t)
    (shared : bool) :
  List.NoDup (map Account.id (accounts d)) ->
  In user (accounts d) ->
  Account.id user = Account.id request_user ->
  toggle_location_sharing (Some request_user) (Account.id request_user) d
  = (mkReply 200 (SharingBody shared), d1) ->
  exists rows,
    affected_users (Some viewer) d1 = (mkReply 200 (UserLocationsBody rows), d1)
    /\ forall l, Location.user l = Account.id request_user ->
                 (In l rows
                  <-> shared = true
                      /\ Account.role user = "affected"%string
                      /\ In l (user_locations d)
                      /\ Location.is_current l = true).
Proof.
  intros Hnd Hin Hown. unfold toggle_location_sharing.
  rewrite <- Hown.
  rewrite (filter_by_key Account.id _ user Hnd Hin). cbn [get_unique].
  rewrite Hown, Z.eqb_refl. cbn [negb]. rewrite <- Hown.
  cbn [Account.id Account.set_is_location_shared Account.is_location_shared].
  intros [= <- <-].
  unfold affected_users. eexists. split; [reflexivity|].
  intros l Hl. unfold set_accounts. cbn [accounts user_locations].
  rewrite order_by_desc_In, filter_In, andb_true_iff.
  assert (Hshared :
    shared_by_affected
      (map (fun u => if Account.id u =? Account.id user
                     then Account.set_is_location_shared
                            (negb (Account.is_location_shared user)) user
                     else u) (accounts d)) l = true
    <-> negb (Account.is_location_shared user) = true
        /\ Account.role user = "affected"%string).
  { unfold shared_by_affected. rewrite existsb_exists. split.
    - intros (u & Hu & Hprop). apply in_map_iff in Hu as (u0 & <- & Hu0).
      apply andb_true_iff in Hprop as [Hprop Hflag].
      apply andb_true_iff in Hprop as [Hid Hrole].
      apply String.eqb_eq in Hrole.
      destruct (Z.eqb_spec (Account.id u0) (Account.id user)) as [Heq|Hne].
      + cbn in Hflag, Hrole. auto.
      + apply Z.eqb_eq in Hid. congruence.
    - intros [Hflag Hrole].
      exists (Account.set_is_location_shared
                (negb (Account.is_location_shared user)) user).
      split.
      + apply in_map_iff. exists user. rewrite Z.eqb_refl. auto.
      + cbn. rewrite Hflag, Hl, Hown, Z.eqb_refl, andb_true_r.
        apply String.eqb_eq. exact Hrole. }
  rewrite Hshared. tauto.
Qed.

(** X26. [EmergencyRequestViewSet.update_status] asks nothing of the
    caller but to be authenticated: for every account, whether or not it
    made the request, a status that the column can hold is written to the
    request and answered 200; [fulfilled_at] is stamped when the status is
    [fulfilled] and is otherwise left as it was. *)
Theorem emergency_update_status_any_caller (d : Desk) (caller : Account.t)
    (request : EmergencyRequest.t) (status : string) :
  List.NoDup (map EmergencyRequest.id (emergency_requests d)) ->
  In request (emergency_requests d) ->
  status <> ""%string ->
  fits 20 status = true ->
  exists updated d',
    emergency_update_status (Some caller) (EmergencyRequest.id request) (Some status) d
    = (mkReply 200 (EmergencyData updated), d')
    /\ EmergencyRequest.status updated = status
    /\ EmergencyRequest.requester updated = EmergencyRequest.requester request
    /\ (status <> "fulfilled"%string ->
        EmergencyRequest.fulfilled_at updated = EmergencyRequest.fulfilled_at request)
    /\ (status = "fulfilled"%string ->
        exists t, EmergencyRequest.fulfilled_at updated = Some t /\ desk_clock d <= t)
    /\ emergency_requests d'
       = map (fun x => if EmergencyRequest.id x =? EmergencyRequest.id request
                       then updated else x) (emergency_requests d).
Proof.
  intros Hnd Hin Hne Hfits. unfold emergency_update_status.
  rewrite (filter_by_key EmergencyRequest.id _ request Hnd Hin). cbn [get_unique].
  cbn [AnonymousLocationSerializer.text_given default from_option id].
  rewrite (truthy_str_ne status Hne). cbn [negb].
  pose proof (N2Z.is_nonneg (hd 0%N (desk_delays d))) as Hdelay.
  destruct (String.eqb_spec status "fulfilled") as [Hful|Hful]; cbn [desk_now].
  all: rewrite Hfits; cbn [negb]; eexists _, _; split; [reflexivity|].
  all: unfold set_emergency_requests.
  all: cbn [emergency_requests EmergencyRequest.status EmergencyRequest.requester
            EmergencyRequest.fulfilled_at EmergencyRequest.id desk_clock].
  all: split; [reflexivity|]; split; [reflexivity|].
  all: split; [intros Hx; first [contradiction | reflexivity]|].
  all: split; [intros Hx;
               first [contradiction | eexists; split; [reflexivity|lia]]|].
  all: reflexivity.
Qed.

End ReliefHandlers.


Lemma location_create_current_witness :
  (exists location d',
     location_create [] (Some ana) manila desk
     = (mkReply 201 (UserLocationBody location), d')
     /\ List.filter (fun l => (Location.user l =? 1) && Location.is_current l)
          (user_locations d') = [location])
  /\ (exists r d',
        location_create [false; true] (Some ana) manila shared_desk = (r, d')
        /\ In ana_home (user_locations shared_desk)
        /\ Location.is_current ana_home = true
        /\ reply_status r = 500
        /\ List.filter (fun l => (Location.user l =? 1) && Location.is_current l)
             (user_locations d') = [])
  /\ (exists r d' location,
        location_create [] (Some ana) manila_somewhere desk = (r, d')
        /\ reply_status r = 500
        /\ user_locations d' = [location]
        /\ Location.is_current location = true).
Proof.
  split; [|split].
  - set (p := location_create [] (Some ana) manila desk).
    assert (Hrun : location_create [] (Some ana) manila desk = p) by reflexivity.
    vm_compute in p. subst p.
    pose proof (location_create_current _ _ _ _ _ _ Hrun) as Hall. cbv zeta in Hall.
    destruct (proj1 Hall eq_refl) as (location & Hbody & _ & Hcurrent & _).
    injection Hbody as <-.
    eexists _, _. split; [reflexivity | exact Hcurrent].
  - set (p := location_create [false; true] (Some ana) manila shared_desk).
    assert (Hrun : location_create [false; true] (Some ana) manila shared_desk
                   = (fst p, snd p)) by apply surjective_pairing.
    pose proof (location_create_current _ _ _ _ _ _ Hrun) as Hall. cbv zeta in Hall.
    destruct Hall as (_ & _ & _ & Hfailed).
    assert (Hvalid : reply_status (fst p) <> 400) by discriminate.
    destruct (proj1 (Hfailed Hvalid eq_refl) eq_refl) as (Hstatus & _ & Hnone).
    exists (fst p), (snd p). split; [exact Hrun|]. split; [left; reflexivity|].
    split; [reflexivity|]. split; [exact Hstatus | exact Hnone].
  - set (p := location_create [] (Some ana) manila_somewhere desk).
    assert (Hrun : location_create [] (Some ana) manila_somewhere desk
                   = (fst p, snd p)) by apply surjective_pairing.
    pose proof (location_create_current _ _ _ _ _ _ Hrun) as Hall. cbv zeta in Hall.
    destruct Hall as (_ & _ & _ & Hfailed).
    assert (Hvalid : reply_status (fst p) <> 400) by discriminate.
    destruct (proj2 (Hfailed Hvalid eq_refl) eq_refl eq_refl)
      as (Hstatus & location & Hrows & _ & Hcurrent & _).
    exists (fst p), (snd p), location. split; [exact Hrun|]. split; [exact Hstatus|].
    split; [exact Hrows | exact Hcurrent].
Defined.

Lemma update_status_tracks_witness :
  (exists donation entry d',
     update_status (be := strict_backend) (rt := plain_runtime) [] (Some dana) 1
       (Some "delivered"%string) None desk
     = (mkReply 200 (DonationData donation), d')
     /\ donation_tracking d' = donation_tracking desk ++ [entry]
     /\ DonationTracking.status entry = "delivered"%string)
  /\ (exists r d' donation,
        update_status (be := strict_backend) (rt := plain_runtime) [] (Some dana) 1
          (Some "delivered"%string) (Some JNull) desk = (r, d')
        /\ reply_status r = 500
        /\ donation_tracking d' = donation_tracking desk
        /\ Donation.status donation = "delivered"%string
        /\ donations d' = [donation]).
Proof.
  split.
  - set (p := update_status (be := strict_backend) (rt := plain_runtime) [] (Some dana) 1
                (Some "delivered"%string) None desk).
    assert (Hrun : update_status (be := strict_backend) (rt := plain_runtime) []
                     (Some dana) 1 (Some "delivered"%string) None desk = p)
      by reflexivity.
    vm_compute in p. subst p.
    destruct (proj1 (update_status_tracks (be := strict_backend) (rt := plain_runtime)
                       _ _ _ _ _ _ _ _ Hrun) eq_refl)
      as (old & donation & entry & _ & _ & _ & Hbody & Hstatus & _ & _ & Hrows & _
          & Hentry & _).
    injection Hbody as <-.
    eexists _, entry, _. split; [reflexivity|]. split; [exact Hrows|].
    rewrite Hentry. reflexivity.
  - set (p := update_status (be := strict_backend) (rt := plain_runtime) [] (Some dana) 1
                (Some "delivered"%string) (Some JNull) desk).
    assert (Hrun : update_status (be := strict_backend) (rt := plain_runtime) []
                     (Some dana) 1 (Some "delivered"%string) (Some JNull) desk
                   = (fst p, snd p)) by apply surjective_pairing.
    assert (Hne : "delivered"%string <> ""%string) by discriminate.
    destruct (proj2 (proj2 (proj2 (update_status_tracks (be := strict_backend)
                                     (rt := plain_runtime) _ _ _ _ _ _ _ _ Hrun)))
                rice "delivered"%string eq_refl eq_refl Hne eq_refl
                (or_introl eq_refl) eq_refl (or_introl eq_refl))
      as (Hstatus & Htracking & donation & Hnew & _ & Hrows).
    exists (fst p), (snd p), donation. split; [exact Hrun|]. split; [exact Hstatus|].
    split; [exact Htracking|]. split; [exact Hnew|]. rewrite Hrows. reflexivity.
Defined.

Lemma assign_recipient_approves_witness :
  exists donation d',
    assign_recipient (Some dana) 1 (Some 1) desk
    = (mkReply 200 (DonationData donation), d')
    /\ Donation.status donation = "approved"%string
    /\ donation_tracking d' = donation_tracking desk.
Proof.
  set (p := assign_recipient (Some dana) 1 (Some 1) desk).
  assert (Hrun : assign_recipient (Some dana) 1 (Some 1) desk = p) by reflexivity.
  vm_compute in p. subst p.
  destruct (proj1 (assign_recipient_approves _ _ _ _ _ _ Hrun) eq_refl)
    as (old & recipient & donation & _ & _ & _ & _ & _ & _ & Hbody & _ & Hstatus & _
        & _ & Hrows).
  injection Hbody as <-.
  eexists _, _. split; [reflexivity|]. split; [exact Hstatus | exact Hrows].
Defined.

Lemma register_then_login_witness :
  exists user refresh access d1,
    register_affected (be := strict_backend) (Some "09181234567"%string)
      (Some "Cora"%string) (Some "Diaz"%string) None desk
    = (mkReply 201 (SessionBody user refresh access), d1)
    /\ Account.has_usable_password user = false
    /\ reply_status (fst (login_affected (Some "09181234567"%string) d1)) = 200.
Proof.
  set (p := register_affected (be := strict_backend) (Some "09181234567"%string)
              (Some "Cora"%string) (Some "Diaz"%string) None desk).
  assert (Hrun : register_affected (be := strict_backend) (Some "09181234567"%string)
                   (Some "Cora"%string) (Some "Diaz"%string) None desk = p)
    by reflexivity.
  vm_compute in p. subst p.
  assert (Hfresh : keys_fresh (map Account.id (accounts desk)) (next_account_id desk)).
  { split.
    - repeat constructor; simpl; intuition discriminate.
    - simpl. intros i [<-|[<-|[]]]; lia. }
  destruct (register_then_login (be := strict_backend) _ _ _ _ _ _ _ Hfresh Hrun eq_refl)
    as (user & refresh & access & Hbody & _ & _ & _ & Hpassword & _
        & (refresh' & access' & d2 & Hlogin & _) & _).
  injection Hbody as <- <- <-.
  eexists _, _, _, _. split; [reflexivity|]. split; [exact Hpassword|].
  rewrite Hlogin. reflexivity.
Defined.

Lemma emergency_update_status_any_caller_witness :
  exists updated d',
    emergency_update_status (be := strict_backend) (Some dana) 1
      (Some "fulfilled"%string) desk
    = (mkReply 200 (EmergencyData updated), d')
    /\ EmergencyRequest.status updated = "fulfilled"%string
    /\ EmergencyRequest.requester updated = 1.
Proof.
  assert (Hnd : List.NoDup (map EmergencyRequest.id (emergency_requests desk))).
  { repeat constructor; simpl; tauto. }
  destruct (emergency_update_status_any_caller (be := strict_backend) desk dana flood
              "fulfilled" Hnd (or_introl eq_refl))
    as (updated & d' & Hrun & Hstatus & Hrequester & _);
    [discriminate | reflexivity |].
  exists updated, d'. split; [exact Hrun|]. split; [exact Hstatus | exact Hrequester].
Defined.

Lemma sharing_controls_listing_witness :
  exists d1 rows,
    toggle_location_sharing (Some ana) 1 shared_desk
    = (mkReply 200 (SharingBody true), d1)
    /\ affected_users (Some dana) d1 = (mkReply 200 (UserLocationsBody rows), d1)
    /\ In ana_home rows.
Proof.
  set (p := toggle_location_sharing (Some ana) 1 shared_desk).
  assert (Hrun : toggle_location_sharing (Some ana) (Account.id ana) shared_desk = p)
    by reflexivity.
  vm_compute in p. subst p.
  assert (Hnd : List.NoDup (map Account.id (accounts shared_desk))).
  { repeat constructor; simpl; intuition discriminate. }
  destruct (sharing_controls_listing shared_desk _ ana ana dana true Hnd
              (or_introl eq_refl) eq_refl Hrun) as (rows & Hlist & Hrows).
  eexists _, rows. split; [reflexivity|]. split; [exact Hlist|].
  apply (Hrows ana_home eq_refl). repeat split. left. reflexivity.
Defined.

(** ** Validating validated supply needs *)

Section Revalidation.
Import AnonymousLocationSerializer.
Context {rt : Runtime}.

(** What the loop over the numeric fields has done when it returns. *)
Lemma coerce_numeric_inv (fields : list string) :
  forall d d', coerce_numeric fields d = inr d' ->
    (forall k, is_Some (d' !! k) <-> is_Some (d !! k))
    /\ (forall k, ~ In k fields -> d' !! k = d !! k)
    /\ (forall f, In f fields -> is_Some (d' !! f) ->
                  exists n, d' !! f = Some (JInt n) /\ 0 <= n).
Proof.
  induction fields as [|f fields IH]; intros d d'; cbn [coerce_numeric].
  - intros [= <-]. split; [reflexivity|]. split; [reflexivity|]. intros ? [].
  - destruct (d !! f) as [v|] eqn:Hv.
    + destruct (Py.int v) as [e|n]; [destruct e; discriminate|].
      destruct (Z.ltb_spec n 0) as [|Hpos]; [discriminate|].
      intros Hrun. destruct (IH _ _ Hrun) as (Hdom & Hout & Hin).
      split; [|split].
      * intros k. rewrite Hdom. destruct (decide (k = f)) as [->|Hne].
        -- rewrite lookup_insert_eq, Hv. split; eauto.
        -- rewrite lookup_insert_ne by congruence. reflexivity.
      * intros k Hk. rewrite Hout by (intros ?; apply Hk; right; assumption).
        apply lookup_insert_ne. intros ->. apply Hk. left. reflexivity.
      * intros f' [<-|Hf'] Hsome; [|apply Hin; assumption].
        destruct (in_dec string_dec f fields) as [Hmem|Hnot]; [apply Hin; assumption|].
        rewrite (Hout f Hnot), lookup_insert_eq. eauto.
    + intros Hrun. destruct (IH _ _ Hrun) as (Hdom & Hout & Hin).
      split; [exact Hdom|]. split.
      * intros k Hk. apply Hout. intros ?. apply Hk. right. assumption.
      * intros f' [<-|Hf'] Hsome; [|apply Hin; assumption].
        apply Hdom in Hsome. rewrite Hv in Hsome. destruct Hsome as [? [=]].
Qed.

(** Whole numbers that are not negative pass the loop unchanged. *)
Lemma coerce_numeric_fixed (fields : list string) :
  forall d,
    (forall f, In f fields -> is_Some (d !! f) ->
               exists n, d !! f = Some (JInt n) /\ 0 <= n) ->
    coerce_numeric fields d = inr d.
Proof.
  induction fields as [|f fields IH]; intros d Hok; cbn [coerce_numeric];
    [reflexivity|].
  destruct (d !! f) as [v|] eqn:Hv.
  - destruct (Hok f (or_introl eq_refl)) as (n & Hn & Hpos); [eauto|].
    rewrite Hv in Hn. injection Hn as ->. cbn [Py.int].
    destruct (Z.ltb_spec n 0) as [|_]; [lia|].
    rewrite insert_id by exact Hv. apply IH.
    intros f' Hf'. apply Hok. right. exact Hf'.
  - apply IH. intros f' Hf'. apply Hok. right. exact Hf'.
Qed.

(** X27. Validation of supply needs is idempotent: what
    [validate] has made of the supply needs of a submission passes the
    same validation again unchanged, provided cleaning a cleaned text
    changes nothing. *)
Theorem validate_supply_needs_idempotent (supply_needs validated : Json) :
  (forall s, bleach_clean (bleach_clean s) = bleach_clean s) ->
  (forall s, py_str (JStr s) = s) ->
  validate_supply_needs supply_needs = inr validated ->
  validate_supply_needs validated = inr validated.
Proof.
  intros Hclean Hstr. unfold validate_supply_needs at 1.
  destruct (match supply_needs with JStr _ => _ | _ => _ end) as [e|parsed];
    [discriminate|].
  destruct parsed as [| | | | | |d]; try discriminate.
  destruct (invalid_fields d) as [|bad rest] eqn:Hbad; [|discriminate].
  destruct (coerce_numeric numeric_fields d) as [e|d'] eqn:Hrun; [discriminate|].
  intros [= <-].
  destruct (coerce_numeric_inv _ _ _ Hrun) as (Hdom & Hout & Hin).
  assert (Hother : ~ In "other"%string numeric_fields).
  { unfold numeric_fields. simpl. intuition discriminate. }
  assert (Hdom2 : forall k, is_Some (sanitize_other d' !! k) <-> is_Some (d !! k)).
  { intros k. rewrite <- Hdom. unfold sanitize_other.
    destruct (d' !! "other"%string) as [v|] eqn:Hv; [|reflexivity].
    destruct (decide (k = "other"%string)) as [->|Hne].
    - rewrite lookup_insert_eq, Hv. split; eauto.
    - rewrite lookup_insert_ne by congruence. reflexivity. }
  assert (Hnum : forall f, In f numeric_fields -> sanitize_other d' !! f = d' !! f).
  { intros f Hf. unfold sanitize_other.
    destruct (d' !! "other"%string); [|reflexivity].
    apply lookup_insert_ne. intros <-. contradiction. }
  unfold validate_supply_needs.
  assert (Hallowed : invalid_fields (sanitize_other d') = []).
  { apply invalid_fields_none. intros k Hk. apply Hdom2 in Hk.
    destruct (is_allowed k) eqn:Hno; [reflexivity|].
    contradiction (invalid_fields_unknown d k Hk Hno). }
  rewrite Hallowed.
  rewrite coerce_numeric_fixed.
  2: { intros f Hf Hsome. rewrite (Hnum f Hf) in *. apply Hin; assumption. }
  f_equal. f_equal. unfold sanitize_other at 1.
  destruct (sanitize_other d' !! "other"%string) as [v|] eqn:Hv; [|reflexivity].
  revert Hv. unfold sanitize_other.
  destruct (d' !! "other"%string) as [v0|] eqn:Hv0.
  - rewrite lookup_insert_eq. intros [= <-].
    rewrite Hstr, Hclean, insert_insert_eq. reflexivity.
  - rewrite Hv0. discriminate.
Qed.

End Revalidation.

Lemma validate_supply_needs_idempotent_witness :
  AnonymousLocationSerializer.validate_supply_needs (rt := plain_runtime)
    (JDict {[ "water"%string := JInt 5; "other"%string := JStr "soap" ]})
  = inr (JDict {[ "water"%string := JInt 5; "other"%string := JStr "soap" ]}).
Proof.
  apply (validate_supply_needs_idempotent (rt := plain_runtime)
           (JDict {[ "water"%string := JStr "5"; "other"%string := JStr "soap" ]})).
  - reflexivity.
  - reflexivity.
  - vm_compute. reflexivity.
Defined.
